(** * Disaster-alert analytics: a shallow embedding and its properties

    The development follows the Python sources of the repository:
    - [backend/app/main.py], [backend/app/google_fetcher.py],
      [backend/app/external_data.py]  (ingestion and source adapters);
    - [mcp/app/main.py], [mcp/app/advanced_mcp.py],
      [mcp/app/decision_support.py], [mcp/app/recommendation_engine.py]
      (clustering, trends, risk scoring, recommendations).

    Conventions of the embedding.
    - Python floats are idealised as exact rationals ([Q]).  A test
      [((dx)**2 + (dy)**2)**0.5 < r] with a non-negative radius [r] is
      written on the squares, [dx*dx + dy*dy < r*r], which is the same
      test over the reals.
    - A JSON object read with [d.get(key, default)] is a record whose
      field is an [option]; the getter supplies the default.
    - [created_at] holds the outcome of
      [datetime.fromisoformat(alert['created_at'].replace('Z', '+00:00'))]:
      [None] stands for every way this expression raises (missing key,
      not a string, not ISO formatted).
    - A Python list of dicts mutated in place is a list updated by index.
    - Code that can raise returns a [result].
    - An f-string field [{n}] that holds an integer is [pretty n]; the
      text of a float is left to a parameter [fmt]. *)

From Stdlib Require Import QArith Lqa ZArith String.
From Stdlib Require PrimFloat.
From stdpp Require Import gmap strings list sorting pretty.

Open Scope Q_scope.

(** ** Numbers *)

Definition Qltb (x y : Q) : bool := negb (Qle_bool y x).
Definition Qleb (x y : Q) : bool := Qle_bool x y.

(** [len(l)] as a float. *)
Definition Qlen {A} (l : list A) : Q := inject_Z (Z.of_nat (length l)).
Definition Qnat (n : nat) : Q := inject_Z (Z.of_nat n).

(** [sum(xs)]: Python starts from 0 and adds from the left. *)
Definition Qsum (xs : list Q) : Q := foldl Qplus 0 xs.

(** The arithmetic mean of a list of numbers. *)
Definition mean (xs : list Q) : Q := Qsum xs / Qlen xs.

Definition sq (x : Q) : Q := x * x.

(** [((x1 - x2)**2 + (y1 - y2)**2)**0.5], squared. *)
Definition dist2 (x1 y1 x2 y2 : Q) : Q := sq (x1 - x2) + sq (y1 - y2).

(** [((x1 - x2)**2 + (y1 - y2)**2)**0.5 < r] for [0 <= r], in exact
    arithmetic: the squared distance against [r * r].  The program
    rounds the squares, the sum and the root; the two tests can differ
    when the distance is within rounding of [r] (see [Numeric] and
    [Binary64] for the test as the machine computes it). *)
Definition dist_lt (x1 y1 x2 y2 r : Q) : bool := Qltb (dist2 x1 y1 x2 y2) (sq r).
(** [((x1 - x2)**2 + (y1 - y2)**2)**0.5 <= r] for [0 <= r]. *)
Definition dist_le (x1 y1 x2 y2 r : Q) : bool := Qleb (dist2 x1 y1 x2 y2) (sq r).

(** [min(x, y)]: the first argument unless the second is smaller. *)
Definition py_min (x y : Q) : Q := if Qltb y x then y else x.

(** [l[-n:]] for [0 < n]. *)
Definition last_n {A} (n : nat) (l : list A) : list A := drop (length l - n) l.

(** ** Exceptions *)

Inductive exn : Type :=
  | KeyError | ValueError | TypeError | AttributeError
  | ConnectionError | HTTPError | JSONDecodeError
  | IntegrityError | MissingSchema.

Inductive result (A : Type) : Type :=
  | Ok (a : A)
  | Raise (e : exn).
Arguments Ok {A} a.
Arguments Raise {A} e.

#[global] Instance result_ret : MRet result := λ A a, Ok a.
#[global] Instance result_bind : MBind result := λ A B k m,
  match m with
  | Ok a => k a
  | Raise e => Raise e
  end.

(** [try: m  except Exception: handler]. *)
Definition try_except {A} (m : result A) (handler : exn → A) : A :=
  match m with
  | Ok a => a
  | Raise e => handler e
  end.

(** The text of an exception: stands for [str(e)] in the messages built
    by the handlers. *)
Definition exn_text (e : exn) : string :=
  match e with
  | KeyError => "KeyError" | ValueError => "ValueError"
  | TypeError => "TypeError" | AttributeError => "AttributeError"
  | ConnectionError => "ConnectionError" | HTTPError => "HTTPError"
  | JSONDecodeError => "JSONDecodeError" | IntegrityError => "IntegrityError"
  | MissingSchema => "MissingSchema"
  end.

(** ** HTTP replies

    [client.get(url)] either raises or gives a response; [response.json()]
    either raises or gives the decoded body. *)
Record response (A : Type) : Type := Response {
  status_code : Z;
  json : result A
}.
Arguments Response {A} status_code json.
Arguments status_code {A} r.
Arguments json {A} r.

(** [r.json() if r.status_code == 200 else dflt]. *)
Definition json_if_200 {A} (r : response A) (dflt : A) : result A :=
  if decide (status_code r = 200%Z) then json r else Ok dflt.

(** ** Alerts as the analytics services read them *)

(** A parsed [created_at]: the proleptic ordinal of [.date()], [.hour],
    and the instant in microseconds (for comparisons with [utcnow()]). *)
Record datetime : Type := DateTime {
  dt_date : Z;
  dt_hour : Z;
  dt_usec : Z
}.

Record alert : Type := Alert {
  alert_id : Z;
  alert_title : string;
  alert_lat : option Q;
  alert_lon : option Q;
  alert_severity : option Z;
  alert_created_at : option datetime
}.

(** [alert.get('lat', 0)], [alert.get('lon', 0)], [a.get('severity', 1)]. *)
Definition get_lat (a : alert) : Q := default 0 (alert_lat a).
Definition get_lon (a : alert) : Q := default 0 (alert_lon a).
Definition get_severity (a : alert) : Z := default 1%Z (alert_severity a).

(** [[a for a in alerts if a.get('severity', 1) >= 3]]. *)
Definition high_severity_of (alerts : list alert) : list alert :=
  filter (λ a, (3 ≤ get_severity a)%Z) alerts.

(** A shelter record: [s.get('lat', 0)], [s.get('lon', 0)],
    [s.get('capacity', 0)].  [None] is a missing key; a capacity that is
    there and is null (on which [sum] raises [TypeError]) is not among
    the values of this record. *)
Record shelter : Type := Shelter {
  shelter_lat : option Q;
  shelter_lon : option Q;
  shelter_capacity : option Z
}.

Definition get_shelter_lat (s : shelter) : Q := default 0 (shelter_lat s).
Definition get_shelter_lon (s : shelter) : Q := default 0 (shelter_lon s).
Definition get_capacity (s : shelter) : Z := default 0%Z (shelter_capacity s).

(** The requester location is an optional dict from strings to floats.
    [if location] holds of a dict that is there and is not empty. *)
Definition truthy (location : option (gmap string Q)) : bool :=
  match location with
  | Some d => negb (bool_decide (d = ∅))
  | None => false
  end.

(** [location.get(key, 0)]. *)
Definition loc_get (d : gmap string Q) (key : string) : Q := default 0 (d !! key).

(** One item of a recommendation list: the keys ["type"], ["title"],
    ["description"], ["actions"]. *)
Record recommendation : Type := Recommendation {
  rec_type : string;
  rec_title : string;
  rec_description : string;
  rec_actions : list string
}.

(** [class RiskAssessment(BaseModel)]. *)
Record RiskAssessment : Type := mkRiskAssessment {
  risk_level : string;
  confidence : Q;
  factors : list string;
  recommendations : list string
}.

(** ** The greedy clustering loop

    Every copy of [analyze_location_clusters] runs the same loop: search
    the clusters in order for the first one whose centre is near the
    alert ([break] at the first hit); mutate that cluster in place, or
    append a new singleton when there is none. *)
Section Greedy.
Context {C : Type}.
Variable near : alert → C → bool.
Variable absorb : alert → C → C.
Variable fresh : alert → C.

Definition place (clusters : list C) (a : alert) : list C :=
  match list_find (λ c, Is_true (near a c)) clusters with
  | Some (i, _) => alter (absorb a) i clusters
  | None => clusters ++ [fresh a]
  end.

Definition greedy (alerts_data : list alert) : list C :=
  foldl place [] alerts_data.

(** The same loop body by recursion on the cluster list (used in the
    proofs; [place_assign] shows that it is [place]). *)
Fixpoint assign (a : alert) (clusters : list C) : list C :=
  match clusters with
  | [] => [fresh a]
  | c :: rest => if near a c then absorb a c :: rest else c :: assign a rest
  end.
End Greedy.

(** ** Counting by hour

    [{h: 0 for h in range(24)}]: a dict with the keys 0 to 23 in this
    order is the list of its 24 values. *)
Definition no_hours : list nat := replicate 24 0%nat.

(** [max(d, key=d.get)] on such a dict: the keys are read in order and
    the best one is replaced only by a key with a larger count, so the
    first of the keys with the largest count is returned. *)
Fixpoint max_key_from (best best_count h : nat) (counts : list nat) : nat :=
  match counts with
  | [] => best
  | c :: rest =>
    if decide (best_count < c)%nat then max_key_from h c (S h) rest
    else max_key_from best best_count (S h) rest
  end.

Definition max_key (counts : list nat) : nat :=
  match counts with
  | [] => 0%nat
  | c :: rest => max_key_from 0 c 1 rest
  end.

(** ** [mcp/app/main.py] *)
Module McpMain.

Record cluster : Type := Cluster {
  center : Q * Q;
  alerts : list alert;
  count : nat
}.

Definition near (a : alert) (cluster : cluster) : bool :=
  let lat := get_lat a in
  let lon := get_lon a in
  let '(cluster_lat, cluster_lon) := center cluster in
  dist_lt lat lon cluster_lat cluster_lon 0.01.

(** The [if found_cluster:] branch; the mean is the exact quotient
    ([Numeric.main_absorb] has it as the loop computes it). *)
Definition absorb (a : alert) (found_cluster : cluster) : cluster :=
  let alerts_in_cluster := alerts found_cluster ++ [a] in
  let avg_lat := Qsum (get_lat <$> alerts_in_cluster) / Qlen alerts_in_cluster in
  let avg_lon := Qsum (get_lon <$> alerts_in_cluster) / Qlen alerts_in_cluster in
  {| center := (avg_lat, avg_lon);
     alerts := alerts_in_cluster;
     count := length alerts_in_cluster |}.

(** The [else:] branch. *)
Definition fresh (a : alert) : cluster :=
  {| center := (get_lat a, get_lon a); alerts := [a]; count := 1 |}.

(** The list [clusters] when the loop ends. *)
Definition internal_clusters (alerts_data : list alert) : list cluster :=
  greedy near absorb fresh alerts_data.

Definition analyze_location_clusters (alerts_data : list alert) : list cluster :=
  filter (λ c, (1 < count c)%nat) (internal_clusters alerts_data).

(** *** Trends *)

Record trends : Type := Trends {
  trend : string;
  increasing : bool;
  recent_counts : option (list nat)
}.

(** One turn of the loop over [alerts_data]: a stamp that does not parse
    is skipped ([except: continue]). *)
Definition count_day (daily_count : gmap Z nat) (alert : alert) : gmap Z nat :=
  match alert_created_at alert with
  | Some stamp =>
      let date := dt_date stamp in
      <[date := (default 0 (daily_count !! date) + 1)%nat]> daily_count
  | None => daily_count
  end.

Definition analyze_trends (alerts_data : list alert) : trends :=
  match alerts_data with
  | [] => {| trend := "stable"; increasing := false; recent_counts := None |}
  | _ =>
    let daily_count := foldl count_day ∅ alerts_data in
    let recent_dates := last_n 3 (merge_sort Z.le (map_to_list daily_count).*1) in
    if decide (length recent_dates < 2)%nat then
      {| trend := "insufficient_data"; increasing := false; recent_counts := None |}
    else
      let recent_counts := (λ date, daily_count !!! date) <$> recent_dates in
      let trend :=
        if decide (default 0 (head recent_counts) < default 0 (last recent_counts))%nat
        then "increasing" else "decreasing" in
      {| trend := trend;
         increasing := bool_decide (trend = "increasing");
         recent_counts := Some recent_counts |}
  end.

(** *** Risk *)

Definition calculate_risk_level (high_severity_count recent_count : Z) : string :=
  let risk_score := inject_Z high_severity_count * 0.6 + inject_Z recent_count * 0.4 in
  if Qltb 5 risk_score then "CRITICAL"
  else if Qltb 3 risk_score then "HIGH"
  else if Qltb 1 risk_score then "MEDIUM"
  else "LOW".

(** The body of [risk_assessment] once [alerts_data] is there. *)
Definition assess (alerts_data : list alert) : RiskAssessment :=
  let high_severity := high_severity_of alerts_data in
  let '(risk_factors, recommendations) :=
    match high_severity with
    | [] => ([], [])
    | _ => ([pretty (length high_severity) +:+ " alertas de alta severidad activas"],
            ["Monitorear continuamente alertas críticas"])
    end in
  let clusters := analyze_location_clusters alerts_data in
  let '(risk_factors, recommendations) :=
    match clusters with
    | [] => (risk_factors, recommendations)
    | _ => (risk_factors ++ ["Concentración en " +:+ pretty (length clusters) +:+ " zonas de riesgo"],
            recommendations ++ ["Optimizar recursos en zonas críticas"])
    end in
  let trends := analyze_trends alerts_data in
  let '(risk_factors, recommendations) :=
    if increasing trends
    then (risk_factors ++ ["Tendencia creciente en número de alertas"],
          recommendations ++ ["Preparar capacidad de respuesta adicional"])
    else (risk_factors, recommendations) in
  let risk_score := Qlen risk_factors * 0.5 + Qlen high_severity * 0.3 in
  let risk_level :=
    if Qleb 2 risk_score then "HIGH"
    else if Qleb 1 risk_score then "MEDIUM"
    else "LOW" in
  {| risk_level := risk_level;
     confidence := py_min (risk_score / 3.0) 1.0;
     factors := risk_factors;
     recommendations := recommendations |}.

(** [risk_assessment]: the whole body is inside [try]; [reply] is what
    [client.get(f"{BACKEND_URL}/alerts?limit=50")] does. *)
Definition risk_assessment (reply : result (response (list alert))) : RiskAssessment :=
  try_except
    (alerts_response ← reply;
     alerts_data ← json_if_200 alerts_response [];
     mret (assess alerts_data))
    (λ e, {| risk_level := "UNKNOWN";
             confidence := 0.0;
             factors := ["Error: " +:+ exn_text e];
             recommendations := ["Revisar conectividad con backend"] |}).

(** *** Recommendations *)

Record recommendations_response : Type := RecommendationsResponse {
  recommendations_of : list recommendation;
  priority : string;
  validity_period : option string
}.

Definition calculate_distance_le (lat1 lon1 lat2 lon2 max_distance : Q) : bool :=
  dist_le lat1 lon1 lat2 lon2 max_distance.

Definition get_nearby_alerts (alerts : list alert) (location : option (gmap string Q))
    (max_distance : Q) : list alert :=
  if negb (truthy location) then []
  else
    let d := default ∅ location in
    let lat := loc_get d "lat" in
    let lon := loc_get d "lon" in
    filter (λ alert, Is_true (calculate_distance_le lat lon (get_lat alert) (get_lon alert)
                                max_distance)) alerts.

Definition get_nearby_shelters (shelters : list shelter) (location : option (gmap string Q))
    (max_distance : Q) : list shelter :=
  if negb (truthy location) then []
  else
    let d := default ∅ location in
    let lat := loc_get d "lat" in
    let lon := loc_get d "lon" in
    filter (λ shelter, Is_true (calculate_distance_le lat lon
                                  (get_shelter_lat shelter) (get_shelter_lon shelter)
                                  max_distance)) shelters.

Definition generate_responder_recommendations (alerts : list alert)
    (location : option (gmap string Q)) : recommendations_response :=
  let nearby_alerts := if truthy location then get_nearby_alerts alerts location 0.01 else [] in
  let high_priority := high_severity_of nearby_alerts in
  let recommendations :=
    match high_priority with
    | [] => []
    | _ => [ {| rec_type := "immediate_action";
                rec_title := "Atender alertas críticas";
                rec_description :=
                  pretty (length high_priority) +:+ " alertas de alta prioridad en tu área";
                rec_actions := ["Desplegar equipo"; "Reportar situación"; "Solicitar apoyo"] |} ]
    end in
  let recommendations := recommendations ++
    [ {| rec_type := "preparedness";
         rec_title := "Mantenerse preparado";
         rec_description := "Equipo listo para respuesta inmediata";
         rec_actions := ["Verificar equipamiento"; "Monitorear comunicaciones";
                         "Coordinar con base"] |} ] in
  {| recommendations_of := recommendations;
     priority := match high_priority with [] => "MEDIUM" | _ => "HIGH" end;
     validity_period := Some "1h" |}.

Definition generate_coordinator_recommendations (alerts : list alert)
    : recommendations_response :=
  let high_severity := length (high_severity_of alerts) in
  let clusters := analyze_location_clusters alerts in
  let recommendations :=
    if decide (0 < high_severity)%nat then
      [ {| rec_type := "resource_management";
           rec_title := "Gestionar recursos críticos";
           rec_description :=
             pretty high_severity +:+ " alertas de alta severidad requieren atención";
           rec_actions := ["Priorizar recursos"; "Coordinar equipos"; "Actualizar planes"] |} ]
    else [] in
  let recommendations :=
    match clusters with
    | [] => recommendations
    | _ => recommendations ++
        [ {| rec_type := "strategic";
             rec_title := "Optimizar distribución";
             rec_description :=
               "Alertas concentradas en " +:+ pretty (length clusters) +:+ " zonas";
             rec_actions := ["Asignar equipos por zona"; "Establecer centros locales";
                             "Optimizar rutas"] |} ]
    end in
  {| recommendations_of := recommendations;
     priority := if decide (0 < high_severity)%nat then "HIGH" else "MEDIUM";
     validity_period := Some "2h" |}.

Definition generate_citizen_recommendations (alerts : list alert) (shelters : list shelter)
    (location : option (gmap string Q)) : recommendations_response :=
  let nearby_alerts := if truthy location then get_nearby_alerts alerts location 0.01 else [] in
  let nearby_shelters :=
    if truthy location then get_nearby_shelters shelters location 0.02 else [] in
  let recommendations :=
    match nearby_alerts with
    | [] => []
    | _ =>
      let high_severity_nearby :=
        existsb (λ a, bool_decide (3 ≤ get_severity a)%Z) nearby_alerts in
      (if high_severity_nearby then
         [ {| rec_type := "safety";
              rec_title := "¡Precaución!";
              rec_description := "Alertas de alta severidad en tu área";
              rec_actions := ["Mantente informado"; "Sigue instrucciones oficiales";
                              "Prepara kit de emergencia"] |} ]
       else []) ++
      [ {| rec_type := "awareness";
           rec_title := "Alertas cercanas";
           rec_description :=
             pretty (length nearby_alerts) +:+ " alertas reportadas cerca de ti";
           rec_actions := ["Monitorea actualizaciones"; "Conoce rutas seguras";
                           "Identifica refugios"] |} ]
    end in
  let recommendations :=
    match recommendations with
    | [] =>
      [ {| rec_type := "general";
           rec_title := "Situación normal";
           rec_description := "No hay alertas críticas en tu área";
           rec_actions := ["Mantener preparación básica"; "Conocer números de emergencia";
                           "Seguir fuentes oficiales"] |} ]
    | _ => recommendations
    end in
  {| recommendations_of := recommendations;
     priority := "LOW";
     validity_period := Some "6h" |}.

Definition generate_general_recommendations (alerts : list alert)
    : recommendations_response :=
  {| recommendations_of :=
       [ {| rec_type := "general";
            rec_title := "Monitoreo del sistema";
            rec_description := "Sistema activo con " +:+ pretty (length alerts) +:+ " alertas";
            rec_actions := ["Revisar dashboard"; "Reportar situaciones";
                            "Mantener perfil actualizado"] |} ];
     priority := "LOW";
     validity_period := Some "12h" |}.

(** [personalized_recommendations]: the two replies are those of
    [/alerts?limit=50] and [/shelters]; the body is inside [try]. *)
Definition personalized_recommendations (user_role : string)
    (location : option (gmap string Q))
    (alerts_reply : result (response (list alert)))
    (shelters_reply : result (response (list shelter))) : recommendations_response :=
  try_except
    (alerts_response ← alerts_reply;
     shelters_response ← shelters_reply;
     alerts_data ← json_if_200 alerts_response [];
     shelters_data ← json_if_200 shelters_response [];
     mret (if decide (user_role = "first_responder") then
             generate_responder_recommendations alerts_data location
           else if decide (user_role = "coordinator") then
             generate_coordinator_recommendations alerts_data
           else if decide (user_role = "citizen") then
             generate_citizen_recommendations alerts_data shelters_data location
           else generate_general_recommendations alerts_data))
    (λ e, {| recommendations_of :=
               [ {| rec_type := "error";
                    rec_title := "Error del sistema";
                    rec_description :=
                      "No se pudieron generar recomendaciones: " +:+ exn_text e;
                    rec_actions := ["Reintentar más tarde"; "Contactar soporte"] |} ];
             priority := "LOW";
             validity_period := None |}).

(** *** [GET /mcp/alerts] *)

(** The value of ["analytics"]: the four figures, or the error text. *)
Inductive analytics : Type :=
  | Analytics (total_alerts high_severity_alerts : nat)
              (severity_breakdown : gmap string nat) (risk_level : string)
  | AnalyticsError (error : string).

Record alerts_reply : Type := AlertsReply {
  reply_alerts : list alert;
  reply_analytics : analytics
}.

(** One turn of the loop: [s = str(a.get("severity", 1))],
    [counts[s] = counts.get(s, 0) + 1], and [high_severity += 1] for a
    severity of 3 or more. *)
Definition count_severity (state : gmap string nat * nat) (a : alert)
    : gmap string nat * nat :=
  let '(counts, high_severity) := state in
  let s := pretty (get_severity a) in
  (<[s := (default 0 (counts !! s) + 1)%nat]> counts,
   if decide (3 ≤ get_severity a)%Z then S high_severity else high_severity).

(** [mcp_alerts]: [reply] is what [client.get(...)] does;
    [r.raise_for_status()] raises unless the status is a success; the
    whole body is inside [try]. *)
Definition mcp_alerts (reply : result (response (list alert))) : alerts_reply :=
  try_except
    (r ← reply;
     _ ← (if decide (200 ≤ status_code r < 300)%Z then Ok () else Raise HTTPError);
     alerts ← json r;
     let '(counts, high_severity) := foldl count_severity (∅, 0%nat) alerts in
     Ok {| reply_alerts := alerts;
           reply_analytics :=
             Analytics (length alerts) high_severity counts
               (if decide (3 < high_severity)%nat then "HIGH"
                else if decide (0 < high_severity)%nat then "MEDIUM" else "LOW") |})
    (λ e, {| reply_alerts := []; reply_analytics := AnalyticsError (exn_text e) |}).

(** *** Peak hours *)

(** One turn of the loop of [analyze_temporal_patterns]:
    [hourly_count[hour] += 1] inside [try], with [except: continue] for a
    stamp that does not parse and for an hour that is not a key. *)
Definition count_hour (hourly_count : list nat) (alert : alert) : list nat :=
  match alert_created_at alert with
  | Some stamp =>
      let hour := dt_hour stamp in
      if decide (0 ≤ hour < 24)%Z then alter S (Z.to_nat hour) hourly_count
      else hourly_count
  | None => hourly_count
  end.

Definition analyze_temporal_patterns (alerts_data : list alert) : string :=
  match alerts_data with
  | [] => ""
  | _ =>
    let hourly_count := foldl count_hour no_hours alerts_data in
    let max_hour := max_key hourly_count in
    let max_count := hourly_count !!! max_hour in
    let total_alerts := length alerts_data in
    if Qltb (Qnat total_alerts * 0.2) (Qnat max_count)
    then "Pico de actividad alrededor de las " +:+ pretty max_hour +:+ ":00"
    else ""
  end.

End McpMain.

(** ** [mcp/app/advanced_mcp.py] *)
Module AdvancedMcp.

Record cluster : Type := Cluster {
  center : Q * Q;
  alerts : list alert;
  count : nat
}.

Definition near (a : alert) (cluster : cluster) : bool :=
  let lat := get_lat a in
  let lon := get_lon a in
  let '(cluster_lat, cluster_lon) := center cluster in
  dist_lt lat lon cluster_lat cluster_lon 0.01.

(** The [if found_cluster:] branch; the key ['count'] is left as it is. *)
Definition absorb (a : alert) (found_cluster : cluster) : cluster :=
  let alerts_in_cluster := alerts found_cluster ++ [a] in
  let avg_lat := Qsum (get_lat <$> alerts_in_cluster) / Qlen alerts_in_cluster in
  let avg_lon := Qsum (get_lon <$> alerts_in_cluster) / Qlen alerts_in_cluster in
  {| center := (avg_lat, avg_lon);
     alerts := alerts_in_cluster;
     count := count found_cluster |}.

Definition fresh (a : alert) : cluster :=
  {| center := (get_lat a, get_lon a); alerts := [a]; count := 1 |}.

Definition internal_clusters (alerts_data : list alert) : list cluster :=
  greedy near absorb fresh alerts_data.

Definition analyze_location_clusters (alerts_data : list alert) : list cluster :=
  match alerts_data with
  | [] => []
  | _ => filter (λ c, (1 < length (alerts c))%nat) (internal_clusters alerts_data)
  end.

(** *** Trends *)

Record trends : Type := Trends {
  trend : string;
  increasing : bool;
  last_7_days : option (list nat)
}.

(** The loop over [alerts_data]; there is no [try] here, a stamp that
    does not parse ends the function with the exception.  The program
    raises [KeyError] when the key is missing, [AttributeError] when the
    value is not a string and [ValueError] when it is not ISO formatted;
    [alert_created_at] does not tell these apart, and [ValueError]
    stands here for the three: only the fact that an exception leaves
    the function is to be read from it. *)
Fixpoint count_days (daily_count : gmap Z nat) (alerts_data : list alert)
    : result (gmap Z nat) :=
  match alerts_data with
  | [] => Ok daily_count
  | alert :: rest =>
    match alert_created_at alert with
    | Some stamp =>
        let date := dt_date stamp in
        count_days (<[date := (default 0 (daily_count !! date) + 1)%nat]> daily_count) rest
    | None => Raise ValueError
    end
  end.

Definition analyze_trends (alerts_data : list alert) : result trends :=
  match alerts_data with
  | [] => Ok {| trend := "stable"; increasing := false; last_7_days := None |}
  | _ =>
    daily_count ← count_days ∅ alerts_data;
    let recent_dates := last_n 7 (merge_sort Z.le (map_to_list daily_count).*1) in
    if decide (length recent_dates < 2)%nat then
      Ok {| trend := "insufficient_data"; increasing := false; last_7_days := None |}
    else
      let recent_counts := (λ date, daily_count !!! date) <$> recent_dates in
      let trend :=
        if decide (default 0 (head recent_counts) < default 0 (last recent_counts))%nat
        then "increasing" else "decreasing" in
      Ok {| trend := trend;
            increasing := bool_decide (trend = "increasing");
            last_7_days := Some recent_counts |}
  end.

(** *** Risk *)

(** [sum(severity_count.values())]. *)
Definition total_of (severity_count : gmap Z nat) : nat :=
  sum_list (map_to_list severity_count).*2.

Definition calculate_risk_level (severity_count : gmap Z nat) (recent_count : nat) : string :=
  let total_alerts := total_of severity_count in
  if decide (total_alerts = 0)%nat then "BAJO"
  else
    let high_severity :=
      (default 0 (severity_count !! 3%Z) + default 0 (severity_count !! 4%Z))%nat in
    let risk_score := Qnat high_severity * 0.6 + Qnat recent_count * 0.4 in
    if Qltb 5 risk_score then "CRÍTICO"
    else if Qltb 3 risk_score then "ALTO"
    else if Qltb 1 risk_score then "MEDIO"
    else "BAJO".

(** [external_data.get('alerts')] is truthy. *)
Definition external_alerts_of (external_data : option (list alert)) : list alert :=
  default [] external_data.

(** The body of [risk_assessment] once the two replies are decoded. *)
Definition assess (alerts_data : list alert) (external_data : option (list alert))
    : result RiskAssessment :=
  let high_severity_alerts := high_severity_of alerts_data in
  let '(risk_factors, recommendations) :=
    match high_severity_alerts with
    | [] => ([], [])
    | _ => ([pretty (length high_severity_alerts) +:+ " alertas de alta severidad activas"],
            ["Monitorear continuamente las alertas de alta severidad"])
    end in
  let location_clusters := analyze_location_clusters alerts_data in
  let '(risk_factors, recommendations) :=
    match location_clusters with
    | [] => (risk_factors, recommendations)
    | _ => (risk_factors ++
              ["Concentración de alertas en " +:+ pretty (length location_clusters)
               +:+ " zonas"],
            recommendations ++ ["Evaluar recursos en zonas de alta concentración"])
    end in
  let '(risk_factors, recommendations) :=
    match external_alerts_of external_data with
    | [] => (risk_factors, recommendations)
    | _ => (risk_factors ++
              [pretty (length (external_alerts_of external_data))
               +:+ " alertas externas detectadas"],
            recommendations ++ ["Integrar alertas externas al sistema de monitoreo"])
    end in
  trend ← analyze_trends alerts_data;
  let '(risk_factors, recommendations) :=
    if increasing trend
    then (risk_factors ++ ["Tendencia creciente en número de alertas"],
          recommendations ++ ["Aumentar capacidad de respuesta"])
    else (risk_factors, recommendations) in
  let risk_score := Qlen risk_factors * 0.5 + Qlen high_severity_alerts * 0.3 in
  let risk_level :=
    if Qleb 2 risk_score then "ALTO"
    else if Qleb 1 risk_score then "MEDIO"
    else "BAJO" in
  Ok {| risk_level := risk_level;
        confidence := py_min (risk_score / 3.0) 1.0;
        factors := risk_factors;
        recommendations := recommendations |}.

(** [risk_assessment]: the replies of [/alerts?limit=50] and of
    [/external-alerts]; nothing is caught. *)
Definition risk_assessment (alerts_reply : result (response (list alert)))
    (external_reply : result (response (option (list alert)))) : result RiskAssessment :=
  alerts_response ← alerts_reply;
  external_response ← external_reply;
  alerts_data ← json_if_200 alerts_response [];
  external_data ← json_if_200 external_response (Some []);
  assess alerts_data external_data.

(** *** Peak hours *)

(** The loop of [analyze_temporal_patterns]; there is no [try] here: a
    stamp that does not parse, or an hour that is not a key, ends the
    function with the exception. *)
Fixpoint count_hours (hourly_count : list nat) (alerts_data : list alert)
    : result (list nat) :=
  match alerts_data with
  | [] => Ok hourly_count
  | alert :: rest =>
    match alert_created_at alert with
    | Some stamp =>
        let hour := dt_hour stamp in
        if decide (0 ≤ hour < 24)%Z
        then count_hours (alter S (Z.to_nat hour) hourly_count) rest
        else Raise KeyError
    | None => Raise ValueError
    end
  end.

Definition analyze_temporal_patterns (alerts_data : list alert) : result string :=
  match alerts_data with
  | [] => Ok ""
  | _ =>
    hourly_count ← count_hours no_hours alerts_data;
    let max_hour := max_key hourly_count in
    if Qltb (Qlen alerts_data * 0.2) (Qnat (hourly_count !!! max_hour))
    then Ok ("Pico de alertas alrededor de las " +:+ pretty max_hour +:+ ":00")
    else Ok ""
  end.

End AdvancedMcp.

(** ** [mcp/app/decision_support.py] *)
Module DecisionSupport.

Record cluster : Type := Cluster {
  center : Q * Q;
  alerts : list alert;
  count : nat
}.

Definition near (a : alert) (cluster : cluster) : bool :=
  let lat := get_lat a in
  let lon := get_lon a in
  let '(cluster_lat, cluster_lon) := center cluster in
  dist_lt lat lon cluster_lat cluster_lon 0.01.

Definition absorb (a : alert) (found_cluster : cluster) : cluster :=
  let alerts_in_cluster := alerts found_cluster ++ [a] in
  let avg_lat := Qsum (get_lat <$> alerts_in_cluster) / Qlen alerts_in_cluster in
  let avg_lon := Qsum (get_lon <$> alerts_in_cluster) / Qlen alerts_in_cluster in
  {| center := (avg_lat, avg_lon);
     alerts := alerts_in_cluster;
     count := count found_cluster |}.

Definition fresh (a : alert) : cluster :=
  {| center := (get_lat a, get_lon a); alerts := [a]; count := 1 |}.

Definition internal_clusters (alerts_data : list alert) : list cluster :=
  greedy near absorb fresh alerts_data.

Definition analyze_location_clusters (alerts_data : list alert) : list cluster :=
  filter (λ c, (1 < length (alerts c))%nat) (internal_clusters alerts_data).

(** *** Resources of a zone *)

(** The dict returned by [calculate_required_resources]. *)
Record required_resources : Type := RequiredResources {
  medical_teams : nat;
  rescue_teams : nat;
  communication_units : nat;
  logistics_support : nat
}.

Definition calculate_required_resources (alerts : list alert) : required_resources :=
  let high_severity := length (high_severity_of alerts) in
  let total_alerts := length alerts in
  {| medical_teams := high_severity `min` 3;
     rescue_teams := (total_alerts `div` 5 + 1) `min` 5;
     communication_units := if decide (0 < total_alerts)%nat then 1 else 0;
     logistics_support := (total_alerts `div` 10 + 1) `min` 2 |}%nat.

End DecisionSupport.

(** ** [mcp/app/recommendation_engine.py] *)
Module RecommendationEngine.

Record cluster : Type := Cluster {
  center : Q * Q;
  alerts : list alert
}.

Definition near (a : alert) (cluster : cluster) : bool :=
  let lat := get_lat a in
  let lon := get_lon a in
  let '(c_lat, c_lon) := center cluster in
  dist_lt lat lon c_lat c_lon 0.01.

(** [cluster['alerts'].append(alert)]: the centre is not touched. *)
Definition absorb (a : alert) (cluster : cluster) :=
  {| center := center cluster; alerts := alerts cluster ++ [a] |}.

Definition fresh (a : alert) : cluster :=
  {| center := (get_lat a, get_lon a); alerts := [a] |}.

Definition internal_clusters (alerts_data : list alert) : list cluster :=
  greedy near absorb fresh alerts_data.

Definition analyze_location_clusters (alerts_data : list alert) : list cluster :=
  filter (λ c, (1 < length (alerts c))%nat) (internal_clusters alerts_data).

(** *** Trends *)

(** The dict returned has no ["increasing"] key for fewer than two alerts. *)
Record trends : Type := Trends {
  trend : string;
  increasing : option bool
}.

(** [[a for a in alerts_data if fromisoformat(...) > utcnow() - timedelta(hours=24)]];
    [now] is [datetime.utcnow()] in microseconds.  Nothing is caught.
    The stamps are taken to be naive, as the backend writes them: for a
    stamp with an offset (or a [Z]) the comparison with [utcnow()]
    raises [TypeError], which [datetime] here cannot tell. *)
Fixpoint recent_of (now : Z) (alerts_data : list alert) : result (list alert) :=
  match alerts_data with
  | [] => Ok []
  | a :: rest =>
    match alert_created_at a with
    | Some stamp =>
        recent ← recent_of now rest;
        Ok (if decide (now - 24 * 3600 * 1000000 < dt_usec stamp)%Z
            then a :: recent else recent)
    | None => Raise ValueError
    end
  end.

Definition analyze_trends (now : Z) (alerts_data : list alert) : result trends :=
  if decide (length alerts_data < 2)%nat then
    Ok {| trend := "stable"; increasing := None |}
  else
    recent ← recent_of now alerts_data;
    let more := Qltb (Qlen alerts_data * 0.3) (Qlen recent) in
    Ok {| trend := if more then "increasing" else "stable";
          increasing := Some more |}.

(** *** Recommendations *)

(** [class RecommendationResponse(BaseModel)]. *)
Record RecommendationResponse : Type := mkRecommendationResponse {
  recommendations_of : list recommendation;
  priority : string;
  validity_period : string
}.

Definition get_nearby_alerts (alerts : list alert) (location : option (gmap string Q))
    (max_distance : Q) : list alert :=
  if negb (truthy location) then []
  else
    let d := default ∅ location in
    let lat := loc_get d "lat" in
    let lon := loc_get d "lon" in
    filter (λ alert, Is_true (dist_le (get_lat alert) (get_lon alert) lat lon max_distance))
      alerts.

Definition get_nearby_shelters (shelters : list shelter) (location : option (gmap string Q))
    (max_distance : Q) : list shelter :=
  if negb (truthy location) then []
  else
    let d := default ∅ location in
    let lat := loc_get d "lat" in
    let lon := loc_get d "lon" in
    filter (λ shelter, Is_true (dist_le (get_shelter_lat shelter) (get_shelter_lon shelter)
                                  lat lon max_distance)) shelters.

Definition generate_responder_recommendations (alerts : list alert)
    (location : option (gmap string Q)) : RecommendationResponse :=
  let nearby_alerts := get_nearby_alerts alerts location 0.02 in
  let high_priority := high_severity_of nearby_alerts in
  let recommendations :=
    match high_priority with
    | [] => []
    | _ => [ {| rec_type := "immediate_action";
                rec_title := "Atender alertas de alta prioridad";
                rec_description :=
                  pretty (length high_priority) +:+ " alertas críticas en tu área inmediata";
                rec_actions := ["Desplegar equipo"; "Reportar situación";
                                "Solicitar apoyo si es necesario"] |} ]
    end in
  let recommendations :=
    match nearby_alerts with
    | [] => recommendations
    | _ => recommendations ++
        [ {| rec_type := "assessment";
             rec_title := "Evaluar situación general";
             rec_description :=
               "Total de " +:+ pretty (length nearby_alerts) +:+ " alertas en zona de cobertura";
             rec_actions := ["Priorizar por severidad"; "Coordinar con otros equipos";
                             "Reportar avances"] |} ]
    end in
  let recommendations := recommendations ++
    [ {| rec_type := "safety";
         rec_title := "Protocolos de seguridad";
         rec_description :=
           "Mantener protocolos de seguridad personal durante intervenciones";
         rec_actions := ["Equipo de protección completo"; "Comunicación constante";
                         "Evaluar riesgos ambientales"] |} ] in
  let priority := match high_priority with [] => "MEDIUM" | _ => "HIGH" end in
  {| recommendations_of := recommendations;
     priority := priority;
     validity_period := "1h" |}.

Definition generate_coordinator_recommendations (internal_alerts external_alerts : list alert)
    : RecommendationResponse :=
  let total_alerts := length internal_alerts in
  let high_severity := length (high_severity_of internal_alerts) in
  let recommendations :=
    if decide (0 < high_severity)%nat then
      [ {| rec_type := "resource_management";
           rec_title := "Gestionar recursos críticos";
           rec_description :=
             pretty high_severity
             +:+ " alertas de alta severidad requieren atención prioritaria";
           rec_actions := ["Movilizar equipos especializados"; "Coordinar con autoridades";
                           "Actualizar planes de contingencia"] |} ]
    else [] in
  let recommendations :=
    match external_alerts with
    | [] => recommendations
    | _ => recommendations ++
        [ {| rec_type := "integration";
             rec_title := "Integrar alertas externas";
             rec_description :=
               pretty (length external_alerts)
               +:+ " alertas externas detectadas que pueden afectar operaciones";
             rec_actions := ["Evaluar impacto local"; "Actualizar planes de respuesta";
                             "Comunicar a equipos relevantes"] |} ]
    end in
  let clusters := analyze_location_clusters internal_alerts in
  let recommendations :=
    if decide (1 < length clusters)%nat then
      recommendations ++
        [ {| rec_type := "strategic";
             rec_title := "Optimizar distribución de recursos";
             rec_description :=
               "Alertas concentradas en " +:+ pretty (length clusters)
               +:+ " zonas geográficas";
             rec_actions := ["Asignar equipos por zona";
                             "Establecer centros de operaciones locales";
                             "Optimizar rutas de respuesta"] |} ]
    else recommendations in
  {| recommendations_of := recommendations;
     priority := if decide (0 < high_severity)%nat then "HIGH" else "MEDIUM";
     validity_period := "2h" |}.

Definition generate_civil_protection_recommendations (now : Z) (alerts : list alert)
    (shelters : list shelter) : result RecommendationResponse :=
  let total_shelter_capacity := foldl Z.add 0%Z (get_capacity <$> shelters) in
  let active_alerts := length (filter (λ a, (2 ≤ get_severity a)%Z) alerts) in
  let recommendations :=
    if Qltb (inject_Z total_shelter_capacity * 0.5) (Qnat active_alerts) then
      [ {| rec_type := "capacity";
           rec_title := "Ampliar capacidad de refugios";
           rec_description :=
             "Alerta: Capacidad de refugios (" +:+ pretty total_shelter_capacity
             +:+ ") puede ser insuficiente";
           rec_actions := ["Identificar espacios adicionales"; "Coordinar con instituciones";
                           "Preparar suministros"] |} ]
    else [] in
  trends ← analyze_trends now alerts;
  let recommendations :=
    if default false (increasing trends) then
      recommendations ++
        [ {| rec_type := "preparation";
             rec_title := "Prepararse para aumento de demanda";
             rec_description := "Tendencia creciente en número de alertas";
             rec_actions := ["Revisar planes de contingencia";
                             "Verificar inventario de suministros";
                             "Coordinar con voluntarios"] |} ]
    else recommendations in
  Ok {| recommendations_of := recommendations;
        priority := "MEDIUM";
        validity_period := "4h" |}.

Definition generate_citizen_recommendations (alerts : list alert) (shelters : list shelter)
    (location : option (gmap string Q)) : RecommendationResponse :=
  let nearby_alerts := get_nearby_alerts alerts location 0.01 in
  let nearby_shelters := get_nearby_shelters shelters location 0.02 in
  let recommendations :=
    match nearby_alerts with
    | [] => []
    | _ =>
      let high_severity_nearby :=
        existsb (λ a, bool_decide (3 ≤ get_severity a)%Z) nearby_alerts in
      (if high_severity_nearby then
         [ {| rec_type := "safety";
              rec_title := "¡Alerta de seguridad!";
              rec_description := "Alertas de alta severidad en tu área. Tome precauciones.";
              rec_actions := ["Manténgase informado"; "Siga instrucciones oficiales";
                              "Prepare kit de emergencia"] |} ]
       else []) ++
      [ {| rec_type := "information";
           rec_title := "Alertas en tu área";
           rec_description :=
             pretty (length nearby_alerts) +:+ " alertas reportadas cerca de tu ubicación";
           rec_actions := ["Monitorear actualizaciones"; "Identificar rutas seguras";
                           "Conocer refugios cercanos"] |} ]
    end in
  let recommendations :=
    match nearby_shelters with
    | [] => recommendations
    | _ => recommendations ++
        [ {| rec_type := "preparation";
             rec_title := "Refugios disponibles";
             rec_description :=
               pretty (length nearby_shelters) +:+ " refugios identificados en tu área";
             rec_actions := ["Conocer ubicaciones"; "Guardar contactos";
                             "Preparar ruta de evacuación"] |} ]
    end in
  let recommendations :=
    match recommendations with
    | [] =>
      [ {| rec_type := "general";
           rec_title := "Situación normal";
           rec_description := "No hay alertas críticas en tu área inmediata";
           rec_actions := ["Mantener preparación básica"; "Conocer números de emergencia";
                           "Seguir fuentes oficiales"] |} ]
    | _ => recommendations
    end in
  {| recommendations_of := recommendations;
     priority := "LOW";
     validity_period := "6h" |}.

Definition generate_general_recommendations (alerts : list alert) : RecommendationResponse :=
  {| recommendations_of :=
       [ {| rec_type := "general";
            rec_title := "Monitoreo del sistema";
            rec_description :=
              "Sistema activo con " +:+ pretty (length alerts) +:+ " alertas registradas";
            rec_actions := ["Revisar dashboard regularmente";
                            "Reportar situaciones anómalas";
                            "Mantener actualizado el perfil"] |} ];
     priority := "LOW";
     validity_period := "12h" |}.

(** [get_personalized_recommendations], once the three replies are
    decoded: [external_alerts] is [external_data.get("alerts", [])]. *)
Definition recommend (now : Z) (user_role : string) (location : option (gmap string Q))
    (alerts_data external_alerts : list alert) (shelters_data : list shelter)
    : result RecommendationResponse :=
  if decide (user_role = "first_responder") then
    Ok (generate_responder_recommendations alerts_data location)
  else if decide (user_role = "coordinator") then
    Ok (generate_coordinator_recommendations alerts_data external_alerts)
  else if decide (user_role = "civil_protection") then
    generate_civil_protection_recommendations now alerts_data shelters_data
  else if decide (user_role = "citizen") then
    Ok (generate_citizen_recommendations alerts_data shelters_data location)
  else Ok (generate_general_recommendations alerts_data).

(** The endpoint: the replies of [/alerts?limit=50], [/external-alerts]
    and [/shelters]; nothing is caught. *)
Definition get_personalized_recommendations (now : Z) (user_role : string)
    (location : option (gmap string Q))
    (alerts_reply : result (response (list alert)))
    (external_reply : result (response (option (list alert))))
    (shelters_reply : result (response (list shelter)))
    : result RecommendationResponse :=
  alerts_response ← alerts_reply;
  external_response ← external_reply;
  shelters_response ← shelters_reply;
  alerts_data ← json_if_200 alerts_response [];
  external_data ← json_if_200 external_response (Some []);
  shelters_data ← json_if_200 shelters_response [];
  recommend now user_role location alerts_data (default [] external_data) shelters_data.

End RecommendationEngine.

(** ** [backend/app]: the alert table, ingestion, source adapters *)
Module Backend.

(** *** The table [alert]

    A row, with the columns of [class Alert(SQLModel, table=True)];
    [kind] is the column [source] of models.py ([alert_type] in main.py).
    The table is the list of its rows in insertion order. *)
Record Alert : Type := mkAlert {
  id : Z;
  title : string;
  description : option string;
  lat : Q;
  lon : Q;
  severity : Z;
  kind : string;
  created_at : Z
}.

(** The primary key given by the database: rows are never deleted. *)
Definition next_id (db : list Alert) : Z := Z.of_nat (length db) + 1.

(** *** [google_fetcher.py] *)

(** One element of [data.get("alerts", [])]: [alert.get("title")],
    [alert.get("description")], [alert.get("severity", 2)] and
    [alert.get("coordinates", {})] with its ["lat"] and ["lng"]. *)
Record candidate : Type := Candidate {
  c_title : option string;
  c_description : option string;
  c_severity : option Z;
  c_coordinates : option (option Q * option Q)
}.

(** [session.exec(select(Alert).where(Alert.title == title)).first()];
    with [title] None the query is [title IS NULL], and no row has a
    null title. *)
Definition first_with_title (title : option string) (db : list Alert) : option Alert :=
  match title with
  | Some t => snd <$> list_find (λ row, Backend.title row = t) db
  | None => None
  end.

(** The loop of [fetch_google_alerts].  [description] and [title] are
    [str] columns of models.py: committing a row without one of them
    raises, and the exception leaves the function. *)
Fixpoint ingest (now : Z) (alerts : list candidate) (db : list Alert)
    : result unit * list Alert :=
  match alerts with
  | [] => (Ok (), db)
  | alert :: rest =>
    let title := c_title alert in
    let desc := c_description alert in
    let severity := default 2%Z (c_severity alert) in
    let lat := default 0 (fst (default (None, None) (c_coordinates alert))) in
    let lon := default 0 (snd (default (None, None) (c_coordinates alert))) in
    match first_with_title title db with
    | Some _ => ingest now rest db
    | None =>
      match title, desc with
      | Some t, Some d =>
        let new := {| id := next_id db; title := t; description := Some d;
                      severity := severity; lat := lat; lon := lon;
                      kind := "GOOGLE"; created_at := now |} in
        ingest now rest (db ++ [new])
      | _, _ => (Raise IntegrityError, db)
      end
    end
  end.

(** [fetch_google_alerts]: [reply] is what [requests.get(GOOGLE_URL)]
    does (it raises [MissingSchema] when the variable
    [GOOGLE_ALERTS_API] is not set); nothing is caught. *)
Definition fetch_google_alerts (now : Z)
    (reply : result (response (option (list candidate)))) (db : list Alert)
    : result unit * list Alert :=
  match r ← reply; json r with
  | Raise e => (Raise e, db)
  | Ok data => ingest now (default [] data) db
  end.

(** *** [main.py]: [POST /alerts] *)

Record AlertCreate : Type := mkAlertCreate {
  ac_title : string;
  ac_description : option string;
  ac_lat : Q;
  ac_lon : Q;
  ac_severity : option Z;
  ac_alert_type : option string
}.

Inductive http_result (A : Type) : Type :=
  | Returned (a : A)
  | HTTPException (status : Z).
Arguments Returned {A} a.
Arguments HTTPException {A} status.

(** [create_alert]: the request is refused when the title is empty or a
    coordinate is zero; otherwise the row is added with no look at the
    rows that are there.  An attribute that is [None] is left out of the
    INSERT, and the column default is stored for it ([""], [1],
    ["general"]).  The database is SQLite: a severity outside 64 bits
    is refused by the driver, and the handler answers 500. *)
Definition create_alert (now : Z) (alert_data : AlertCreate) (db : list Alert)
    : http_result Alert * list Alert :=
  if bool_decide (ac_title alert_data = "")
     || Qeq_bool (ac_lat alert_data) 0 || Qeq_bool (ac_lon alert_data) 0
  then (HTTPException 400, db)
  else
    let severity := default 1%Z (ac_severity alert_data) in
    if decide (- 2 ^ 63 ≤ severity < 2 ^ 63)%Z then
      let alert := {| id := next_id db;
                      title := ac_title alert_data;
                      description := Some (default "" (ac_description alert_data));
                      lat := ac_lat alert_data;
                      lon := ac_lon alert_data;
                      severity := severity;
                      kind := default "general" (ac_alert_type alert_data);
                      created_at := now |} in
      (Returned alert, db ++ [alert])
    else (HTTPException 500, db).

(** *** Sequences of ingestion calls *)

Inductive call : Type :=
  | FetchGoogle (reply : result (response (option (list candidate))))
  | CreateAlert (alert_data : AlertCreate).

Definition run_call (now : Z) (db : list Alert) (c : call) : list Alert :=
  match c with
  | FetchGoogle reply => snd (fetch_google_alerts now reply db)
  | CreateAlert alert_data => snd (create_alert now alert_data db)
  end.

Definition run (now : Z) (calls : list call) (db : list Alert) : list Alert :=
  foldl (run_call now) db calls.

(** *** [external_data.py] *)

(** What an adapter appends: a dict with these six keys. *)
Record external_alert : Type := ExternalAlert {
  ext_title : string;
  ext_description : string;
  ext_severity : Z;
  ext_lat : Q;
  ext_lon : Q;
  ext_source : string
}.

(** [response = self.session.get(...)], [response.raise_for_status()],
    [data = response.json()]. *)
Definition get_json {A} (reply : result (response A)) : result A :=
  response ← reply;
  if decide (400 ≤ status_code response < 600)%Z then Raise HTTPError
  else json response.

(** The fields of the OpenWeatherMap body that the adapter subscripts:
    [data['weather'][0]['main']], [data['main']['temp']],
    [data['wind']['speed']], [data['main']['humidity']]; [None] when the
    subscript raises. *)
Record openweather_data : Type := OpenWeatherData {
  weather_main : option string;
  main_temp : option Q;
  wind_speed : option Q;
  main_humidity : option Q
}.

(** The fields of the Open-Meteo body, all read with [.get]. *)
Record open_meteo_data : Type := OpenMeteoData {
  current_precipitation : option Q;
  current_weather_code : option Z;
  daily_precipitation_sum : option (list Q)
}.

(** [geometry.get('coordinates', [])] as the adapter looks at it:
    [coords[0][0]] is a list (its elements are kept), [coords[0]] is an
    empty list ([coords[0][0]] raises), or anything else. *)
Inductive coordinates : Type :=
  | FirstPoint (point : list Q)
  | EmptyRing
  | OtherShape.

Record gdacs_feature : Type := GdacsFeature {
  f_alertlevel : option string;
  f_title : option string;
  f_description : option string;
  f_coordinates : coordinates
}.

(** [subscript d] turns a missing key into the exception. *)
Definition subscript {A} (field : option A) : result A :=
  match field with
  | Some v => Ok v
  | None => Raise KeyError
  end.

Section Adapters.
(** [fmt x] is the text of a float in an f-string ([{temp}], [{avg_temp:.1f}]). *)
Variable fmt : Q → string.
(** The module constant [OPENWEATHER_API_KEY]. *)
Variable OPENWEATHER_API_KEY : string.

Definition weather_alerts_of (lat lon : Q) (data : openweather_data)
    : result (list external_alert) :=
  weather_main ← subscript (weather_main data);
  temp ← subscript (main_temp data);
  wind_speed ← subscript (wind_speed data);
  humidity ← subscript (main_humidity data);
  let alerts := [] in
  let alerts :=
    if bool_decide (weather_main ∈ ["Thunderstorm"; "Hurricane"; "Tornado"]) then
      alerts ++ [ {| ext_title := "Alerta Meteorológica: " +:+ weather_main;
                     ext_description := "Condición climática severa detectada. "
                                        +:+ weather_main +:+ " en la zona.";
                     ext_severity := 4; ext_lat := lat; ext_lon := lon;
                     ext_source := "OPENWEATHER" |} ]
    else alerts in
  let alerts :=
    if Qltb 35 temp then
      alerts ++ [ {| ext_title := "Alerta de Temperatura Extrema";
                     ext_description := "Temperatura muy alta: " +:+ fmt temp
                                        +:+ "°C. Riesgo de incendios forestales.";
                     ext_severity := 3; ext_lat := lat; ext_lon := lon;
                     ext_source := "OPENWEATHER" |} ]
    else alerts in
  let alerts :=
    if Qltb 15 wind_speed then
      alerts ++ [ {| ext_title := "Alerta de Vientos Fuertes";
                     ext_description := "Vientos de " +:+ fmt wind_speed
                                        +:+ " m/s detectados. Posibles daños.";
                     ext_severity := 3; ext_lat := lat; ext_lon := lon;
                     ext_source := "OPENWEATHER" |} ]
    else alerts in
  Ok alerts.

Definition fetch_weather_alerts (lat lon : Q)
    (reply : result (response openweather_data)) : option (list external_alert) :=
  try_except
    (if bool_decide (OPENWEATHER_API_KEY = "") then Ok None
     else data ← get_json reply;
          alerts ← weather_alerts_of lat lon data;
          Ok (Some alerts))
    (λ _, None).

Definition open_meteo_alerts_of (lat lon : Q) (data : open_meteo_data)
    : list external_alert :=
  let precipitation := default 0 (current_precipitation data) in
  let weather_code := default 0%Z (current_weather_code data) in
  let alerts := [] in
  let alerts :=
    if bool_decide (weather_code ∈ [95; 96; 99]%Z) then
      alerts ++ [ {| ext_title := "Alerta de Tormenta Severa";
                     ext_description := "Tormenta eléctrica severa detectada en el área.";
                     ext_severity := 4; ext_lat := lat; ext_lon := lon;
                     ext_source := "OPEN_METEO" |} ]
    else alerts in
  let alerts :=
    if Qltb 20 precipitation then
      alerts ++ [ {| ext_title := "Alerta de Lluvia Intensa";
                     ext_description := "Precipitación intensa detectada: "
                                        +:+ fmt precipitation
                                        +:+ " mm. Riesgo de inundaciones.";
                     ext_severity := 3; ext_lat := lat; ext_lon := lon;
                     ext_source := "OPEN_METEO" |} ]
    else alerts in
  let daily_precipitation := default [] (daily_precipitation_sum data) in
  let alerts :=
    if existsb (Qltb 30) daily_precipitation then
      alerts ++ [ {| ext_title := "Alerta de Lluvias Futuras";
                     ext_description :=
                       "Se pronostican lluvias intensas en los próximos días.";
                     ext_severity := 2; ext_lat := lat; ext_lon := lon;
                     ext_source := "OPEN_METEO" |} ]
    else alerts in
  alerts.

Definition fetch_open_meteo_data (lat lon : Q)
    (reply : result (response open_meteo_data)) : option (list external_alert) :=
  try_except
    (data ← get_json reply;
     Ok (Some (open_meteo_alerts_of lat lon data)))
    (λ _, None).

(** One turn of the loop over [data.get('features', [])]. *)
Definition gdacs_alert_of (event : gdacs_feature) : result external_alert :=
  let alert_level := default "" (f_alertlevel event) in
  let title := default "" (f_title event) in
  let description := default "" (f_description event) in
  let severity :=
    if decide (alert_level = "Green") then 2%Z
    else if decide (alert_level = "Orange") then 3%Z
    else if decide (alert_level = "Red") then 4%Z
    else 2%Z in
  latlon ←
    match f_coordinates event with
    | FirstPoint [lon; lat] => Ok (lat, lon)
    | FirstPoint _ => Raise ValueError
    | EmptyRing => Raise KeyError
    | OtherShape => Ok (14.625, -90.525)
    end;
  Ok {| ext_title := "GDACS: " +:+ title;
        ext_description := description;
        ext_severity := severity;
        ext_lat := fst latlon; ext_lon := snd latlon;
        ext_source := "GDACS" |}.

Fixpoint gdacs_alerts_of (features : list gdacs_feature) : result (list external_alert) :=
  match features with
  | [] => Ok []
  | event :: rest =>
    alert ← gdacs_alert_of event;
    alerts ← gdacs_alerts_of rest;
    Ok (alert :: alerts)
  end.

Definition fetch_gdacs_alerts (reply : result (response (option (list gdacs_feature))))
    : option (list external_alert) :=
  try_except
    (data ← get_json reply;
     alerts ← gdacs_alerts_of (default [] data);
     Ok (Some alerts))
    (λ _, None).

(** The values of [...get('parameter', {}).get('T2M', {})]. *)
Definition nasa_alerts_of (lat lon : Q) (temperatures : list Q) : list external_alert :=
  match temperatures with
  | [] => []
  | _ =>
    let avg_temp := Qsum temperatures / Qlen temperatures in
    if Qltb 30 avg_temp then
      [ {| ext_title := "Tendencia de Temperaturas Altas";
           ext_description := "Temperatura promedio alta detectada: "
                              +:+ fmt avg_temp +:+ "°C";
           ext_severity := 2; ext_lat := lat; ext_lon := lon;
           ext_source := "NASA_POWER" |} ]
    else []
  end.

Definition fetch_nasa_power_data (lat lon : Q) (reply : result (response (list Q)))
    : option (list external_alert) :=
  try_except
    (temperatures ← get_json reply;
     Ok (Some (nasa_alerts_of lat lon temperatures)))
    (λ _, None).

(** [if xs: all_alerts.extend(xs)]. *)
Definition extend_if (all_alerts : list external_alert)
    (xs : option (list external_alert)) : list external_alert :=
  match xs with
  | Some ((_ :: _) as l) => all_alerts ++ l
  | _ => all_alerts
  end.

(** The replies of the four providers to one round of requests. *)
Record providers : Type := Providers {
  open_meteo : result (response open_meteo_data);
  openweather : result (response openweather_data);
  gdacs : result (response (option (list gdacs_feature)));
  nasa_power : result (response (list Q))
}.

Definition check_all_sources (world : providers) : list external_alert :=
  let all_alerts := [] in
  let meteo_alerts := fetch_open_meteo_data 14.625 (-90.525) (open_meteo world) in
  let all_alerts := extend_if all_alerts meteo_alerts in
  let all_alerts :=
    if bool_decide (OPENWEATHER_API_KEY = "") then all_alerts
    else
      let weather_alerts := fetch_weather_alerts 14.625 (-90.525) (openweather world) in
      extend_if all_alerts weather_alerts in
  let gdacs_alerts := fetch_gdacs_alerts (gdacs world) in
  let all_alerts := extend_if all_alerts gdacs_alerts in
  let nasa_alerts := fetch_nasa_power_data 14.625 (-90.525) (nasa_power world) in
  let all_alerts := extend_if all_alerts nasa_alerts in
  all_alerts.

End Adapters.

(** *** [main.py]: [POST /subscribe] *)

(** A row of the table [pushsubscription]; the three text columns cannot
    be null. *)
Record PushSubscription : Type := mkPushSubscription {
  ps_id : Z;
  endpoint : string;
  p256dh : string;
  auth : string
}.

Record SubscriptionCreate : Type := mkSubscriptionCreate {
  sc_endpoint : string;
  sc_keys : gmap string string
}.

Record subscribe_reply : Type := SubscribeReply {
  message : string;
  reply_id : Z
}.

(** [subscribe]: the first row with the endpoint is looked up; a new row
    is added only when there is none.  [keys.get(...)] is [None] for a
    missing key: the commit of the new row then raises, and the handler
    answers 500. *)
Definition subscribe (subscription : SubscriptionCreate) (table : list PushSubscription)
    : http_result subscribe_reply * list PushSubscription :=
  match list_find (λ row, endpoint row = sc_endpoint subscription) table with
  | None =>
    match sc_keys subscription !! "p256dh", sc_keys subscription !! "auth" with
    | Some key, Some secret =>
      let sub := {| ps_id := Z.of_nat (length table) + 1;
                    endpoint := sc_endpoint subscription;
                    p256dh := key;
                    auth := secret |} in
      (Returned {| message := "Suscripción guardada"; reply_id := ps_id sub |},
       table ++ [sub])
    | _, _ => (HTTPException 500, table)
    end
  | Some (_, existing) =>
    (Returned {| message := "Suscripción ya existe"; reply_id := ps_id existing |}, table)
  end.

(** The table after a sequence of requests. *)
Definition subscribe_all (subscriptions : list SubscriptionCreate)
    (table : list PushSubscription) : list PushSubscription :=
  foldl (λ table subscription, snd (subscribe subscription table)) table subscriptions.

(** *** [twilio_service.py] *)

(** What [send_alert_sms] reads of the service object. *)
Record TwilioService : Type := mkTwilioService {
  is_configured : bool;
  phone_number : string;
  alert_numbers : list string
}.

Section Sms.
Context {alert_data : Type}.
(** [self._format_alert_message(alert_data)] and
    [self.client.messages.create(body=..., from_=..., to=...)]: each of
    them returns or raises. *)
Variable format_alert_message : alert_data → result string.
Variable messages_create : string → string → string → result unit.

(** One turn of the loop over [self.alert_numbers]: the body of [try],
    and what [except Exception] leaves.  The state is [success_count]
    with the numbers that a message went to. *)
Definition send_to (self : TwilioService) (data : alert_data)
    (state : nat * list string) (to : string) : nat * list string :=
  let '(success_count, reached) := state in
  try_except
    (message_body ← format_alert_message data;
     _ ← messages_create message_body (phone_number self) to;
     Ok (S success_count, reached ++ [to]))
    (λ _, (success_count, reached)).

(** [send_alert_sms]: the value returned, with the numbers reached. *)
Definition send_alert_sms (self : TwilioService) (data : alert_data)
    : bool * list string :=
  if negb (is_configured self) then (false, [])
  else
    match alert_numbers self with
    | [] => (false, [])
    | _ =>
      let '(success_count, reached) :=
        foldl (send_to self data) (0%nat, []) (alert_numbers self) in
      (bool_decide (0 < success_count)%nat, reached)
    end.

End Sms.

End Backend.

(** ** The clustering loop in any arithmetic

    The modules above read a Python float as an exact rational.  The
    program computes in binary64, where a sum, a quotient, a square and a
    square root are rounded.  Here the loop of [analyze_location_clusters]
    is written once more, from the same source lines, over the
    operations it uses, whatever they compute; [Binary64] below gives
    them as the machine does. *)
Module Numeric.

(** The operations of the loop on numbers:
    [0] (where [sum] starts), [x + y], [x - y], [x / y], [x**2],
    [d**0.5 < 0.01] as a test on [d], and [len(...)] as a number. *)
Class Arithmetic (num : Type) : Type := {
  zero : num;
  add : num → num → num;
  sub : num → num → num;
  div : num → num → num;
  square : num → num;
  within_radius : num → bool;
  of_nat : nat → num
}.

(** A cluster of main.py, advanced_mcp.py and decision_support.py, and
    one of recommendation_engine.py (no key ['count']). *)
Record cluster (num A : Type) : Type := Cluster {
  center : num * num;
  alerts : list A;
  count : nat
}.
Arguments Cluster {num A} center alerts count.
Arguments center {num A} c.
Arguments alerts {num A} c.
Arguments count {num A} c.

Record simple_cluster (num A : Type) : Type := SimpleCluster {
  simple_center : num * num;
  simple_alerts : list A
}.
Arguments SimpleCluster {num A} simple_center simple_alerts.
Arguments simple_center {num A} s.
Arguments simple_alerts {num A} s.

Section Loop.
Context {num A : Type} `{!Arithmetic num}.
(** [alert.get('lat', 0)] and [alert.get('lon', 0)]. *)
Variable get_lat get_lon : A → num.

(** [sum(xs)]: from 0, adding from the left. *)
Definition sum_of (xs : list num) : num := foldl add zero xs.

(** [((lat - cluster_lat)**2 + (lon - cluster_lon)**2)**0.5 < 0.01]. *)
Definition close_to (lat lon : num) (centre : num * num) : bool :=
  let '(cluster_lat, cluster_lon) := centre in
  within_radius (add (square (sub lat cluster_lat)) (square (sub lon cluster_lon))).

(** The centre computed on an assignment:
    [sum(a.get('lat', 0) for a in alerts_in_cluster) / len(alerts_in_cluster)]
    and the same for ['lon']. *)
Definition mean_center (alerts_in_cluster : list A) : num * num :=
  (div (sum_of (get_lat <$> alerts_in_cluster)) (of_nat (length alerts_in_cluster)),
   div (sum_of (get_lon <$> alerts_in_cluster)) (of_nat (length alerts_in_cluster))).

(** The loop over [alerts_data]: the first cluster that passes the test
    takes the alert, and a new cluster is appended when none does. *)
Section Greedy.
Context {C : Type}.
Variable near : A → C → bool.
Variable absorb : A → C → C.
Variable fresh : A → C.

Definition place (clusters : list C) (a : A) : list C :=
  match list_find (λ c, Is_true (near a c)) clusters with
  | Some (i, _) => alter (absorb a) i clusters
  | None => clusters ++ [fresh a]
  end.

Definition greedy (alerts_data : list A) : list C :=
  foldl place [] alerts_data.
End Greedy.

Definition near (a : A) (cluster : cluster num A) : bool :=
  close_to (get_lat a) (get_lon a) (center cluster).

(** The [else:] branch. *)
Definition fresh (a : A) : cluster num A :=
  {| center := (get_lat a, get_lon a); alerts := [a]; count := 1 |}.

(** The [if found_cluster:] branch of main.py, which sets ['count']. *)
Definition main_absorb (a : A) (found_cluster : cluster num A) : cluster num A :=
  let alerts_in_cluster := alerts found_cluster ++ [a] in
  {| center := mean_center alerts_in_cluster;
     alerts := alerts_in_cluster;
     count := length alerts_in_cluster |}.

(** The same branch of advanced_mcp.py and decision_support.py, which
    leave ['count'] as it is. *)
Definition advanced_absorb (a : A) (found_cluster : cluster num A) : cluster num A :=
  let alerts_in_cluster := alerts found_cluster ++ [a] in
  {| center := mean_center alerts_in_cluster;
     alerts := alerts_in_cluster;
     count := count found_cluster |}.

(** The list [clusters] when the loop ends. *)
Definition main_internal_clusters (alerts_data : list A) : list (cluster num A) :=
  greedy near main_absorb fresh alerts_data.
Definition advanced_internal_clusters (alerts_data : list A) : list (cluster num A) :=
  greedy near advanced_absorb fresh alerts_data.

(** main.py: [[c for c in clusters if c['count'] > 1]]. *)
Definition main_analyze_location_clusters (alerts_data : list A)
    : list (cluster num A) :=
  filter (λ c, (1 < count c)%nat) (main_internal_clusters alerts_data).

(** advanced_mcp.py: [if not alerts_data: return []], and
    [[c for c in clusters if len(c['alerts']) > 1]]. *)
Definition advanced_analyze_location_clusters (alerts_data : list A)
    : list (cluster num A) :=
  match alerts_data with
  | [] => []
  | _ => filter (λ c, (1 < length (alerts c))%nat)
           (advanced_internal_clusters alerts_data)
  end.

(** decision_support.py: the loop of advanced_mcp.py without the guard. *)
Definition decision_analyze_location_clusters (alerts_data : list A)
    : list (cluster num A) :=
  filter (λ c, (1 < length (alerts c))%nat) (advanced_internal_clusters alerts_data).

(** recommendation_engine.py: the centre stays where the first member
    is. *)
Definition simple_near (a : A) (cluster : simple_cluster num A) : bool :=
  close_to (get_lat a) (get_lon a) (simple_center cluster).

Definition simple_fresh (a : A) : simple_cluster num A :=
  {| simple_center := (get_lat a, get_lon a); simple_alerts := [a] |}.

Definition simple_absorb (a : A) (cluster : simple_cluster num A)
    : simple_cluster num A :=
  {| simple_center := simple_center cluster;
     simple_alerts := simple_alerts cluster ++ [a] |}.

Definition simple_internal_clusters (alerts_data : list A)
    : list (simple_cluster num A) :=
  greedy simple_near simple_absorb simple_fresh alerts_data.

Definition simple_analyze_location_clusters (alerts_data : list A)
    : list (simple_cluster num A) :=
  filter (λ c, (1 < length (simple_alerts c))%nat) (simple_internal_clusters alerts_data).


End Loop.
End Numeric.

(** ** The loop as the machine runs it *)
Module Binary64.
Import PrimFloat.

(** An alert as the loop reads it: the JSON numbers are binary64
    values. *)
Record alert : Type := Alert {
  id : Z;
  lat : option float;
  lon : option float
}.

Definition get_lat (a : alert) : float := default 0%float (lat a).
Definition get_lon (a : alert) : float := default 0%float (lon a).

(** [len(...)] in a quotient: the integer as a float (exact below
    2^53). *)
Fixpoint of_nat (n : nat) : float :=
  match n with
  | O => 0%float
  | S n => (of_nat n + 1)%float
  end.

(** The operations in binary64, each rounded to nearest: [x**2] is the
    rounded product [x * x], [d**0.5] the rounded square root (the
    [pow] of the C library can differ from these in the last bit), and
    0.01 the double [0x1.47ae147ae147bp-7]. *)
#[global] Instance arithmetic : Numeric.Arithmetic float := {|
  Numeric.zero := 0%float;
  Numeric.add := PrimFloat.add;
  Numeric.sub := PrimFloat.sub;
  Numeric.div := PrimFloat.div;
  Numeric.square := λ x, (x * x)%float;
  Numeric.within_radius := λ d, (sqrt d <? 0x1.47ae147ae147bp-7)%float;
  Numeric.of_nat := of_nat
|}.

Definition close_to : float → float → float * float → bool := Numeric.close_to.

(** main.py, advanced_mcp.py, decision_support.py and
    recommendation_engine.py. *)
Definition main_analyze_location_clusters (alerts_data : list alert)
    : list (Numeric.cluster float alert) :=
  Numeric.main_analyze_location_clusters get_lat get_lon alerts_data.
Definition advanced_analyze_location_clusters (alerts_data : list alert)
    : list (Numeric.cluster float alert) :=
  Numeric.advanced_analyze_location_clusters get_lat get_lon alerts_data.
Definition decision_analyze_location_clusters (alerts_data : list alert)
    : list (Numeric.cluster float alert) :=
  Numeric.decision_analyze_location_clusters get_lat get_lon alerts_data.
Definition simple_analyze_location_clusters (alerts_data : list alert)
    : list (Numeric.simple_cluster float alert) :=
  Numeric.simple_analyze_location_clusters get_lat get_lon alerts_data.

End Binary64.

(** The exact arithmetic of the modules above: [d**0.5 < 0.01] is
    [d < 0.01 * 0.01]. *)
#[global] Instance exact_arithmetic : Numeric.Arithmetic Q := {|
  Numeric.zero := 0;
  Numeric.add := Qplus;
  Numeric.sub := Qminus;
  Numeric.div := Qdiv;
  Numeric.square := sq;
  Numeric.within_radius := λ d, Qltb d (sq 0.01);
  Numeric.of_nat := Qnat
|}.

(** ** Vocabulary of the statements *)

(** The clusters split the input: every occurrence of an input alert is
    a member of exactly one cluster (the member lists, put end to end,
    are a rearrangement of the input), every member list follows the
    input order, the member counts add up to the input length, and two
    different clusters share no member when the input has no repeated
    record. *)
Definition splits {C : Type} (members : C → list alert)
    (clusters : list C) (input : list alert) : Prop :=
  concat (members <$> clusters) ≡ₚ input
  ∧ Forall (λ c, members c `sublist_of` input) clusters
  ∧ sum_list (length ∘ members <$> clusters) = length input
  ∧ (NoDup input →
     ∀ i j c d, i ≠ j → clusters !! i = Some c → clusters !! j = Some d →
       members c ## members d).

(** The squared distance from the point [(x, y)] to an alert. *)
Definition alert_dist2 (x y : Q) (b : alert) : Q :=
  dist2 x y (get_lat b) (get_lon b).

(** Every pair of alerts is closer than [r] (squared distance below [r*r]). *)
Definition pairwise_within (r : Q) (alerts_data : list alert) : Prop :=
  ∀ a b, a ∈ alerts_data → b ∈ alerts_data →
    alert_dist2 (get_lat a) (get_lon a) b < sq r.

(** The centroid of a member list: the mean latitude and mean longitude. *)
Definition centroid (members : list alert) : Q * Q :=
  (mean (get_lat <$> members), mean (get_lon <$> members)).

(** What the function returns, against the internal clusters: a
    selection of them (in order), each with two members or more, each a
    sublist of the input, and pairwise disjoint when the input has no
    repeated record. *)
Definition reports {C : Type} (members : C → list alert)
    (returned internal : list C) (input : list alert) : Prop :=
  returned `sublist_of` internal
  ∧ Forall (λ c, (2 ≤ length (members c))%nat ∧ members c `sublist_of` input) returned
  ∧ (NoDup input →
     ∀ i j c d, i ≠ j → returned !! i = Some c → returned !! j = Some d →
       members c ## members d).

(** At most one row per title: the count of rows with a given title is
    never above one. *)
Definition at_most_one_per_title (db : list Backend.Alert) : Prop :=
  ∀ t, (length (filter (λ row, Backend.title row = t) db) ≤ 1)%nat.

(** The distinct calendar dates on which the alerts were created (the
    stamps that parse). *)
Definition active_days (alerts_data : list alert) : gset Z :=
  list_to_set (omap (λ a, dt_date <$> alert_created_at a) alerts_data).

(** The order of the risk levels, in the two languages of the code. *)
Definition level_rank (level : string) : option nat :=
  if decide (level = "LOW") then Some 0%nat
  else if decide (level = "BAJO") then Some 0%nat
  else if decide (level = "MEDIUM") then Some 1%nat
  else if decide (level = "MEDIO") then Some 1%nat
  else if decide (level = "HIGH") then Some 2%nat
  else if decide (level = "ALTO") then Some 2%nat
  else if decide (level = "CRITICAL") then Some 3%nat
  else if decide (level = "CRÍTICO") then Some 3%nat
  else None.




(** What an adapter adds to the aggregate: nothing when it failed. *)
Definition contribution (xs : option (list Backend.external_alert))
    : list Backend.external_alert :=
  default [] xs.

(** 1 for a list that is not empty ([if xs:]), 0 otherwise. *)
Definition nonempty {A} (l : list A) : nat :=
  match l with [] => 0 | _ => 1 end.

(** The alert is within [r] degrees of the location [d]. *)
Definition close_to (d : gmap string Q) (r : Q) (a : alert) : Prop :=
  dist2 (loc_get d "lat") (loc_get d "lon") (get_lat a) (get_lon a) <= sq r.

(** Some alert of the list has severity 3 or more. *)
Definition some_high_severity (alerts : list alert) : Prop :=
  ∃ a, a ∈ alerts ∧ (3 ≤ get_severity a)%Z.


(** ** Sample data *)

(** Two reports 0.005 degrees apart, north of the default point. *)
Definition flood_a : alert :=
  {| alert_id := 1; alert_title := "Inundacion zona 1";
     alert_lat := Some 14.625; alert_lon := Some (-90.525);
     alert_severity := Some 3%Z;
     alert_created_at := Some (DateTime 739000 10 0) |}.
Definition flood_b : alert :=
  {| alert_id := 2; alert_title := "Inundacion zona 1 (b)";
     alert_lat := Some 14.630; alert_lon := Some (-90.525);
     alert_severity := Some 2%Z;
     alert_created_at := Some (DateTime 739000 11 0) |}.

(** A third report, 0.015 degrees from [flood_a]. *)
Definition flood_c : alert :=
  {| alert_id := 3; alert_title := "Deslizamiento";
     alert_lat := Some 14.640; alert_lon := Some (-90.525);
     alert_severity := Some 3%Z;
     alert_created_at := Some (DateTime 739001 9 0) |}.
(** A report posted twice to [POST /alerts]. *)
Definition posted_report : Backend.AlertCreate :=
  {| Backend.ac_title := "Inundacion zona 1";
     Backend.ac_description := Some "Rio desbordado";
     Backend.ac_lat := 14.625; Backend.ac_lon := -90.525;
     Backend.ac_severity := Some 3%Z;
     Backend.ac_alert_type := Some "general" |}.

(** A provider batch with the same title twice. *)
Definition google_batch : result (response (option (list Backend.candidate))) :=
  Ok (Response 200 (Ok (Some
    [ {| Backend.c_title := Some "Sismo"; Backend.c_description := Some "M 5.1";
         Backend.c_severity := Some 3%Z;
         Backend.c_coordinates := Some (Some 14.6, Some (-90.5)) |};
      {| Backend.c_title := Some "Sismo"; Backend.c_description := Some "M 5.1 (replica)";
         Backend.c_severity := None;
         Backend.c_coordinates := None |} ]))).

(** A requester 0.015 degrees south of [flood_c]. *)
Definition responder_location : option (gmap string Q) :=
  Some {[ "lat" := 14.625; "lon" := -90.525 ]}.

(** A round in which Open-Meteo cannot be reached, no OpenWeatherMap key
    is configured, GDACS sends a feature whose first ring is empty, and
    NASA POWER reports a hot month. *)
Definition bad_round : Backend.providers :=
  {| Backend.open_meteo := Raise ConnectionError;
     Backend.openweather := Raise ConnectionError;
     Backend.gdacs := Ok (Response 200 (Ok (Some
       [ {| Backend.f_alertlevel := Some "Red"; Backend.f_title := Some "Flood";
            Backend.f_description := None;
            Backend.f_coordinates := Backend.EmptyRing |} ])));
     Backend.nasa_power := Ok (Response 200 (Ok [31; 32; 33])) |}.

(** ** More vocabulary *)

(** What the callers read of a cluster: its centre and its members. *)
Definition main_view (c : McpMain.cluster) : Q * Q * list alert :=
  (McpMain.center c, McpMain.alerts c).
Definition advanced_view (c : AdvancedMcp.cluster) : Q * Q * list alert :=
  (AdvancedMcp.center c, AdvancedMcp.alerts c).
Definition decision_view (c : DecisionSupport.cluster) : Q * Q * list alert :=
  (DecisionSupport.center c, DecisionSupport.alerts c).

(** Three alerts on a meridian, 0.009 degrees from one to the next. *)
Definition south : alert :=
  {| alert_id := 11; alert_title := "Sur"; alert_lat := Some 14.600;
     alert_lon := Some (-90.500); alert_severity := Some 2%Z;
     alert_created_at := Some (DateTime 739000 8 0) |}.
Definition middle : alert :=
  {| alert_id := 12; alert_title := "Centro"; alert_lat := Some 14.609;
     alert_lon := Some (-90.500); alert_severity := Some 2%Z;
     alert_created_at := Some (DateTime 739000 9 0) |}.
Definition north : alert :=
  {| alert_id := 13; alert_title := "Norte"; alert_lat := Some 14.618;
     alert_lon := Some (-90.500); alert_severity := Some 2%Z;
     alert_created_at := Some (DateTime 739000 10 0) |}.

(** Counting in a dict: [d[k] = d.get(k, 0) + 1], and the sum of the
    counts, [sum(d.values())]. *)
Definition bump `{Countable K} (m : gmap K nat) (k : K) : gmap K nat :=
  <[k := (default 0 (m !! k) + 1)%nat]> m.
Definition tally_total `{Countable K} (m : gmap K nat) : nat :=
  sum_list (map_to_list m).*2.

(** The alerts whose [created_at] parses. *)
Definition parsed (alerts_data : list alert) : list alert :=
  filter (λ a, is_Some (alert_created_at a)) alerts_data.

(** A GDACS feature on which the adapter raises: [coords[0]] is an empty
    list, or [coords[0][0]] is a list that does not unpack into two. *)
Definition malformed_feature (event : Backend.gdacs_feature) : Prop :=
  match Backend.f_coordinates event with
  | Backend.FirstPoint point => length point ≠ 2%nat
  | Backend.EmptyRing => True
  | Backend.OtherShape => False
  end.

(** The four source tags of external_data.py. *)
Definition source_tags : list string :=
  ["OPEN_METEO"; "OPENWEATHER"; "GDACS"; "NASA_POWER"].

(** What every alert of an external source looks like: a severity
    between 2 and 4 and one of the four source tags. *)
Definition well_formed_external (x : Backend.external_alert) : Prop :=
  (2 ≤ Backend.ext_severity x ≤ 4)%Z ∧ Backend.ext_source x ∈ source_tags.

(** The hour of day of an alert whose stamp parses. *)
Definition hour_of (a : alert) : option nat :=
  stamp ← alert_created_at a;
  if decide (0 ≤ dt_hour stamp < 24)%Z then Some (Z.to_nat (dt_hour stamp)) else None.

(** How many alerts of the list were created in hour [h]. *)
Definition alerts_at_hour (h : nat) (alerts_data : list alert) : nat :=
  length (filter (λ a, hour_of a = Some h) alerts_data).

(** [h] is the first of the hours with the most alerts. *)
Definition peak_hour (alerts_data : list alert) (h : nat) : Prop :=
  (h < 24)%nat
  ∧ (∀ h', (h' < 24)%nat → (alerts_at_hour h' alerts_data ≤ alerts_at_hour h alerts_data)%nat)
  ∧ (∀ h', (h' < h)%nat → (alerts_at_hour h' alerts_data < alerts_at_hour h alerts_data)%nat).

(** The alerts with a given severity. *)
Definition with_severity (s : Z) (alerts_data : list alert) : list alert :=
  filter (λ a, get_severity a = s) alerts_data.

(** No two rows of the subscription table have the same endpoint. *)
Definition unique_endpoints (table : list Backend.PushSubscription) : Prop :=
  NoDup (Backend.endpoint <$> table).

(** The gateway takes the message for the number [to]: the text is
    formatted and the call that sends it returns. *)
Definition sms_accepted {alert_data : Type}
    (format_alert_message : alert_data → result string)
    (messages_create : string → string → string → result unit)
    (self : Backend.TwilioService) (data : alert_data) (to : string) : Prop :=
  ∃ body, format_alert_message data = Ok body
    ∧ messages_create body (Backend.phone_number self) to = Ok ().


(** No alert passes the test of the loop against the place of an alert
    that comes before it in the list. *)
Definition apart_from_earlier {num A : Type} `{!Numeric.Arithmetic num}
    (get_lat get_lon : A → num) (alerts_data : list A) : Prop :=
  ∀ i j a b, (i < j)%nat → alerts_data !! i = Some a → alerts_data !! j = Some b →
    Numeric.close_to (get_lat b) (get_lon b) (get_lat a, get_lon a) = false.


Module Plaza.
Import PrimFloat.

(** Binary64 alerts: three reports at latitude 14.625 and longitude
    -90.525, one at longitude -90.51500000000001, and one far away at
    (14.7, -90.6). *)
Definition plaza (n : Z) : Binary64.alert :=
  {| Binary64.id := n;
     Binary64.lat := Some 0x1.d4p+3%float;
     Binary64.lon := Some (-0x1.6a1999999999ap+6)%float |}.
Definition far_away : Binary64.alert :=
  {| Binary64.id := 5;
     Binary64.lat := Some 0x1.d666666666666p+3%float;
     Binary64.lon := Some (-0x1.6a66666666666p+6)%float |}.


End Plaza.

(** * Properties *)

(** ** Rational arithmetic *)

Lemma Qltb_lt x y : Qltb x y = true ↔ x < y.
Proof.
  unfold Qltb. rewrite negb_true_iff, <- not_true_iff_false, Qle_bool_iff.
  split; [apply Qnot_le_lt | apply Qlt_not_le].
Qed.

Lemma Qleb_le x y : Qleb x y = true ↔ x <= y.
Proof. apply Qle_bool_iff. Qed.

Lemma foldl_Qplus_acc (xs : list Q) (a : Q) : foldl Qplus a xs == a + Qsum xs.
Proof.
  unfold Qsum. revert a. induction xs as [|x xs IH]; intros a; simpl.
  - lra.
  - rewrite (IH (a + x)), (IH (0 + x)). lra.
Qed.

Lemma Qsum_cons (x : Q) (xs : list Q) : Qsum (x :: xs) == x + Qsum xs.
Proof. unfold Qsum at 1. simpl. rewrite foldl_Qplus_acc. lra. Qed.

Lemma Qsum_nil : Qsum [] == 0.
Proof. reflexivity. Qed.

Lemma Qlen_cons {A} (x : A) (l : list A) : Qlen (x :: l) == 1 + Qlen l.
Proof.
  unfold Qlen. cbn [length]. rewrite Nat2Z.inj_succ, <- Z.add_1_l, inject_Z_plus.
  reflexivity.
Qed.

Lemma length_fmap_Qlen {A B} (f : A → B) (l : list A) : Qlen (f <$> l) = Qlen l.
Proof. unfold Qlen. by rewrite length_fmap. Qed.

Lemma Qlen_nonneg {A} (l : list A) : 0 <= Qlen l.
Proof. unfold Qlen. change 0 with (inject_Z 0). rewrite <- Zle_Qle. lia. Qed.

Lemma Qlen_pos {A} (l : list A) : l ≠ [] → 0 < Qlen l.
Proof.
  destruct l as [|x l]; [done|]. intros _. rewrite Qlen_cons.
  pose proof (Qlen_nonneg l). lra.
Qed.

(** ** The greedy loop *)

Section GreedyFacts.
Context {C : Type}.
Variable near : alert → C → bool.
Variable absorb : alert → C → C.
Variable fresh : alert → C.

Lemma place_assign clusters a :
  place near absorb fresh clusters a = assign near absorb fresh a clusters.
Proof.
  unfold place. induction clusters as [|c rest IH]; [done|].
  cbn [list_find assign]. destruct (near a c) eqn:Hn.
  - rewrite decide_True by done. done.
  - rewrite decide_False by (cbn; tauto).
    destruct (list_find _ rest) as [[i x]|]; cbn in *; by rewrite <- IH.
Qed.

Lemma greedy_snoc l a :
  greedy near absorb fresh (l ++ [a])
  = assign near absorb fresh a (greedy near absorb fresh l).
Proof. unfold greedy. by rewrite foldl_snoc, place_assign. Qed.

Lemma greedy_nil : greedy near absorb fresh [] = [].
Proof. done. Qed.

(** An invariant of single clusters holds of every cluster built. *)
Lemma assign_Forall (I : C → Prop) a clusters :
  I (fresh a) → (∀ c, I c → I (absorb a c)) →
  Forall I clusters → Forall I (assign near absorb fresh a clusters).
Proof.
  intros Hf Ha. induction 1 as [|c rest Hc Hrest IH]; cbn.
  - by constructor.
  - destruct (near a c); constructor; auto.
Qed.

Lemma greedy_Forall (I : C → Prop) :
  (∀ a, I (fresh a)) → (∀ a c, I c → I (absorb a c)) →
  ∀ l, Forall I (greedy near absorb fresh l).
Proof.
  intros Hf Ha l. induction l as [|a l IH] using rev_ind.
  - constructor.
  - rewrite greedy_snoc. apply assign_Forall; auto.
Qed.

Variable members : C → list alert.
Hypothesis members_absorb : ∀ a c, members (absorb a c) = members c ++ [a].
Hypothesis members_fresh : ∀ a, members (fresh a) = [a].

Lemma assign_members_perm a clusters :
  concat (members <$> assign near absorb fresh a clusters)
  ≡ₚ concat (members <$> clusters) ++ [a].
Proof.
  induction clusters as [|c rest IH]; cbn.
  - by rewrite members_fresh.
  - destruct (near a c); cbn.
    + rewrite members_absorb, <- !(assoc_L (++)).
      f_equiv. apply Permutation_app_comm.
    + by rewrite IH, (assoc_L (++)).
Qed.

Lemma greedy_members_perm l :
  concat (members <$> greedy near absorb fresh l) ≡ₚ l.
Proof.
  induction l as [|a l IH] using rev_ind; [done|].
  by rewrite greedy_snoc, assign_members_perm, IH.
Qed.

Lemma assign_members_sublist a l clusters :
  Forall (λ c, members c `sublist_of` l) clusters →
  Forall (λ c, members c `sublist_of` l ++ [a]) (assign near absorb fresh a clusters).
Proof.
  induction 1 as [|c rest Hc Hrest IH]; cbn.
  - constructor; [|constructor]. rewrite members_fresh.
    by apply sublist_inserts_l.
  - destruct (near a c); constructor; auto.
    + rewrite members_absorb. by apply sublist_app.
    + eapply Forall_impl; [exact Hrest|]. cbn. intros d Hd.
      by apply sublist_inserts_r.
    + by apply sublist_inserts_r.
Qed.

Lemma greedy_members_sublist l :
  Forall (λ c, members c `sublist_of` l) (greedy near absorb fresh l).
Proof.
  induction l as [|a l IH] using rev_ind; [constructor|].
  rewrite greedy_snoc. by apply assign_members_sublist.
Qed.

Lemma sum_list_length_concat (ls : list (list alert)) :
  sum_list (length <$> ls) = length (concat ls).
Proof.
  induction ls as [|x ls IH]; cbn; [done|]. by rewrite length_app, IH.
Qed.

Lemma elem_of_concat (ls : list (list alert)) e :
  e ∈ concat ls ↔ ∃ l, e ∈ l ∧ l ∈ ls.
Proof.
  induction ls as [|x ls IH]; cbn.
  - split; [by intros ?%elem_of_nil|]. by intros (l & _ & ?%elem_of_nil).
  - rewrite elem_of_app, IH. split.
    + intros [He|(l & He & Hl)]; [exists x|exists l]; split; auto; constructor; done.
    + intros (l & He & [->|Hl]%elem_of_cons); [by left|right; eauto].
Qed.

Lemma concat_NoDup_disjoint (ls : list (list alert)) i j x y :
  NoDup (concat ls) → i ≠ j → ls !! i = Some x → ls !! j = Some y → x ## y.
Proof.
  revert i j. induction ls as [|z ls IH]; intros i j Hnd Hij Hi Hj; [done|].
  cbn in Hnd. apply NoDup_app in Hnd as (Hz & Hzls & Hls).
  destruct i as [|i], j as [|j]; cbn in *; simplify_eq.
  - intros e He Hey. apply (Hzls e He).
    apply elem_of_concat. exists y. split; [done|].
    by eapply list_elem_of_lookup_2.
  - intros e He Hey. apply (Hzls e Hey).
    apply elem_of_concat. exists x. split; [done|].
    by eapply list_elem_of_lookup_2.
  - eapply (IH i j); eauto.
Qed.

Theorem greedy_splits l : splits members (greedy near absorb fresh l) l.
Proof.
  repeat split.
  - apply greedy_members_perm.
  - apply greedy_members_sublist.
  - rewrite list_fmap_compose, sum_list_length_concat.
    by rewrite greedy_members_perm.
  - intros Hnd i j c d Hij Hc Hd.
    eapply (concat_NoDup_disjoint (members <$> greedy near absorb fresh l) i j);
      [|done|by rewrite list_lookup_fmap, Hc|by rewrite list_lookup_fmap, Hd].
    by rewrite greedy_members_perm.
Qed.

End GreedyFacts.

Section Reported.
Context {C : Type} (members : C → list alert).

Lemma sublist_concat_fmap (l k : list C) :
  l `sublist_of` k → concat (members <$> l) `sublist_of` concat (members <$> k).
Proof.
  induction 1 as [|x l k _ IH|x l k _ IH]; cbn.
  - constructor.
  - by apply sublist_app.
  - by apply sublist_inserts_l.
Qed.

Lemma filter_reports (P : C → Prop) `{!∀ c, Decision (P c)} internal input :
  splits members internal input →
  (∀ c, P c → (2 ≤ length (members c))%nat) →
  reports members (filter P internal) internal input.
Proof.
  intros (Hperm & Hsub & _ & _) HP. split; [apply sublist_filter|]. split.
  - apply Forall_forall. intros c [Hc Hin]%list_elem_of_filter. split; [auto|].
    by eapply (proj1 (Forall_forall _ _) Hsub).
  - intros Hnd i j c d Hij Hc Hd.
    eapply (concat_NoDup_disjoint (members <$> filter P internal) i j);
      [|done|by rewrite list_lookup_fmap, Hc|by rewrite list_lookup_fmap, Hd].
    eapply sublist_NoDup; [|apply sublist_concat_fmap, sublist_filter].
    by rewrite Hperm.
Qed.
End Reported.

(** ** The four copies of the clustering function *)

Lemma main_count_length alerts_data :
  Forall (λ c, McpMain.count c = length (McpMain.alerts c))
    (McpMain.internal_clusters alerts_data).
Proof. apply greedy_Forall; done. Qed.

Lemma main_analyze_filter alerts_data :
  McpMain.analyze_location_clusters alerts_data
  = filter (λ c, (1 < length (McpMain.alerts c))%nat)
      (McpMain.internal_clusters alerts_data).
Proof.
  unfold McpMain.analyze_location_clusters.
  pose proof (main_count_length alerts_data) as H.
  induction H as [|c cs Hc _ IH]; [done|].
  rewrite !filter_cons, IH, Hc. done.
Qed.

Lemma advanced_analyze_filter alerts_data :
  AdvancedMcp.analyze_location_clusters alerts_data
  = filter (λ c, (1 < length (AdvancedMcp.alerts c))%nat)
      (AdvancedMcp.internal_clusters alerts_data).
Proof. by destruct alerts_data. Qed.

(** C10. Each copy of the clustering function (advanced_mcp.py, main.py,
    recommendation_engine.py) puts every input alert in exactly one
    internal cluster: the member lists are a rearrangement of the input,
    each follows the input order, their lengths add up to the input
    length, and they are pairwise disjoint for an input without repeated
    records; the clusters returned are some of the internal ones, with
    two members or more, and so pairwise disjoint sublists of the input. *)
Theorem clustering_partitions_input (alerts_data : list alert) :
  (splits AdvancedMcp.alerts (AdvancedMcp.internal_clusters alerts_data) alerts_data
   ∧ reports AdvancedMcp.alerts (AdvancedMcp.analyze_location_clusters alerts_data)
       (AdvancedMcp.internal_clusters alerts_data) alerts_data)
  ∧ (splits McpMain.alerts (McpMain.internal_clusters alerts_data) alerts_data
     ∧ reports McpMain.alerts (McpMain.analyze_location_clusters alerts_data)
         (McpMain.internal_clusters alerts_data) alerts_data)
  ∧ (splits RecommendationEngine.alerts
       (RecommendationEngine.internal_clusters alerts_data) alerts_data
     ∧ reports RecommendationEngine.alerts
         (RecommendationEngine.analyze_location_clusters alerts_data)
         (RecommendationEngine.internal_clusters alerts_data) alerts_data).
Proof.
  split; [|split].
  - assert (Hs : splits AdvancedMcp.alerts
                   (AdvancedMcp.internal_clusters alerts_data) alerts_data)
      by (by apply greedy_splits).
    split; [done|]. rewrite advanced_analyze_filter.
    apply filter_reports; [done|]. intros c Hc. lia.
  - assert (Hs : splits McpMain.alerts
                   (McpMain.internal_clusters alerts_data) alerts_data)
      by (by apply greedy_splits).
    split; [done|]. rewrite main_analyze_filter.
    apply filter_reports; [done|]. intros c Hc. lia.
  - assert (Hs : splits RecommendationEngine.alerts
                   (RecommendationEngine.internal_clusters alerts_data) alerts_data)
      by (by apply greedy_splits).
    split; [done|]. apply filter_reports; [done|]. intros c Hc. lia.
Qed.

Lemma clustering_partitions_input_witness :
  NoDup [flood_a; flood_b; flood_c]
  ∧ ∀ c d,
      McpMain.internal_clusters [flood_a; flood_b; flood_c] !! 0%nat = Some c →
      McpMain.internal_clusters [flood_a; flood_b; flood_c] !! 1%nat = Some d →
      McpMain.alerts c ## McpMain.alerts d.
Proof.
  assert (Hnd : NoDup [flood_a; flood_b; flood_c]).
  { repeat (apply NoDup_cons; split); [| |apply not_elem_of_nil|apply NoDup_nil_2];
      rewrite ?elem_of_cons, elem_of_nil; intros H; decompose [or] H;
      discriminate || done. }
  split; [exact Hnd|]. intros c d Hc Hd.
  destruct (clustering_partitions_input [flood_a; flood_b; flood_c])
    as (_ & ((_ & _ & _ & Hdisjoint) & _) & _).
  by apply (Hdisjoint Hnd 0%nat 1%nat c d).
Defined.

(** ** A point close to every member is close to the centroid *)

Lemma Qsq_nonneg (a : Q) : 0 <= a * a.
Proof. nra. Qed.

Lemma spread_step (s t x y u v n S1 S2 T S1' S2' T' n' : Q) :
  2 * s * (n * x - S1) + 2 * t * (n * y - S2) <= T + n * (s * s + t * t) →
  S1' == u + S1 → S2' == v + S2 →
  T' == (x - u) * (x - u) + (y - v) * (y - v) + T →
  n' == 1 + n →
  2 * s * (n' * x - S1') + 2 * t * (n' * y - S2') <= T' + n' * (s * s + t * t).
Proof.
  intros.
  pose proof (Qsq_nonneg (s - (x - u))).
  pose proof (Qsq_nonneg (t - (y - v))).
  nra.
Qed.

Lemma centroid_arith (x y n S1 S2 T R : Q) :
  0 < n →
  (∀ s t, 2 * s * (n * x - S1) + 2 * t * (n * y - S2) <= T + n * (s * s + t * t)) →
  T < n * R →
  (x - S1 / n) * (x - S1 / n) + (y - S2 / n) * (y - S2 / n) < R.
Proof.
  intros Hn HB HT.
  assert (Hm : n * / n == 1) by (apply Qmult_inv_r; lra).
  assert (Hmpos : 0 < / n) by (apply Qinv_lt_0_compat; exact Hn).
  unfold Qdiv. set (m := / n) in *. clearbody m.
  specialize (HB ((n * x - S1) * m) ((n * y - S2) * m)).
  assert (E1 : x - S1 * m == (n * x - S1) * m).
  { transitivity ((n * m) * x - S1 * m); [rewrite Hm|]; ring. }
  assert (E2 : y - S2 * m == (n * y - S2) * m).
  { transitivity ((n * m) * y - S2 * m); [rewrite Hm|]; ring. }
  rewrite E1, E2.
  set (P := n * x - S1) in *. set (P2 := n * y - S2) in *. clearbody P P2.
  set (W := P * P + P2 * P2) in *.
  assert (HB' : m * W <= T).
  { assert (E3 : n * (P * m * (P * m) + P2 * m * (P2 * m)) == m * W).
    { transitivity ((n * m) * (m * W)); [unfold W; ring|rewrite Hm; ring]. }
    assert (E4 : 2 * (P * m) * P + 2 * (P2 * m) * P2 == 2 * (m * W))
      by (unfold W; ring).
    rewrite E3, E4 in HB. lra. }
  assert (Hk : P * m * (P * m) + P2 * m * (P2 * m) == m * (m * W))
    by (unfold W; ring).
  rewrite Hk.
  assert (m * (m * W) <= m * T) by (apply Qmult_le_l; assumption).
  assert (m * T < m * (n * R)) by (apply Qmult_lt_l; assumption).
  assert (m * (n * R) == R).
  { transitivity ((n * m) * R); [ring|rewrite Hm; ring]. }
  lra.
Qed.

Section Convexity.
Variables x y : Q.

Lemma spread_bound (l : list alert) (s t : Q) :
  2 * s * (Qlen l * x - Qsum (get_lat <$> l))
  + 2 * t * (Qlen l * y - Qsum (get_lon <$> l))
  <= Qsum (alert_dist2 x y <$> l) + Qlen l * (s * s + t * t).
Proof.
  induction l as [|b l IH]; cbn [fmap list_fmap].
  - change (Qlen (@nil alert)) with 0. change (Qsum []) with 0. lra.
  - eapply spread_step; [exact IH|apply Qsum_cons..|apply Qlen_cons].
Qed.

Lemma sum_dist2_below (R : Q) (l : list alert) :
  l ≠ [] → (∀ b, b ∈ l → alert_dist2 x y b < R) →
  Qsum (alert_dist2 x y <$> l) < Qlen l * R.
Proof.
  intros Hne Hall. destruct l as [|a l]; [done|]. clear Hne.
  revert a Hall. induction l as [|b l IH]; intros a Hall; cbn [fmap list_fmap] in *.
  - pose proof (Hall a ltac:(constructor)).
    pose proof (Qsum_cons (alert_dist2 x y a) []). pose proof Qsum_nil.
    change (Qlen [a]) with 1. lra.
  - pose proof (Hall a ltac:(constructor)).
    pose proof (Qsum_cons (alert_dist2 x y a)
                  (alert_dist2 x y b :: (alert_dist2 x y <$> l))).
    pose proof (Qlen_cons a (b :: l)).
    assert (Qsum (alert_dist2 x y b :: (alert_dist2 x y <$> l)) < Qlen (b :: l) * R).
    { apply IH. intros c Hc. apply Hall. by constructor. }
    nra.
Qed.

Lemma centroid_within (R : Q) (l : list alert) :
  l ≠ [] → (∀ b, b ∈ l → alert_dist2 x y b < R) →
  dist2 x y (mean (get_lat <$> l)) (mean (get_lon <$> l)) < R.
Proof.
  intros Hne Hall. unfold mean. rewrite !length_fmap_Qlen.
  apply (centroid_arith x y (Qlen l) _ _ (Qsum (alert_dist2 x y <$> l))).
  - by apply Qlen_pos.
  - apply spread_bound.
  - by apply sum_dist2_below.
Qed.
End Convexity.

(** ** Clusters whose centre is recomputed on every assignment *)

Section MeanClusters.
Context {C : Type}.
Variable near : alert → C → bool.
Variable absorb : alert → C → C.
Variable fresh : alert → C.
Variable members : C → list alert.
Variable center : C → Q * Q.
Hypothesis near_center : ∀ a c,
  near a c = dist_lt (get_lat a) (get_lon a) (center c).1 (center c).2 0.01.
Hypothesis members_absorb : ∀ a c, members (absorb a c) = members c ++ [a].
Hypothesis members_fresh : ∀ a, members (fresh a) = [a].
Hypothesis center_absorb : ∀ a c, center (absorb a c) = centroid (members c ++ [a]).
Hypothesis center_fresh : ∀ a, center (fresh a) = (get_lat a, get_lon a).

Lemma centre_recomputed l :
  Forall (λ c, center c = centroid (members c)
               ∨ ∃ a, members c = [a] ∧ center c = (get_lat a, get_lon a))
    (greedy near absorb fresh l).
Proof.
  apply greedy_Forall.
  - intros a. right. exists a. by rewrite members_fresh, center_fresh.
  - intros a c _. left. by rewrite members_absorb, center_absorb.
Qed.

Lemma centre_of_two l c :
  c ∈ greedy near absorb fresh l → (1 < length (members c))%nat →
  center c = centroid (members c).
Proof.
  intros Hc Hlen.
  destruct (proj1 (Forall_forall _ _) (centre_recomputed l) c Hc)
    as [?|(a & Ha & _)]; [done|].
  rewrite Ha in Hlen. cbn in Hlen. lia.
Qed.

Lemma mean_singleton (q : Q) : mean [q] == q.
Proof.
  unfold mean. change (Qlen [q]) with 1. pose proof (Qsum_cons q []) as E.
  rewrite E. change (Qsum []) with 0. field.
Qed.

Lemma all_close_one_cluster l :
  l ≠ [] → pairwise_within 0.01 l →
  ∃ c, greedy near absorb fresh l = [c] ∧ members c = l
       ∧ (center c).1 == mean (get_lat <$> l)
       ∧ (center c).2 == mean (get_lon <$> l).
Proof.
  induction l as [|a l IH] using rev_ind; [done|]. intros _ Hpw.
  rewrite greedy_snoc. destruct (decide (l = [])) as [->|Hne].
  - exists (fresh a). cbn. rewrite members_fresh, center_fresh. cbn.
    by rewrite !mean_singleton.
  - destruct IH as (c & Hg & Hm & Hx & Hy); [done| |].
    { intros b d Hb Hd. apply Hpw; apply elem_of_app; by left. }
    rewrite Hg. cbn.
    assert (Hnear : near a c = true).
    { rewrite near_center. unfold dist_lt. apply Qltb_lt.
      assert (E : dist2 (get_lat a) (get_lon a) (center c).1 (center c).2
                  == dist2 (get_lat a) (get_lon a)
                       (mean (get_lat <$> l)) (mean (get_lon <$> l)))
        by (unfold dist2, sq; by rewrite Hx, Hy).
      rewrite E. apply centroid_within; [done|]. intros b Hb.
      apply Hpw; apply elem_of_app; [right; constructor|by left]. }
    rewrite Hnear. exists (absorb a c).
    by rewrite members_absorb, center_absorb, Hm.
Qed.

Lemma all_close_reported l :
  (2 ≤ length l)%nat → pairwise_within 0.01 l →
  ∃ c, filter (λ c, (1 < length (members c))%nat) (greedy near absorb fresh l) = [c]
       ∧ members c = l.
Proof.
  intros Hlen Hpw.
  destruct (all_close_one_cluster l) as (c & Hg & Hm & _);
    [intros ->; cbn in Hlen; lia|done|].
  exists c. split; [|done].
  rewrite Hg, filter_cons, decide_True; [done|]. rewrite Hm. lia.
Qed.
End MeanClusters.

(** ** The copies that recompute the centre *)

Lemma main_near_center a c :
  McpMain.near a c
  = dist_lt (get_lat a) (get_lon a) (McpMain.center c).1 (McpMain.center c).2 0.01.
Proof. unfold McpMain.near. by destruct (McpMain.center c). Qed.

Lemma advanced_near_center a c :
  AdvancedMcp.near a c
  = dist_lt (get_lat a) (get_lon a)
      (AdvancedMcp.center c).1 (AdvancedMcp.center c).2 0.01.
Proof. unfold AdvancedMcp.near. by destruct (AdvancedMcp.center c). Qed.

Lemma decision_near_center a c :
  DecisionSupport.near a c
  = dist_lt (get_lat a) (get_lon a)
      (DecisionSupport.center c).1 (DecisionSupport.center c).2 0.01.
Proof. unfold DecisionSupport.near. by destruct (DecisionSupport.center c). Qed.

Ltac centre_by_unfolding :=
  intros; unfold centroid, mean; cbn; by rewrite !length_fmap_Qlen.

Lemma main_center_absorb a c :
  McpMain.center (McpMain.absorb a c) = centroid (McpMain.alerts c ++ [a]).
Proof. centre_by_unfolding. Qed.

Lemma advanced_center_absorb a c :
  AdvancedMcp.center (AdvancedMcp.absorb a c) = centroid (AdvancedMcp.alerts c ++ [a]).
Proof. centre_by_unfolding. Qed.

Lemma decision_center_absorb a c :
  DecisionSupport.center (DecisionSupport.absorb a c)
  = centroid (DecisionSupport.alerts c ++ [a]).
Proof. centre_by_unfolding. Qed.

(** The simplified copy keeps the centre of a cluster where its first
    member put it. *)
Lemma simplified_centre_fixed alerts_data :
  Forall (λ c, ∃ a rest, RecommendationEngine.alerts c = a :: rest
                 ∧ RecommendationEngine.center c = (get_lat a, get_lon a))
    (RecommendationEngine.internal_clusters alerts_data).
Proof.
  apply greedy_Forall.
  - intros a. by exists a, [].
  - intros a c (b & rest & Hm & Hc). exists b, (rest ++ [a]). cbn.
    by rewrite Hm, Hc.
Qed.

(** In exact arithmetic, pairwise closeness is enough for the test
    against the mean: a list of two alerts or more, all pairwise closer
    than 0.01 degrees, comes back from the exact reading of
    [analyze_location_clusters] (advanced_mcp.py, decision_support.py,
    main.py) as exactly one cluster, whose members are the whole input.
    In binary64 the mean is rounded and this is lost, see
    [pairwise_close_alert_left_out]. *)
Theorem close_alerts_form_one_cluster (alerts_data : list alert) :
  (2 ≤ length alerts_data)%nat →
  pairwise_within 0.01 alerts_data →
  (∃ c, AdvancedMcp.analyze_location_clusters alerts_data = [c]
        ∧ AdvancedMcp.alerts c = alerts_data)
  ∧ (∃ c, DecisionSupport.analyze_location_clusters alerts_data = [c]
          ∧ DecisionSupport.alerts c = alerts_data)
  ∧ (∃ c, McpMain.analyze_location_clusters alerts_data = [c]
          ∧ McpMain.alerts c = alerts_data).
Proof.
  intros Hlen Hpw. split; [|split].
  - rewrite advanced_analyze_filter.
    by apply (all_close_reported AdvancedMcp.near AdvancedMcp.absorb AdvancedMcp.fresh
                AdvancedMcp.alerts AdvancedMcp.center advanced_near_center
                (λ _ _, eq_refl) (λ _, eq_refl) advanced_center_absorb (λ _, eq_refl)).
  - by apply (all_close_reported DecisionSupport.near DecisionSupport.absorb
                DecisionSupport.fresh DecisionSupport.alerts DecisionSupport.center
                decision_near_center
                (λ _ _, eq_refl) (λ _, eq_refl) decision_center_absorb (λ _, eq_refl)).
  - rewrite main_analyze_filter.
    by apply (all_close_reported McpMain.near McpMain.absorb McpMain.fresh
                McpMain.alerts McpMain.center main_near_center
                (λ _ _, eq_refl) (λ _, eq_refl) main_center_absorb (λ _, eq_refl)).
Qed.

Lemma pairwise_within_two a b :
  alert_dist2 (get_lat a) (get_lon a) a < sq 0.01 →
  alert_dist2 (get_lat a) (get_lon a) b < sq 0.01 →
  alert_dist2 (get_lat b) (get_lon b) a < sq 0.01 →
  alert_dist2 (get_lat b) (get_lon b) b < sq 0.01 →
  pairwise_within 0.01 [a; b].
Proof.
  intros Haa Hab Hba Hbb x y Hx Hy.
  apply elem_of_cons in Hx as [->|Hx]; [|apply list_elem_of_singleton in Hx as ->];
  (apply elem_of_cons in Hy as [->|Hy]; [|apply list_elem_of_singleton in Hy as ->]);
  done.
Qed.

Lemma close_alerts_form_one_cluster_witness :
  (∃ c, AdvancedMcp.analyze_location_clusters [flood_a; flood_b] = [c]
        ∧ AdvancedMcp.alerts c = [flood_a; flood_b])
  ∧ (∃ c, DecisionSupport.analyze_location_clusters [flood_a; flood_b] = [c]
          ∧ DecisionSupport.alerts c = [flood_a; flood_b])
  ∧ (∃ c, McpMain.analyze_location_clusters [flood_a; flood_b] = [c]
          ∧ McpMain.alerts c = [flood_a; flood_b]).
Proof.
  apply (close_alerts_form_one_cluster [flood_a; flood_b]).
  - cbn. lia.
  - apply pairwise_within_two; reflexivity.
Defined.

(** C3 (as the code has it). In main.py, advanced_mcp.py and
    decision_support.py every cluster returned has, as its centre, the
    arithmetic mean of the latitudes and of the longitudes of its
    members.  The simplified copy in recommendation_engine.py never
    recomputes the centre: it stays at the coordinates of the first
    member. *)
Theorem centre_is_mean_where_recomputed (alerts_data : list alert) :
  (∀ c, c ∈ McpMain.analyze_location_clusters alerts_data →
        McpMain.center c = centroid (McpMain.alerts c))
  ∧ (∀ c, c ∈ AdvancedMcp.analyze_location_clusters alerts_data →
          AdvancedMcp.center c = centroid (AdvancedMcp.alerts c))
  ∧ (∀ c, c ∈ DecisionSupport.analyze_location_clusters alerts_data →
          DecisionSupport.center c = centroid (DecisionSupport.alerts c))
  ∧ (∀ c, c ∈ RecommendationEngine.analyze_location_clusters alerts_data →
          ∃ a rest, RecommendationEngine.alerts c = a :: rest
                    ∧ RecommendationEngine.center c = (get_lat a, get_lon a)).
Proof.
  repeat split.
  - intros c. rewrite main_analyze_filter. intros [Hlen Hc]%list_elem_of_filter.
    by eapply (centre_of_two McpMain.near McpMain.absorb McpMain.fresh
                 McpMain.alerts McpMain.center
                 (λ _ _, eq_refl) (λ _, eq_refl) main_center_absorb (λ _, eq_refl)).
  - intros c. rewrite advanced_analyze_filter.
    intros [Hlen Hc]%list_elem_of_filter.
    by eapply (centre_of_two AdvancedMcp.near AdvancedMcp.absorb AdvancedMcp.fresh
                 AdvancedMcp.alerts AdvancedMcp.center
                 (λ _ _, eq_refl) (λ _, eq_refl) advanced_center_absorb (λ _, eq_refl)).
  - intros c [Hlen Hc]%list_elem_of_filter.
    by eapply (centre_of_two DecisionSupport.near DecisionSupport.absorb
                 DecisionSupport.fresh DecisionSupport.alerts DecisionSupport.center
                 (λ _ _, eq_refl) (λ _, eq_refl) decision_center_absorb (λ _, eq_refl)).
  - intros c [_ Hc]%list_elem_of_filter.
    by apply (proj1 (Forall_forall _ _) (simplified_centre_fixed alerts_data)).
Qed.

(** C3, as stated, fails on recommendation_engine.py: for two alerts
    0.005 degrees apart the cluster returned keeps the centre latitude
    14.625, and the mean latitude of its members is 14.6275. *)
Lemma simplified_centre_is_not_mean :
  RecommendationEngine.analyze_location_clusters [flood_a; flood_b]
  = [ {| RecommendationEngine.center := (14.625, -90.525);
         RecommendationEngine.alerts := [flood_a; flood_b] |} ]
  ∧ ¬ (∀ c, c ∈ RecommendationEngine.analyze_location_clusters [flood_a; flood_b] →
            (RecommendationEngine.center c).1
              == (centroid (RecommendationEngine.alerts c)).1
            ∧ (RecommendationEngine.center c).2
              == (centroid (RecommendationEngine.alerts c)).2).
Proof.
  assert (E : RecommendationEngine.analyze_location_clusters [flood_a; flood_b]
              = [ {| RecommendationEngine.center := (14.625, -90.525);
                     RecommendationEngine.alerts := [flood_a; flood_b] |} ])
    by (vm_compute; reflexivity).
  split; [exact E|]. intros H.
  destruct (H _ ltac:(rewrite E; constructor)) as [Hlat _].
  vm_compute in Hlat. discriminate.
Qed.

(** ** Ingestion *)

Lemma filter_none {A} (P : A → Prop) `{!∀ x, Decision (P x)} (l : list A) :
  Forall (λ x, ¬ P x) l → filter P l = [].
Proof.
  induction 1 as [|x l Hx _ IH]; [done|]. by rewrite filter_cons, decide_False.
Qed.

Lemma unique_titles_at_most_one (db : list Backend.Alert) :
  NoDup (Backend.title <$> db) ↔ at_most_one_per_title db.
Proof.
  induction db as [|row db IH]; cbn.
  - split; [intros _ t; cbn; lia|constructor].
  - rewrite NoDup_cons, IH. split.
    + intros [Hnot Hdb] t. rewrite filter_cons. case_decide as Ht; [|apply Hdb].
      cbn. assert (Hnil : filter (λ r, Backend.title r = t) db = []); [|by rewrite Hnil].
      apply filter_none. apply Forall_forall. intros r Hr Hrt.
      apply Hnot. rewrite Ht, <- Hrt. by apply list_elem_of_fmap_2.
    + intros H. split.
      * intros (r & Hrt & Hr)%list_elem_of_fmap.
        specialize (H (Backend.title row)). rewrite filter_cons, decide_True in H by done.
        assert (r ∈ filter (λ r0, Backend.title r0 = Backend.title row) db)
          as Hin by (by apply list_elem_of_filter).
        destruct (filter _ db); [by apply elem_of_nil in Hin|cbn in H; lia].
      * intros t. specialize (H t). rewrite filter_cons in H.
        case_decide; cbn in H; lia.
Qed.

Lemma first_with_title_None t db :
  Backend.first_with_title (Some t) db = None → t ∉ Backend.title <$> db.
Proof.
  unfold Backend.first_with_title. intros H (r & Hrt & Hr)%list_elem_of_fmap.
  apply fmap_None, list_find_None in H.
  by apply (proj1 (Forall_forall _ _) H r Hr).
Qed.

(** The loop of [fetch_google_alerts] keeps the titles distinct, also
    when it stops on an exception. *)
Lemma ingest_unique now alerts db :
  NoDup (Backend.title <$> db) →
  NoDup (Backend.title <$> (Backend.ingest now alerts db).2).
Proof.
  revert db. induction alerts as [|a rest IH]; intros db Hdb; cbn; [done|].
  destruct (Backend.first_with_title (Backend.c_title a) db) eqn:Hfind; [by apply IH|].
  destruct (Backend.c_title a) as [t|]; [|done].
  destruct (Backend.c_description a) as [d|]; [|done].
  apply IH. rewrite fmap_app. apply NoDup_app. split; [done|]. split.
  - intros x Hx ->%list_elem_of_singleton. by apply first_with_title_None in Hfind.
  - cbn. apply NoDup_singleton.
Qed.

Lemma fetch_google_unique now reply db :
  NoDup (Backend.title <$> db) →
  NoDup (Backend.title <$> (Backend.fetch_google_alerts now reply db).2).
Proof.
  intros Hdb. unfold Backend.fetch_google_alerts.
  destruct (_ ≫= _) as [data|e]; [by apply ingest_unique|done].
Qed.

(** C1 (as the code has it). Any sequence of [fetch_google_alerts]
    batches, run on a table with at most one row per title, leaves at
    most one row per title: a candidate is added only when no row has
    its title. *)
Theorem google_batches_keep_titles_unique (now : Z)
    (replies : list (result (response (option (list Backend.candidate)))))
    (db : list Backend.Alert) :
  at_most_one_per_title db →
  at_most_one_per_title (Backend.run now (Backend.FetchGoogle <$> replies) db).
Proof.
  rewrite <- !unique_titles_at_most_one. revert db.
  induction replies as [|reply replies IH]; intros db Hdb; [done|].
  cbn. apply IH. by apply fetch_google_unique.
Qed.

Lemma google_batches_keep_titles_unique_witness :
  at_most_one_per_title (Backend.run 0 (Backend.FetchGoogle <$> [google_batch; google_batch]) []).
Proof.
  apply (google_batches_keep_titles_unique 0 [google_batch; google_batch] []).
  intros t. cbn. lia.
Defined.

(** C1, as stated, fails on [create_alert]: the same report posted twice
    is stored twice, and the table then holds two rows with its title. *)
Lemma create_alert_stores_duplicates :
  let db := Backend.run 0 [Backend.CreateAlert posted_report;
                           Backend.CreateAlert posted_report] [] in
  length (filter (λ row, Backend.title row = "Inundacion zona 1") db) = 2%nat
  ∧ ¬ at_most_one_per_title db.
Proof.
  cbn zeta.
  assert (E : length (filter (λ row, Backend.title row = "Inundacion zona 1")
                (Backend.run 0 [Backend.CreateAlert posted_report;
                                Backend.CreateAlert posted_report] [])) = 2%nat)
    by (vm_compute; reflexivity).
  split; [exact E|]. intros H. specialize (H "Inundacion zona 1").
  rewrite E in H. lia.
Qed.

(** ** Trends *)

Lemma length_last_n {A} (n : nat) (l : list A) :
  length (last_n n l) = (length l `min` n)%nat.
Proof. unfold last_n. rewrite length_drop. lia. Qed.

(** The dates selected are fewer than two exactly when the dict has
    fewer than two keys. *)
Lemma recent_dates_short (n : nat) (daily_count : gmap Z nat) :
  (2 ≤ n)%nat →
  (length (last_n n (merge_sort Z.le (map_to_list daily_count).*1)) < 2)%nat
  ↔ (size (dom daily_count) < 2)%nat.
Proof.
  intros Hn. rewrite length_last_n, merge_sort_Permutation, length_fmap,
    length_map_to_list, size_dom. lia.
Qed.

Lemma active_days_cons a alerts_data :
  active_days (a :: alerts_data)
  = match alert_created_at a with
    | Some stamp => {[dt_date stamp]} ∪ active_days alerts_data
    | None => active_days alerts_data
    end.
Proof. unfold active_days. cbn. by destruct (alert_created_at a). Qed.

Lemma main_daily_count_dom alerts_data (daily_count : gmap Z nat) :
  dom (foldl McpMain.count_day daily_count alerts_data)
  = dom daily_count ∪ active_days alerts_data.
Proof.
  revert daily_count. induction alerts_data as [|a rest IH]; intros daily_count.
  - cbn. unfold active_days. cbn. by rewrite (right_id_L ∅ (∪)).
  - cbn [foldl]. rewrite IH, active_days_cons. unfold McpMain.count_day.
    destruct (alert_created_at a) as [stamp|]; [|done].
    by rewrite dom_insert_L, (comm_L (∪) {[dt_date stamp]}), <- (assoc_L (∪)).
Qed.

Lemma advanced_count_days_dom alerts_data (daily_count counted : gmap Z nat) :
  AdvancedMcp.count_days daily_count alerts_data = Ok counted →
  dom counted = dom daily_count ∪ active_days alerts_data.
Proof.
  revert daily_count. induction alerts_data as [|a rest IH]; intros daily_count.
  - cbn. intros [= <-]. unfold active_days. cbn. by rewrite (right_id_L ∅ (∪)).
  - rewrite active_days_cons. cbn [AdvancedMcp.count_days].
    destruct (alert_created_at a) as [stamp|]; [|done].
    intros ->%IH.
    by rewrite dom_insert_L, (comm_L (∪) {[dt_date stamp]}), <- (assoc_L (∪)).
Qed.

Lemma advanced_count_days_parse alerts_data (daily_count : gmap Z nat) :
  Forall (λ a, is_Some (alert_created_at a)) alerts_data →
  ∃ counted, AdvancedMcp.count_days daily_count alerts_data = Ok counted.
Proof.
  intros H. revert daily_count.
  induction H as [|a rest [stamp Ha] _ IH]; intros daily_count; cbn; [by eexists|].
  rewrite Ha. apply IH.
Qed.

Lemma main_trend_floor alerts_data :
  alerts_data ≠ [] → (size (active_days alerts_data) < 2)%nat →
  McpMain.analyze_trends alerts_data
  = {| McpMain.trend := "insufficient_data"; McpMain.increasing := false;
       McpMain.recent_counts := None |}.
Proof.
  intros Hne Hdays. unfold McpMain.analyze_trends.
  destruct alerts_data as [|a rest]; [done|].
  rewrite decide_True; [done|]. apply recent_dates_short; [lia|].
  rewrite main_daily_count_dom, dom_empty_L, (left_id_L ∅ (∪)). done.
Qed.

Lemma advanced_trend_floor alerts_data :
  alerts_data ≠ [] → Forall (λ a, is_Some (alert_created_at a)) alerts_data →
  (size (active_days alerts_data) < 2)%nat →
  AdvancedMcp.analyze_trends alerts_data
  = Ok {| AdvancedMcp.trend := "insufficient_data"; AdvancedMcp.increasing := false;
          AdvancedMcp.last_7_days := None |}.
Proof.
  intros Hne Hparse Hdays. unfold AdvancedMcp.analyze_trends.
  destruct alerts_data as [|a rest]; [done|].
  destruct (advanced_count_days_parse (a :: rest) ∅ Hparse) as [counted Hc].
  rewrite Hc. cbn [mbind result_bind].
  rewrite decide_True; [done|]. apply recent_dates_short; [lia|].
  rewrite (advanced_count_days_dom _ _ _ Hc), dom_empty_L, (left_id_L ∅ (∪)). done.
Qed.

Lemma simplified_trend_values now alerts_data t :
  RecommendationEngine.analyze_trends now alerts_data = Ok t →
  RecommendationEngine.trend t = "stable" ∨ RecommendationEngine.trend t = "increasing".
Proof.
  unfold RecommendationEngine.analyze_trends. case_decide.
  - intros [= <-]. by left.
  - destruct (RecommendationEngine.recent_of now alerts_data) as [recent|e]; [|done].
    cbn. intros [= <-]. cbn. destruct (Qltb _ _); auto.
Qed.

(** C5 (as the code has it). For a snapshot that is not empty and whose
    alerts fall on fewer than two distinct dates, [analyze_trends] of
    main.py returns [insufficient_data], and so does the one of
    advanced_mcp.py when every stamp parses (it raises otherwise).  The
    empty snapshot is answered before any date is looked at: the trend
    is [stable].  The analyzer of recommendation_engine.py only ever
    answers [stable] or [increasing]. *)
Theorem trend_floor :
  (∀ alerts_data, alerts_data ≠ [] → (size (active_days alerts_data) < 2)%nat →
     McpMain.trend (McpMain.analyze_trends alerts_data) = "insufficient_data")
  ∧ (∀ alerts_data, alerts_data ≠ [] →
       Forall (λ a, is_Some (alert_created_at a)) alerts_data →
       (size (active_days alerts_data) < 2)%nat →
       ∃ t, AdvancedMcp.analyze_trends alerts_data = Ok t
            ∧ AdvancedMcp.trend t = "insufficient_data")
  ∧ McpMain.trend (McpMain.analyze_trends []) = "stable"
  ∧ (∃ t, AdvancedMcp.analyze_trends [] = Ok t ∧ AdvancedMcp.trend t = "stable")
  ∧ (∀ now alerts_data t,
       RecommendationEngine.analyze_trends now alerts_data = Ok t →
       RecommendationEngine.trend t = "stable"
       ∨ RecommendationEngine.trend t = "increasing").
Proof.
  split; [|split; [|split; [|split]]].
  - intros alerts_data Hne Hdays. by rewrite main_trend_floor.
  - intros alerts_data Hne Hparse Hdays. eexists. split; [by apply advanced_trend_floor|done].
  - done.
  - by eexists.
  - apply simplified_trend_values.
Qed.

Lemma trend_floor_witness :
  McpMain.trend (McpMain.analyze_trends [flood_a; flood_b]) = "insufficient_data"
  ∧ (∃ t, AdvancedMcp.analyze_trends [flood_a; flood_b] = Ok t
          ∧ AdvancedMcp.trend t = "insufficient_data").
Proof.
  destruct trend_floor as (Hmain & Hadv & _). split.
  - apply (Hmain [flood_a; flood_b]); [done|]. vm_compute. lia.
  - apply (Hadv [flood_a; flood_b]); [done| |vm_compute; lia].
    repeat constructor; by eexists.
Defined.

(** C5, as stated, fails on the empty snapshot: it has no active day at
    all, and the trend returned is [stable]. *)
Lemma empty_snapshot_trend_is_stable :
  (size (active_days []) < 2)%nat
  ∧ McpMain.trend (McpMain.analyze_trends []) = "stable"
  ∧ McpMain.trend (McpMain.analyze_trends []) ≠ "insufficient_data"
  ∧ AdvancedMcp.analyze_trends []
    = Ok {| AdvancedMcp.trend := "stable"; AdvancedMcp.increasing := false;
            AdvancedMcp.last_7_days := None |}.
Proof. repeat split; [vm_compute; lia|done]. Qed.

(** ** Risk levels *)




Lemma Qnat_le (n m : nat) : (n ≤ m)%nat → Qnat n <= Qnat m.
Proof. intros H. unfold Qnat. rewrite <- Zle_Qle. lia. Qed.






(** *** [risk_assessment] of advanced_mcp.py *)
















(** *** The empty snapshot *)

(** C8. With no alert (and no external alert) the risk scorer answers
    without an error: the lowest level ([LOW] in main.py, its Spanish
    name [BAJO] in advanced_mcp.py), confidence 0, no factor and no
    recommendation.  The snapshot is empty when the backend answers 200
    with an empty list, and also when it answers any other status. *)
Theorem empty_snapshot_is_low_risk (status : Z) :
  (let r := McpMain.risk_assessment (Ok (Response status (Ok []))) in
   risk_level r = "LOW" ∧ confidence r == 0 ∧ factors r = [] ∧ recommendations r = [])
  ∧ (∃ r, AdvancedMcp.risk_assessment (Ok (Response status (Ok [])))
            (Ok (Response status (Ok (Some [])))) = Ok r
          ∧ risk_level r = "BAJO" ∧ level_rank (risk_level r) = level_rank "LOW"
          ∧ confidence r == 0 ∧ factors r = [] ∧ recommendations r = []).
Proof.
  split.
  - unfold McpMain.risk_assessment, json_if_200. cbn.
    case_decide; cbn; repeat split; reflexivity.
  - unfold AdvancedMcp.risk_assessment, json_if_200. cbn.
    case_decide; cbn; eexists; repeat split; reflexivity.
Qed.

(** Five alerts at one place with severities 4, 4, 3, 2 and 1: one
    cluster of five, three alerts of high severity, two factors; the
    score of main.py is 2 * 0.5 + 3 * 0.3 = 1.9, below the threshold 2. *)
Example five_alerts_at_one_place :
  let at_centre sev n :=
    {| alert_id := n; alert_title := "Sismo"; alert_lat := Some 14.625;
       alert_lon := Some (-90.525); alert_severity := Some sev;
       alert_created_at := Some (DateTime 739000 12 0) |} in
  let snapshot := [at_centre 4 1; at_centre 4 2; at_centre 3 3; at_centre 2 4;
                   at_centre 1 5]%Z in
  (McpMain.alerts <$> McpMain.analyze_location_clusters snapshot) = [snapshot]
  ∧ length (high_severity_of snapshot) = 3%nat
  ∧ risk_level (McpMain.assess snapshot) = "MEDIUM"
  ∧ length (factors (McpMain.assess snapshot)) = 2%nat.
Proof. cbn zeta. repeat split; vm_compute; reflexivity. Qed.

(** ** Recommendations *)

Lemma snoc_not_nil {A} (l : list A) (x : A) : l ++ [x] ≠ [].
Proof. by destruct l. Qed.

Lemma fallback_not_nil {A} (l : list A) (x : A) :
  match l with [] => [x] | _ => l end ≠ [].
Proof. by destruct l. Qed.

Lemma filter_nonempty {A} (P : A → Prop) `{!∀ x, Decision (P x)} (l : list A) :
  filter P l ≠ [] ↔ ∃ x, x ∈ l ∧ P x.
Proof.
  split.
  - destruct (filter P l) as [|x k] eqn:E; [done|]. intros _. exists x.
    assert (Hx : x ∈ filter P l) by (rewrite E; constructor).
    apply list_elem_of_filter in Hx. tauto.
  - intros (x & Hx & HP) E.
    assert (Hin : x ∈ filter P l) by (by apply list_elem_of_filter).
    rewrite E in Hin. by apply elem_of_nil in Hin.
Qed.

Lemma high_severity_nonempty (alerts : list alert) :
  high_severity_of alerts ≠ [] ↔ some_high_severity alerts.
Proof. apply filter_nonempty. Qed.

Lemma dist2_sym (x1 y1 x2 y2 : Q) : dist2 x1 y1 x2 y2 == dist2 x2 y2 x1 y1.
Proof. unfold dist2, sq. ring. Qed.

Lemma truthy_Some (location : option (gmap string Q)) :
  truthy location = true ↔ ∃ d, location = Some d ∧ d ≠ ∅.
Proof.
  destruct location as [d|]; cbn.
  - rewrite negb_true_iff, bool_decide_eq_false. split; [eauto|].
    by intros (? & [= <-] & ?).
  - split; [done|]. by intros (? & ? & ?).
Qed.

(** *** The alerts near the requester *)

Lemma simplified_nearby_elem alerts location r a :
  a ∈ RecommendationEngine.get_nearby_alerts alerts location r
  ↔ a ∈ alerts ∧ ∃ d, location = Some d ∧ d ≠ ∅ ∧ close_to d r a.
Proof.
  unfold RecommendationEngine.get_nearby_alerts.
  destruct (truthy location) eqn:Ht; cbn.
  - apply truthy_Some in Ht as (d & -> & Hd). cbn.
    rewrite list_elem_of_filter. unfold dist_le, close_to.
    rewrite Is_true_true, Qleb_le, dist2_sym. split.
    + intros [? ?]. split; [done|]. by exists d.
    + intros [? (? & [= <-] & _ & ?)]. done.
  - split; [by intros ?%elem_of_nil|]. intros [_ (d & -> & Hd & _)].
    assert (truthy (Some d) = true) by (apply truthy_Some; eauto). congruence.
Qed.

Lemma main_nearby_elem alerts location r a :
  a ∈ McpMain.get_nearby_alerts alerts location r
  ↔ a ∈ alerts ∧ ∃ d, location = Some d ∧ d ≠ ∅ ∧ close_to d r a.
Proof.
  unfold McpMain.get_nearby_alerts.
  destruct (truthy location) eqn:Ht; cbn.
  - apply truthy_Some in Ht as (d & -> & Hd). cbn.
    rewrite list_elem_of_filter. unfold McpMain.calculate_distance_le, dist_le, close_to.
    rewrite Is_true_true, Qleb_le. split.
    + intros [? ?]. split; [done|]. by exists d.
    + intros [? (? & [= <-] & _ & ?)]. done.
  - split; [by intros ?%elem_of_nil|]. intros [_ (d & -> & Hd & _)].
    assert (truthy (Some d) = true) by (apply truthy_Some; eauto). congruence.
Qed.

(** *** First responders *)

Lemma simplified_responder_immediate alerts location :
  let nearby := RecommendationEngine.get_nearby_alerts alerts location 0.02 in
  let r := RecommendationEngine.generate_responder_recommendations alerts location in
  ((∃ item, item ∈ RecommendationEngine.recommendations_of r
            ∧ rec_type item = "immediate_action") ↔ some_high_severity nearby)
  ∧ (RecommendationEngine.priority r = "HIGH" ↔ some_high_severity nearby).
Proof.
  cbn zeta. unfold RecommendationEngine.generate_responder_recommendations.
  rewrite <- high_severity_nonempty.
  destruct (high_severity_of _) as [|h hs] eqn:Hhigh; cbn.
  - split; (split; [|done]).
    + intros (item & Hin & Hty). exfalso.
      destruct (RecommendationEngine.get_nearby_alerts _ _ _); cbn in Hin;
        repeat (apply elem_of_cons in Hin as [->|Hin]; [discriminate|]);
        by apply elem_of_nil in Hin.
    + discriminate.
  - split; (split; [done|intros _]); [|done].
    destruct (RecommendationEngine.get_nearby_alerts _ _ _);
      eexists; (split; [constructor|reflexivity]).
Qed.

Lemma main_responder_immediate alerts location :
  let nearby := McpMain.get_nearby_alerts alerts location 0.01 in
  let r := McpMain.generate_responder_recommendations alerts location in
  ((∃ item, item ∈ McpMain.recommendations_of r
            ∧ rec_type item = "immediate_action") ↔ some_high_severity nearby)
  ∧ (McpMain.priority r = "HIGH" ↔ some_high_severity nearby).
Proof.
  cbn zeta. unfold McpMain.generate_responder_recommendations.
  assert (E : (if truthy location then McpMain.get_nearby_alerts alerts location 0.01
               else []) = McpMain.get_nearby_alerts alerts location 0.01).
  { unfold McpMain.get_nearby_alerts. by destruct (truthy location). }
  rewrite E, <- high_severity_nonempty.
  destruct (high_severity_of _) as [|h hs] eqn:Hhigh; cbn.
  - split; (split; [|done]).
    + intros (item & Hin & Hty). exfalso.
      repeat (apply elem_of_cons in Hin as [->|Hin]; [discriminate|]).
      by apply elem_of_nil in Hin.
    + discriminate.
  - split; (split; [done|intros _]); [|done].
    eexists. split; [constructor|reflexivity].
Qed.

(** C9 (as the code has it). The first-responder variant keeps the
    alerts within its radius of the requester location (none when no
    location is given) and emits an [immediate_action] item, with
    priority [HIGH], exactly when one of the alerts kept has severity 3
    or more.  The radius is 0.02 degrees in recommendation_engine.py and
    0.01 degrees (the default of [get_nearby_alerts]) in main.py. *)
Theorem responder_immediate_action (alerts : list alert)
    (location : option (gmap string Q)) :
  (let nearby := RecommendationEngine.get_nearby_alerts alerts location 0.02 in
   let r := RecommendationEngine.generate_responder_recommendations alerts location in
   (∀ a, a ∈ nearby ↔ a ∈ alerts ∧ ∃ d, location = Some d ∧ d ≠ ∅ ∧ close_to d 0.02 a)
   ∧ ((∃ item, item ∈ RecommendationEngine.recommendations_of r
               ∧ rec_type item = "immediate_action") ↔ some_high_severity nearby)
   ∧ (RecommendationEngine.priority r = "HIGH" ↔ some_high_severity nearby))
  ∧ (let nearby := McpMain.get_nearby_alerts alerts location 0.01 in
     let r := McpMain.generate_responder_recommendations alerts location in
     (∀ a, a ∈ nearby ↔ a ∈ alerts ∧ ∃ d, location = Some d ∧ d ≠ ∅ ∧ close_to d 0.01 a)
     ∧ ((∃ item, item ∈ McpMain.recommendations_of r
                 ∧ rec_type item = "immediate_action") ↔ some_high_severity nearby)
     ∧ (McpMain.priority r = "HIGH" ↔ some_high_severity nearby)).
Proof.
  split; cbn zeta.
  - split; [intros a; apply simplified_nearby_elem|].
    apply simplified_responder_immediate.
  - split; [intros a; apply main_nearby_elem|].
    apply main_responder_immediate.
Qed.

(** C9, as stated, fails on main.py: an alert of severity 3 at 0.015
    degrees from the requester is within 0.02 degrees, and the answer has
    priority [MEDIUM] and no [immediate_action] item. *)
Lemma main_responder_radius_is_smaller :
  flood_c ∈ [flood_c]
  ∧ close_to {[ "lat" := 14.625; "lon" := -90.525 ]} 0.02 flood_c
  ∧ (3 ≤ get_severity flood_c)%Z
  ∧ McpMain.priority
      (McpMain.generate_responder_recommendations [flood_c] responder_location)
    = "MEDIUM"
  ∧ rec_type <$> McpMain.recommendations_of
      (McpMain.generate_responder_recommendations [flood_c] responder_location)
    = ["preparedness"].
Proof.
  split; [constructor|]. split; [|split; [|split]].
  - unfold close_to. vm_compute. discriminate.
  - vm_compute. discriminate.
  - vm_compute. reflexivity.
  - vm_compute. reflexivity.
Qed.

(** *** Which variants always recommend something *)

Lemma simplified_responder_nonempty alerts location :
  RecommendationEngine.recommendations_of
    (RecommendationEngine.generate_responder_recommendations alerts location) ≠ [].
Proof. apply snoc_not_nil. Qed.

Lemma simplified_citizen_nonempty alerts shelters location :
  RecommendationEngine.recommendations_of
    (RecommendationEngine.generate_citizen_recommendations alerts shelters location) ≠ [].
Proof. apply fallback_not_nil. Qed.

Lemma main_responder_nonempty alerts location :
  McpMain.recommendations_of
    (McpMain.generate_responder_recommendations alerts location) ≠ [].
Proof. apply snoc_not_nil. Qed.

Lemma main_citizen_nonempty alerts shelters location :
  McpMain.recommendations_of
    (McpMain.generate_citizen_recommendations alerts shelters location) ≠ [].
Proof. apply fallback_not_nil. Qed.

Lemma simplified_recommend_nonempty now user_role location alerts_data external_alerts
    shelters_data :
  user_role ≠ "coordinator" → user_role ≠ "civil_protection" →
  ∃ r, RecommendationEngine.recommend now user_role location alerts_data
         external_alerts shelters_data = Ok r
       ∧ RecommendationEngine.recommendations_of r ≠ [].
Proof.
  intros Hco Hcp. unfold RecommendationEngine.recommend.
  repeat case_decide; try done; eexists; (split; [reflexivity|]).
  - apply simplified_responder_nonempty.
  - apply simplified_citizen_nonempty.
  - done.
Qed.

Lemma main_personalized_nonempty user_role location alerts_reply shelters_reply :
  user_role ≠ "coordinator" →
  McpMain.recommendations_of
    (McpMain.personalized_recommendations user_role location alerts_reply shelters_reply)
  ≠ [].
Proof.
  intros Hco. unfold McpMain.personalized_recommendations.
  destruct alerts_reply as [alerts_response|e]; [|done].
  destruct shelters_reply as [shelters_response|e]; [|done]. cbn.
  destruct (json_if_200 alerts_response []) as [alerts_data|e]; [|done]. cbn.
  destruct (json_if_200 shelters_response []) as [shelters_data|e]; [|done]. cbn.
  repeat case_decide; try done.
  - apply main_responder_nonempty.
  - apply main_citizen_nonempty.
Qed.

(** The coordinator variants have no standing item and no fallback. *)
Lemma simplified_coordinator_empty internal_alerts external_alerts :
  RecommendationEngine.recommendations_of
    (RecommendationEngine.generate_coordinator_recommendations internal_alerts
       external_alerts) = []
  ↔ high_severity_of internal_alerts = [] ∧ external_alerts = []
    ∧ (length (RecommendationEngine.analyze_location_clusters internal_alerts) ≤ 1)%nat.
Proof.
  unfold RecommendationEngine.generate_coordinator_recommendations. cbn.
  destruct (high_severity_of internal_alerts) as [|h hs]; cbn;
    destruct external_alerts as [|x xs]; cbn;
    case_decide; cbn; split; try done; try (intros (? & ? & ?); done || lia).
  intros _. repeat split. lia.
Qed.

Lemma main_coordinator_empty alerts :
  McpMain.recommendations_of (McpMain.generate_coordinator_recommendations alerts) = []
  ↔ high_severity_of alerts = [] ∧ McpMain.analyze_location_clusters alerts = [].
Proof.
  unfold McpMain.generate_coordinator_recommendations. cbn.
  destruct (high_severity_of alerts) as [|h hs]; cbn;
    destruct (McpMain.analyze_location_clusters alerts) as [|c cs]; cbn;
    split; try done; intros [? ?]; done.
Qed.

Lemma simplified_civil_protection_empty now alerts shelters r :
  RecommendationEngine.generate_civil_protection_recommendations now alerts shelters = Ok r →
  (RecommendationEngine.recommendations_of r = []
   ↔ Qltb (inject_Z (foldl Z.add 0%Z (get_capacity <$> shelters)) * 0.5)
          (Qnat (length (filter (λ a, (2 ≤ get_severity a)%Z) alerts))) = false
     ∧ ∃ t, RecommendationEngine.analyze_trends now alerts = Ok t
            ∧ RecommendationEngine.increasing t ≠ Some true).
Proof.
  unfold RecommendationEngine.generate_civil_protection_recommendations.
  destruct (RecommendationEngine.analyze_trends now alerts) as [t|e]; [|done]. cbn.
  intros [= <-]. cbn.
  destruct (Qltb _ _);
    destruct (RecommendationEngine.increasing t) as [[|]|] eqn:Hinc; cbn;
    split; try done; try (intros [? (? & [= <-] & ?)]; congruence);
    intros _; (split; [done|]); eexists; (split; [reflexivity|congruence]).
Qed.

(** C4 (as the code has it). The first-responder, citizen and general
    (or unrecognised) variants always return a recommendation list that
    is not empty: the responder has a standing item, the citizen falls
    back on the situation-normal item, the general variant is the
    monitoring item; in main.py the handler of exceptions also returns
    one item.  The coordinator and civil-protection variants return
    their condition-specific items only, and so the empty list when no
    condition applies. *)
Theorem recommendations_nonempty_where_guaranteed :
  (∀ now user_role location alerts_data external_alerts shelters_data,
     user_role ≠ "coordinator" → user_role ≠ "civil_protection" →
     ∃ r, RecommendationEngine.recommend now user_role location alerts_data
            external_alerts shelters_data = Ok r
          ∧ RecommendationEngine.recommendations_of r ≠ [])
  ∧ (∀ user_role location alerts_reply shelters_reply,
       user_role ≠ "coordinator" →
       McpMain.recommendations_of
         (McpMain.personalized_recommendations user_role location alerts_reply
            shelters_reply) ≠ [])
  ∧ (∀ internal_alerts external_alerts,
       RecommendationEngine.recommendations_of
         (RecommendationEngine.generate_coordinator_recommendations internal_alerts
            external_alerts) = []
       ↔ high_severity_of internal_alerts = [] ∧ external_alerts = []
         ∧ (length (RecommendationEngine.analyze_location_clusters internal_alerts)
            ≤ 1)%nat)
  ∧ (∀ alerts,
       McpMain.recommendations_of (McpMain.generate_coordinator_recommendations alerts)
       = []
       ↔ high_severity_of alerts = [] ∧ McpMain.analyze_location_clusters alerts = [])
  ∧ (∀ now alerts shelters r,
       RecommendationEngine.generate_civil_protection_recommendations now alerts shelters
       = Ok r →
       (RecommendationEngine.recommendations_of r = []
        ↔ Qltb (inject_Z (foldl Z.add 0%Z (get_capacity <$> shelters)) * 0.5)
               (Qnat (length (filter (λ a, (2 ≤ get_severity a)%Z) alerts))) = false
          ∧ ∃ t, RecommendationEngine.analyze_trends now alerts = Ok t
                 ∧ RecommendationEngine.increasing t ≠ Some true)).
Proof.
  split; [|split; [|split; [|split]]].
  - apply simplified_recommend_nonempty.
  - apply main_personalized_nonempty.
  - apply simplified_coordinator_empty.
  - apply main_coordinator_empty.
  - apply simplified_civil_protection_empty.
Qed.

Lemma recommendations_nonempty_where_guaranteed_witness :
  (∃ r, RecommendationEngine.recommend 0 "citizen" None [flood_a] [] [] = Ok r
        ∧ RecommendationEngine.recommendations_of r ≠ [])
  ∧ McpMain.recommendations_of
      (McpMain.personalized_recommendations "first_responder" responder_location
         (Raise ConnectionError) (Raise ConnectionError)) ≠ [].
Proof.
  destruct recommendations_nonempty_where_guaranteed as (Hsimplified & Hmain & _).
  split.
  - apply (Hsimplified 0%Z "citizen" None [flood_a] [] []); discriminate.
  - apply (Hmain "first_responder" responder_location); discriminate.
Defined.

(** C4, as stated, fails for the coordinator and for civil protection:
    with nothing to report both return an empty recommendation list. *)
Lemma coordinator_recommends_nothing :
  RecommendationEngine.recommend 0 "coordinator" None [] [] []
  = Ok {| RecommendationEngine.recommendations_of := [];
          RecommendationEngine.priority := "MEDIUM";
          RecommendationEngine.validity_period := "2h" |}
  ∧ RecommendationEngine.recommend 0 "civil_protection" None [] [] []
    = Ok {| RecommendationEngine.recommendations_of := [];
            RecommendationEngine.priority := "MEDIUM";
            RecommendationEngine.validity_period := "4h" |}
  ∧ McpMain.personalized_recommendations "coordinator" None
      (Ok (Response 200 (Ok []))) (Ok (Response 200 (Ok [])))
    = {| McpMain.recommendations_of := [];
         McpMain.priority := "MEDIUM";
         McpMain.validity_period := Some "2h" |}.
Proof. repeat split; vm_compute; reflexivity. Qed.

(** ** Source adapters *)

Section AdapterFacts.
Variable fmt : Q → string.
Variable OPENWEATHER_API_KEY : string.

Lemma extend_if_contribution all_alerts xs :
  Backend.extend_if all_alerts xs = all_alerts ++ contribution xs.
Proof. unfold contribution. destruct xs as [[|x l]|]; cbn; by rewrite ?app_nil_r. Qed.

(** An adapter whose request fails ([session.get] raises, the status is
    an error, the body is not JSON) returns [None]. *)
Lemma open_meteo_failure lat lon reply e :
  Backend.get_json reply = Raise e →
  Backend.fetch_open_meteo_data fmt lat lon reply = None.
Proof. intros H. unfold Backend.fetch_open_meteo_data. by rewrite H. Qed.

Lemma weather_failure lat lon reply e :
  Backend.get_json reply = Raise e →
  Backend.fetch_weather_alerts fmt OPENWEATHER_API_KEY lat lon reply = None.
Proof.
  intros H. unfold Backend.fetch_weather_alerts. rewrite H. by case_bool_decide.
Qed.

Lemma gdacs_failure reply e :
  Backend.get_json reply = Raise e → Backend.fetch_gdacs_alerts reply = None.
Proof. intros H. unfold Backend.fetch_gdacs_alerts. by rewrite H. Qed.

Lemma nasa_failure lat lon reply e :
  Backend.get_json reply = Raise e →
  Backend.fetch_nasa_power_data fmt lat lon reply = None.
Proof. intros H. unfold Backend.fetch_nasa_power_data. by rewrite H. Qed.

(** Without credentials the OpenWeatherMap adapter returns [None]. *)
Lemma weather_no_credentials lat lon reply :
  Backend.fetch_weather_alerts fmt "" lat lon reply = None.
Proof. done. Qed.

(** A body without one of the fields that the adapter subscripts. *)
Lemma weather_malformed lat lon reply data e :
  Backend.get_json reply = Ok data →
  Backend.weather_alerts_of fmt lat lon data = Raise e →
  Backend.fetch_weather_alerts fmt OPENWEATHER_API_KEY lat lon reply = None.
Proof.
  intros H1 H2. unfold Backend.fetch_weather_alerts. case_bool_decide; [done|].
  rewrite H1. cbn. by rewrite H2.
Qed.

Lemma gdacs_malformed reply data e :
  Backend.get_json reply = Ok data →
  Backend.gdacs_alerts_of (default [] data) = Raise e →
  Backend.fetch_gdacs_alerts reply = None.
Proof.
  intros H1 H2. unfold Backend.fetch_gdacs_alerts. rewrite H1. cbn. by rewrite H2.
Qed.

(** The aggregate is the contributions of the four adapters, each
    computed from the reply of its own provider, put end to end. *)
Theorem check_all_sources_contributions (world : Backend.providers) :
  Backend.check_all_sources fmt OPENWEATHER_API_KEY world
  = contribution (Backend.fetch_open_meteo_data fmt 14.625 (-90.525)
                    (Backend.open_meteo world))
    ++ contribution (Backend.fetch_weather_alerts fmt OPENWEATHER_API_KEY 14.625 (-90.525)
                       (Backend.openweather world))
    ++ contribution (Backend.fetch_gdacs_alerts (Backend.gdacs world))
    ++ contribution (Backend.fetch_nasa_power_data fmt 14.625 (-90.525)
                       (Backend.nasa_power world)).
Proof.
  unfold Backend.check_all_sources. rewrite !extend_if_contribution.
  case_bool_decide as Hkey.
  - rewrite Hkey, weather_no_credentials. cbn. by rewrite <- !(assoc_L (++)).
  - by rewrite <- !(assoc_L (++)).
Qed.

(** Adapter isolation in [check_all_sources]: whatever one provider
    does, the alerts that the other adapters contribute are all there. *)
Corollary check_all_sources_isolated (world : Backend.providers) :
  contribution (Backend.fetch_gdacs_alerts (Backend.gdacs world))
    `sublist_of` Backend.check_all_sources fmt OPENWEATHER_API_KEY world
  ∧ contribution (Backend.fetch_nasa_power_data fmt 14.625 (-90.525)
                    (Backend.nasa_power world))
    `sublist_of` Backend.check_all_sources fmt OPENWEATHER_API_KEY world
  ∧ contribution (Backend.fetch_open_meteo_data fmt 14.625 (-90.525)
                    (Backend.open_meteo world))
    `sublist_of` Backend.check_all_sources fmt OPENWEATHER_API_KEY world
  ∧ contribution (Backend.fetch_weather_alerts fmt OPENWEATHER_API_KEY 14.625 (-90.525)
                    (Backend.openweather world))
    `sublist_of` Backend.check_all_sources fmt OPENWEATHER_API_KEY world.
Proof.
  rewrite check_all_sources_contributions. repeat split.
  - apply sublist_inserts_l, sublist_inserts_l, sublist_inserts_r. done.
  - apply sublist_inserts_l, sublist_inserts_l, sublist_inserts_l. done.
  - apply sublist_inserts_r. done.
  - apply sublist_inserts_l, sublist_inserts_r. done.
Qed.

End AdapterFacts.

(** A round with three failures out of four: only NASA POWER contributes. *)
Example bad_round_outcome (fmt : Q → string) :
  Backend.check_all_sources fmt "" bad_round
  = [ {| Backend.ext_title := "Tendencia de Temperaturas Altas";
         Backend.ext_description :=
           "Temperatura promedio alta detectada: " +:+ fmt (Qsum [31; 32; 33] / Qlen [31; 32; 33])
           +:+ "°C";
         Backend.ext_severity := 2; Backend.ext_lat := 14.625;
         Backend.ext_lon := -90.525; Backend.ext_source := "NASA_POWER" |} ].
Proof. reflexivity. Qed.

(** C7 on [fetch_google_alerts]: nothing is caught there.  When the
    request raises (no [GOOGLE_ALERTS_API] configured, provider out of
    reach) or the body is not JSON, the exception leaves the function;
    the table is left as it was. *)
Theorem google_fetcher_propagates_failures (now : Z) (db : list Backend.Alert) :
  Backend.fetch_google_alerts now (Raise MissingSchema) db = (Raise MissingSchema, db)
  ∧ Backend.fetch_google_alerts now (Raise ConnectionError) db
    = (Raise ConnectionError, db)
  ∧ Backend.fetch_google_alerts now (Ok (Response 200 (Raise JSONDecodeError))) db
    = (Raise JSONDecodeError, db).
Proof. done. Qed.

(** ** The clustering loop in any arithmetic *)

Section NumericLoop.
Context {num A : Type} `{!Numeric.Arithmetic num}.
Variable get_lat get_lon : A → num.

Lemma numeric_greedy_snoc {C} (near : A → C → bool) absorb fresh l a :
  Numeric.greedy near absorb fresh (l ++ [a])
  = Numeric.place near absorb fresh (Numeric.greedy near absorb fresh l) a.
Proof. unfold Numeric.greedy. by rewrite foldl_app. Qed.


(** When no cluster passes the test, a new one is appended. *)
Lemma numeric_place_none {C} (near : A → C → bool) absorb fresh clusters a :
  Forall (λ c, near a c = false) clusters →
  Numeric.place near absorb fresh clusters a = clusters ++ [fresh a].
Proof.
  intros Hnone. unfold Numeric.place.
  assert (list_find (λ c, Is_true (near a c)) clusters = None) as ->; [|done].
  apply list_find_None. eapply Forall_impl; [exact Hnone|].
  intros c Hc Ht. rewrite Hc in Ht. exact Ht.
Qed.




(** Alerts that are apart from the earlier ones are each put in a
    cluster of their own. *)
Lemma apart_from_earlier_snoc l a :
  apart_from_earlier get_lat get_lon (l ++ [a]) →
  apart_from_earlier get_lat get_lon l
  ∧ Forall (λ b, Numeric.close_to (get_lat a) (get_lon a) (get_lat b, get_lon b) = false) l.
Proof.
  intros Hapart. split.
  - intros i j x y Hij Hx Hy. apply (Hapart i j x y Hij); by apply lookup_app_l_Some.
  - apply Forall_lookup. intros i b Hb.
    apply (Hapart i (length l) b a).
    + by eapply lookup_lt_Some.
    + by apply lookup_app_l_Some.
    + by rewrite lookup_app_r, Nat.sub_diag by lia.
Qed.

Lemma singletons_when_apart {C} (near : A → C → bool) absorb fresh l :
  (∀ a b, near a (fresh b)
          = Numeric.close_to (get_lat a) (get_lon a) (get_lat b, get_lon b)) →
  apart_from_earlier get_lat get_lon l →
  Numeric.greedy near absorb fresh l = fresh <$> l.
Proof.
  intros Hnear. induction l as [|a l IH] using rev_ind; intros Hapart; [done|].
  apply apart_from_earlier_snoc in Hapart as [Hl Ha].
  rewrite numeric_greedy_snoc, IH by done. rewrite fmap_app.
  apply numeric_place_none. apply Forall_fmap.
  eapply Forall_impl; [exact Ha|]. intros b Hb. cbn. by rewrite Hnear.
Qed.

End NumericLoop.

Lemma no_singleton_returned {A C} (size : C → nat) (fresh : A → C) (l : list A) :
  (∀ a, size (fresh a) = 1%nat) →
  filter (λ c, (1 < size c)%nat) (fresh <$> l) = [].
Proof.
  intros Hone. induction l as [|a l IH]; [done|].
  cbn [fmap list_fmap]. rewrite filter_cons_False; [done|]. rewrite Hone. lia.
Qed.




(** ** The functions on the sample data *)

Example clusters_of_three :
  McpMain.analyze_location_clusters [flood_a; flood_b; flood_c]
  = [ {| McpMain.center := (Qsum [14.625; 14.630] / Qlen [flood_a; flood_b],
                            Qsum [-90.525; -90.525] / Qlen [flood_a; flood_b]);
         McpMain.alerts := [flood_a; flood_b];
         McpMain.count := 2 |} ]
  ∧ length (McpMain.internal_clusters [flood_a; flood_b; flood_c]) = 2%nat.
Proof. split; reflexivity. Qed.

Example trend_of_three :
  McpMain.analyze_trends [flood_a; flood_b; flood_c]
  = {| McpMain.trend := "decreasing"; McpMain.increasing := false;
       McpMain.recent_counts := Some [2; 1]%nat |}
  ∧ McpMain.analyze_trends [flood_c; flood_c; flood_a]
    = {| McpMain.trend := "increasing"; McpMain.increasing := true;
         McpMain.recent_counts := Some [1; 2]%nat |}
  ∧ AdvancedMcp.analyze_trends [flood_a; flood_b; flood_c]
    = Ok {| AdvancedMcp.trend := "decreasing"; AdvancedMcp.increasing := false;
            AdvancedMcp.last_7_days := Some [2; 1]%nat |}.
Proof. repeat split; vm_compute; reflexivity. Qed.

Example risk_levels :
  McpMain.calculate_risk_level 3 2 = "MEDIUM"
  ∧ McpMain.calculate_risk_level 6 5 = "CRITICAL"
  ∧ McpMain.calculate_risk_level 5 0 = "MEDIUM"
  ∧ AdvancedMcp.calculate_risk_level {[ 3%Z := 2%nat; 4%Z := 3%nat; 1%Z := 7%nat ]} 2 = "ALTO"
  ∧ AdvancedMcp.calculate_risk_level ∅ 9 = "BAJO".
Proof. repeat split; vm_compute; reflexivity. Qed.

Example nearby_alerts_of_responder :
  McpMain.get_nearby_alerts [flood_a; flood_b; flood_c] responder_location 0.01
  = [flood_a; flood_b]
  ∧ RecommendationEngine.get_nearby_alerts [flood_a; flood_b; flood_c]
      responder_location 0.02 = [flood_a; flood_b; flood_c]
  ∧ RecommendationEngine.get_nearby_alerts [flood_a; flood_b; flood_c] (Some ∅) 0.02 = []
  ∧ RecommendationEngine.priority
      (RecommendationEngine.generate_responder_recommendations [flood_b; flood_c]
         responder_location) = "HIGH"
  ∧ rec_type <$> RecommendationEngine.recommendations_of
      (RecommendationEngine.generate_responder_recommendations [flood_b; flood_c]
         responder_location) = ["immediate_action"; "assessment"; "safety"].
Proof. repeat split; vm_compute; reflexivity. Qed.

Example google_batch_ingested :
  Backend.title <$> (Backend.fetch_google_alerts 0 google_batch []).2 = ["Sismo"]
  ∧ (Backend.fetch_google_alerts 0 google_batch []).1 = Ok ()
  ∧ Backend.fetch_google_alerts 0
      (Ok (Response 200 (Ok (Some [ {| Backend.c_title := None;
                                       Backend.c_description := None;
                                       Backend.c_severity := None;
                                       Backend.c_coordinates := None |} ])))) []
    = (Raise IntegrityError, []).
Proof. repeat split; vm_compute; reflexivity. Qed.

Example create_alert_checks :
  (Backend.create_alert 0 posted_report []).1
  = Backend.Returned {| Backend.id := 1; Backend.title := "Inundacion zona 1";
                        Backend.description := Some "Rio desbordado";
                        Backend.lat := 14.625; Backend.lon := -90.525;
                        Backend.severity := 3; Backend.kind := "general";
                        Backend.created_at := 0 |}
  ∧ Backend.create_alert 0
      {| Backend.ac_title := "Sin coordenadas"; Backend.ac_description := None;
         Backend.ac_lat := 0; Backend.ac_lon := -90.5;
         Backend.ac_severity := Some 1%Z; Backend.ac_alert_type := Some "general" |} []
    = (Backend.HTTPException 400, []).
Proof. repeat split; vm_compute; reflexivity. Qed.

Example storm_with_heat (fmt : Q → string) :
  Backend.ext_title <$> contribution
    (Backend.fetch_weather_alerts fmt "key" 14.625 (-90.525)
       (Ok (Response 200 (Ok {| Backend.weather_main := Some "Thunderstorm";
                                Backend.main_temp := Some 36;
                                Backend.wind_speed := Some 10;
                                Backend.main_humidity := Some 50 |}))))
  = ["Alerta Meteorológica: Thunderstorm"; "Alerta de Temperatura Extrema"]
  ∧ Backend.fetch_weather_alerts fmt "key" 14.625 (-90.525)
      (Ok (Response 200 (Ok {| Backend.weather_main := Some "Rain";
                               Backend.main_temp := Some 36;
                               Backend.wind_speed := None;
                               Backend.main_humidity := Some 50 |}))) = None
  ∧ Backend.fetch_weather_alerts fmt "key" 14.625 (-90.525)
      (Ok (Response 503 (Ok {| Backend.weather_main := Some "Rain";
                               Backend.main_temp := Some 36;
                               Backend.wind_speed := Some 1;
                               Backend.main_humidity := Some 50 |}))) = None.
Proof. repeat split; vm_compute; reflexivity. Qed.

(** A report without severity, description and type is stored with the
    column defaults; a severity that does not fit in 64 bits is answered
    500 and nothing is stored. *)
Example create_alert_defaults :
  Backend.create_alert 0
    {| Backend.ac_title := "Deslave"; Backend.ac_description := None;
       Backend.ac_lat := 14.6; Backend.ac_lon := -90.5;
       Backend.ac_severity := None; Backend.ac_alert_type := None |} []
  = (Backend.Returned
       {| Backend.id := 1; Backend.title := "Deslave"; Backend.description := Some "";
          Backend.lat := 14.6; Backend.lon := -90.5; Backend.severity := 1;
          Backend.kind := "general"; Backend.created_at := 0 |},
     [ {| Backend.id := 1; Backend.title := "Deslave"; Backend.description := Some "";
          Backend.lat := 14.6; Backend.lon := -90.5; Backend.severity := 1;
          Backend.kind := "general"; Backend.created_at := 0 |} ])
  ∧ Backend.create_alert 0
      {| Backend.ac_title := "Deslave"; Backend.ac_description := None;
         Backend.ac_lat := 14.6; Backend.ac_lon := -90.5;
         Backend.ac_severity := Some (2 ^ 70)%Z; Backend.ac_alert_type := None |} []
    = (Backend.HTTPException 500, []).
Proof. split; vm_compute; reflexivity. Qed.

(** * Further properties *)

(** ** Clustering *)

Section TwoCopies.
Context {C1 C2 V : Type}.
Variable near1 : alert → C1 → bool.
Variable absorb1 : alert → C1 → C1.
Variable fresh1 : alert → C1.
Variable near2 : alert → C2 → bool.
Variable absorb2 : alert → C2 → C2.
Variable fresh2 : alert → C2.
Variable view1 : C1 → V.
Variable view2 : C2 → V.
Hypothesis near_view : ∀ a c1 c2, view1 c1 = view2 c2 → near1 a c1 = near2 a c2.
Hypothesis absorb_view : ∀ a c1 c2,
  view1 c1 = view2 c2 → view1 (absorb1 a c1) = view2 (absorb2 a c2).
Hypothesis fresh_view : ∀ a, view1 (fresh1 a) = view2 (fresh2 a).

Lemma assign_same_view a (cs1 : list C1) (cs2 : list C2) :
  view1 <$> cs1 = view2 <$> cs2 →
  view1 <$> assign near1 absorb1 fresh1 a cs1
  = view2 <$> assign near2 absorb2 fresh2 a cs2.
Proof.
  revert cs2. induction cs1 as [|c1 cs1 IH]; intros [|c2 cs2] H; try done; cbn.
  - by rewrite fresh_view.
  - cbn in H. injection H as Hc Hcs. rewrite (near_view a c1 c2 Hc).
    destruct (near2 a c2); cbn.
    + by rewrite (absorb_view a c1 c2 Hc), Hcs.
    + by rewrite Hc, (IH cs2 Hcs).
Qed.

Lemma greedy_same_view l :
  view1 <$> greedy near1 absorb1 fresh1 l = view2 <$> greedy near2 absorb2 fresh2 l.
Proof.
  induction l as [|a l IH] using rev_ind; [done|].
  rewrite !greedy_snoc. by apply assign_same_view.
Qed.

Lemma filter_same_view (P1 : C1 → Prop) (P2 : C2 → Prop)
    `{!∀ c, Decision (P1 c)} `{!∀ c, Decision (P2 c)}
    (cs1 : list C1) (cs2 : list C2) :
  (∀ c1 c2, view1 c1 = view2 c2 → P1 c1 ↔ P2 c2) →
  view1 <$> cs1 = view2 <$> cs2 →
  view1 <$> filter P1 cs1 = view2 <$> filter P2 cs2.
Proof.
  intros HP. revert cs2. induction cs1 as [|c1 cs1 IH]; intros [|c2 cs2] Heq; try done.
  cbn in Heq. injection Heq as Hc Hcs. rewrite !filter_cons.
  destruct (decide (P1 c1)) as [H1|H1].
  - rewrite decide_True by (by apply (HP c1 c2 Hc)). cbn. by rewrite Hc, (IH cs2 Hcs).
  - rewrite decide_False by (by rewrite <- (HP c1 c2 Hc)). by apply IH.
Qed.
End TwoCopies.

(** The exact modules are the loop of [Numeric] read in exact
    arithmetic: the same centres, the same members and the same
    counts. *)
Lemma exact_reading_of_the_loop (alerts_data : list alert) :
  (λ c, (McpMain.center c, McpMain.alerts c, McpMain.count c))
    <$> McpMain.analyze_location_clusters alerts_data
  = (λ c, (Numeric.center c, Numeric.alerts c, Numeric.count c))
      <$> Numeric.main_analyze_location_clusters get_lat get_lon alerts_data.
Proof.
  unfold McpMain.analyze_location_clusters, Numeric.main_analyze_location_clusters.
  apply filter_same_view.
  - by intros [c1 m1 n1] [c2 m2 n2] [= -> -> ->].
  - unfold McpMain.internal_clusters, Numeric.main_internal_clusters.
    change (Numeric.greedy ?n ?a ?f alerts_data) with (greedy n a f alerts_data).
    apply greedy_same_view.
    + intros a [c1 m1 n1] [c2 m2 n2] [= -> -> ->]. by destruct c2.
    + intros a [c1 m1 n1] [c2 m2 n2] [= -> -> ->]. reflexivity.
    + intros a. reflexivity.
Qed.

(** X1. The copies of main.py, advanced_mcp.py and decision_support.py
    return the same clusters: the same centres and the same members, in
    the same order. *)
Theorem clustering_copies_agree (alerts_data : list alert) :
  main_view <$> McpMain.analyze_location_clusters alerts_data
  = advanced_view <$> AdvancedMcp.analyze_location_clusters alerts_data
  ∧ advanced_view <$> AdvancedMcp.analyze_location_clusters alerts_data
    = decision_view <$> DecisionSupport.analyze_location_clusters alerts_data.
Proof.
  rewrite main_analyze_filter, advanced_analyze_filter. split.
  - apply filter_same_view.
    + intros c1 c2 [= _ Hm]. by rewrite Hm.
    + apply greedy_same_view.
      * intros a c1 c2 [= Hc _]. unfold McpMain.near, AdvancedMcp.near. by rewrite Hc.
      * intros a c1 c2 [= _ Hm]. unfold main_view, advanced_view. cbn. by rewrite Hm.
      * done.
  - apply filter_same_view.
    + intros c1 c2 [= _ Hm]. by rewrite Hm.
    + apply greedy_same_view.
      * intros a c1 c2 [= Hc _]. unfold AdvancedMcp.near, DecisionSupport.near.
        by rewrite Hc.
      * intros a c1 c2 [= _ Hm]. unfold advanced_view, decision_view. cbn. by rewrite Hm.
      * done.
Qed.

(** X2. The key ['count']: main.py keeps it equal to the number of members;
    advanced_mcp.py and decision_support.py set it to 1 when the cluster
    is created and never touch it again, so that every cluster they
    return, with its two members or more, still says 1. *)
Theorem cluster_count_field (alerts_data : list alert) :
  Forall (λ c, McpMain.count c = length (McpMain.alerts c)
               ∧ (2 ≤ McpMain.count c)%nat)
    (McpMain.analyze_location_clusters alerts_data)
  ∧ Forall (λ c, AdvancedMcp.count c = 1%nat
                 ∧ (2 ≤ length (AdvancedMcp.alerts c))%nat)
      (AdvancedMcp.analyze_location_clusters alerts_data)
  ∧ Forall (λ c, DecisionSupport.count c = 1%nat
                 ∧ (2 ≤ length (DecisionSupport.alerts c))%nat)
      (DecisionSupport.analyze_location_clusters alerts_data).
Proof.
  split; [|split]; apply Forall_forall; intros c.
  - intros [Hc Hin]%list_elem_of_filter.
    pose proof (proj1 (Forall_forall _ _) (main_count_length alerts_data) c Hin) as E.
    cbn beta in E. lia.
  - rewrite advanced_analyze_filter. intros [Hc Hin]%list_elem_of_filter.
    split; [|lia]. clear Hc. revert c Hin. apply Forall_forall, greedy_Forall; done.
  - intros [Hc Hin]%list_elem_of_filter.
    split; [|lia]. clear Hc. revert c Hin. apply Forall_forall, greedy_Forall; done.
Qed.

Lemma sum_list_sublist (l k : list nat) : l `sublist_of` k → (sum_list l ≤ sum_list k)%nat.
Proof. induction 1; cbn; lia. Qed.

Lemma sum_list_at_least (n : nat) (l : list nat) :
  Forall (λ x, (n ≤ x)%nat) l → (length l * n ≤ sum_list l)%nat.
Proof. induction 1; cbn; lia. Qed.

Lemma reported_at_most_half {C} (members : C → list alert) returned internal input :
  splits members internal input → reports members returned internal input →
  (2 * length returned ≤ length input)%nat.
Proof.
  intros (_ & _ & Hsum & _) (Hsub & Hall & _). rewrite <- Hsum.
  transitivity (sum_list (length ∘ members <$> returned)).
  - pose proof (sum_list_at_least 2 (length ∘ members <$> returned)) as H.
    rewrite length_fmap in H. rewrite (Nat.mul_comm 2). apply H.
    apply Forall_fmap. eapply Forall_impl; [exact Hall|]. by intros c [? _].
  - apply sum_list_sublist. by apply fmap_sublist.
Qed.

(** X3. A cluster is reported only with two members or more, and no alert
    is in two clusters: there are at most half as many clusters as
    alerts. *)
Theorem clusters_at_most_half (alerts_data : list alert) :
  (2 * length (McpMain.analyze_location_clusters alerts_data) ≤ length alerts_data)%nat
  ∧ (2 * length (AdvancedMcp.analyze_location_clusters alerts_data)
     ≤ length alerts_data)%nat
  ∧ (2 * length (DecisionSupport.analyze_location_clusters alerts_data)
     ≤ length alerts_data)%nat
  ∧ (2 * length (RecommendationEngine.analyze_location_clusters alerts_data)
     ≤ length alerts_data)%nat.
Proof.
  repeat split.
  - rewrite main_analyze_filter.
    assert (Hs : splits McpMain.alerts (McpMain.internal_clusters alerts_data)
                   alerts_data) by (by apply greedy_splits).
    apply (reported_at_most_half McpMain.alerts _ _ _ Hs).
    apply filter_reports; [done|]. intros c Hc. lia.
  - rewrite advanced_analyze_filter.
    assert (Hs : splits AdvancedMcp.alerts (AdvancedMcp.internal_clusters alerts_data)
                   alerts_data) by (by apply greedy_splits).
    apply (reported_at_most_half AdvancedMcp.alerts _ _ _ Hs).
    apply filter_reports; [done|]. intros c Hc. lia.
  - assert (Hs : splits DecisionSupport.alerts
                   (DecisionSupport.internal_clusters alerts_data) alerts_data)
      by (by apply greedy_splits).
    apply (reported_at_most_half DecisionSupport.alerts _ _ _ Hs).
    apply filter_reports; [done|]. intros c Hc. lia.
  - assert (Hs : splits RecommendationEngine.alerts
                   (RecommendationEngine.internal_clusters alerts_data) alerts_data)
      by (by apply greedy_splits).
    apply (reported_at_most_half RecommendationEngine.alerts _ _ _ Hs).
    apply filter_reports; [done|]. intros c Hc. lia.
Qed.

(** X4. Whatever the arithmetic computes, and so in binary64: when no
    alert passes the test of the loop (distance below 0.01) against the
    place of an alert that comes before it in the list, every alert is
    put in a cluster of its own, centred at the alert, and the four
    copies return no cluster. *)
Theorem far_apart_no_cluster {num A : Type} `{!Numeric.Arithmetic num}
    (get_lat get_lon : A → num) (alerts_data : list A) :
  apart_from_earlier get_lat get_lon alerts_data →
  (Numeric.main_internal_clusters get_lat get_lon alerts_data
   = Numeric.fresh get_lat get_lon <$> alerts_data
   ∧ Numeric.advanced_internal_clusters get_lat get_lon alerts_data
     = Numeric.fresh get_lat get_lon <$> alerts_data
   ∧ Numeric.simple_internal_clusters get_lat get_lon alerts_data
     = Numeric.simple_fresh get_lat get_lon <$> alerts_data)
  ∧ Numeric.main_analyze_location_clusters get_lat get_lon alerts_data = []
  ∧ Numeric.advanced_analyze_location_clusters get_lat get_lon alerts_data = []
  ∧ Numeric.decision_analyze_location_clusters get_lat get_lon alerts_data = []
  ∧ Numeric.simple_analyze_location_clusters get_lat get_lon alerts_data = [].
Proof.
  intros Hapart.
  assert (Numeric.main_internal_clusters get_lat get_lon alerts_data
          = Numeric.fresh get_lat get_lon <$> alerts_data) as Hmain
    by by apply (singletons_when_apart get_lat get_lon).
  assert (Numeric.advanced_internal_clusters get_lat get_lon alerts_data
          = Numeric.fresh get_lat get_lon <$> alerts_data) as Hadvanced
    by by apply (singletons_when_apart get_lat get_lon).
  assert (Numeric.simple_internal_clusters get_lat get_lon alerts_data
          = Numeric.simple_fresh get_lat get_lon <$> alerts_data) as Hsimple
    by by apply (singletons_when_apart get_lat get_lon).
  split; [done|].
  unfold Numeric.main_analyze_location_clusters,
    Numeric.advanced_analyze_location_clusters,
    Numeric.decision_analyze_location_clusters,
    Numeric.simple_analyze_location_clusters.
  rewrite Hmain, Hadvanced, Hsimple. repeat split.
  - by apply (no_singleton_returned Numeric.count).
  - destruct alerts_data; [done|].
    by apply (no_singleton_returned (λ c, length (Numeric.alerts c))).
  - by apply (no_singleton_returned (λ c, length (Numeric.alerts c))).
  - by apply (no_singleton_returned (λ c, length (Numeric.simple_alerts c))).
Qed.

(** Two binary64 alerts about 0.1 degrees apart. *)
Lemma far_apart_no_cluster_witness :
  Binary64.main_analyze_location_clusters [Plaza.plaza 1; Plaza.far_away] = [].
Proof.
  apply (far_apart_no_cluster Binary64.get_lat Binary64.get_lon
           [Plaza.plaza 1; Plaza.far_away]).
  intros [|[|i]] [|[|j]] a b Hij Ha Hb; cbn in Ha, Hb; simplify_eq; try lia.
  vm_compute. reflexivity.
Defined.

(** X5. The clusters depend on the order of the snapshot: the same three
    alerts, 0.009 degrees from one to the next, are grouped differently
    when they come in another order. *)
Theorem clustering_depends_on_order :
  ¬ (∀ l1 l2, l1 ≡ₚ l2 →
       McpMain.alerts <$> McpMain.analyze_location_clusters l1
       ≡ₚ McpMain.alerts <$> McpMain.analyze_location_clusters l2).
Proof.
  intros H. specialize (H [south; middle; north] [middle; north; south]).
  assert (E1 : McpMain.alerts <$> McpMain.analyze_location_clusters [south; middle; north]
               = [[south; middle]]) by (vm_compute; reflexivity).
  assert (E2 : McpMain.alerts <$> McpMain.analyze_location_clusters [middle; north; south]
               = [[middle; north]]) by (vm_compute; reflexivity).
  rewrite E1, E2 in H.
  assert (Hp : [south; middle; north] ≡ₚ [middle; north; south]).
  { change ([south] ++ [middle; north] ≡ₚ [middle; north] ++ [south]).
    apply Permutation_app_comm. }
  apply H, Permutation_singleton_l in Hp. discriminate.
Qed.

(** ** Counting in dicts *)

Section Tally.
Context `{Countable K}.
Implicit Types m : gmap K nat.

Lemma sum_list_perm (l k : list nat) : l ≡ₚ k → sum_list l = sum_list k.
Proof. induction 1; cbn; lia. Qed.

Lemma tally_total_empty : tally_total (∅ : gmap K nat) = 0%nat.
Proof. unfold tally_total. by rewrite map_to_list_empty. Qed.

Lemma tally_total_insert_fresh m k v :
  m !! k = None → tally_total (<[k := v]> m) = (v + tally_total m)%nat.
Proof.
  intros Hk. unfold tally_total.
  by rewrite (sum_list_perm _ _ (fmap_Permutation snd _ _ (map_to_list_insert m k v Hk))).
Qed.

Lemma tally_total_lookup m k v :
  m !! k = Some v → tally_total m = (v + tally_total (delete k m))%nat.
Proof.
  intros Hk. unfold tally_total.
  by rewrite <- (sum_list_perm _ _ (fmap_Permutation snd _ _ (map_to_list_delete m k v Hk))).
Qed.

(** One more count makes the total one larger. *)
Lemma tally_total_bump m k : tally_total (bump m k) = S (tally_total m).
Proof.
  unfold bump. destruct (m !! k) as [v|] eqn:Hk; cbn.
  - rewrite <- insert_delete_eq, tally_total_insert_fresh by apply lookup_delete_eq.
    rewrite (tally_total_lookup m k v Hk). lia.
  - rewrite tally_total_insert_fresh by done. lia.
Qed.

Lemma bump_comm m k1 k2 : bump (bump m k1) k2 = bump (bump m k2) k1.
Proof.
  unfold bump. destruct (decide (k1 = k2)) as [->|Hne]; [done|].
  rewrite !lookup_insert_ne by done. by apply insert_insert_ne.
Qed.

Lemma bump_positive m k :
  map_Forall (λ _ v, (1 ≤ v)%nat) m → map_Forall (λ _ v, (1 ≤ v)%nat) (bump m k).
Proof. intros Hm. apply map_Forall_insert_2; [lia|done]. Qed.

Lemma bump_lookup_le m k j :
  (default 0 (m !! j) ≤ default 0 (bump m k !! j))%nat.
Proof.
  unfold bump. destruct (decide (k = j)) as [->|Hne].
  - rewrite lookup_insert_eq. cbn. lia.
  - by rewrite lookup_insert_ne.
Qed.

(** Reading the counts of all the keys gives all the values. *)
Lemma lookups_of_keys m :
  (λ k, m !!! k) <$> (map_to_list m).*1 = (map_to_list m).*2.
Proof.
  rewrite <- list_fmap_compose. apply Forall_fmap_ext_1, Forall_forall.
  intros [k v] Hkv%elem_of_map_to_list. cbn.
  by rewrite lookup_total_alt, Hkv.
Qed.
End Tally.

(** ** More on trends *)

Lemma main_count_day_bump daily_count a :
  McpMain.count_day daily_count a
  = match alert_created_at a with
    | Some stamp => bump daily_count (dt_date stamp)
    | None => daily_count
    end.
Proof. done. Qed.

Lemma main_count_day_comm daily_count a b :
  McpMain.count_day (McpMain.count_day daily_count a) b
  = McpMain.count_day (McpMain.count_day daily_count b) a.
Proof.
  rewrite !main_count_day_bump.
  destruct (alert_created_at a), (alert_created_at b); try done. apply bump_comm.
Qed.

Lemma main_daily_count_perm l1 l2 :
  l1 ≡ₚ l2 → ∀ daily_count,
  foldl McpMain.count_day daily_count l1 = foldl McpMain.count_day daily_count l2.
Proof.
  induction 1 as [|a l1 l2 _ IH|a b l|l1 l2 l3 _ IH1 _ IH2]; intros daily_count; cbn.
  - done.
  - apply IH.
  - by rewrite main_count_day_comm.
  - by rewrite IH1, IH2.
Qed.

Lemma main_daily_count_total alerts_data daily_count :
  tally_total (foldl McpMain.count_day daily_count alerts_data)
  = (tally_total daily_count + length (parsed alerts_data))%nat.
Proof.
  revert daily_count. induction alerts_data as [|a rest IH]; intros daily_count.
  - unfold parsed. cbn. lia.
  - cbn [foldl]. rewrite IH, main_count_day_bump. unfold parsed. rewrite filter_cons.
    destruct (alert_created_at a) as [stamp|] eqn:Ha.
    + rewrite decide_True by (by eexists). rewrite tally_total_bump. cbn. lia.
    + rewrite decide_False by (by intros [? ?]). done.
Qed.

Lemma main_daily_count_positive alerts_data daily_count :
  map_Forall (λ _ v, (1 ≤ v)%nat) daily_count →
  map_Forall (λ _ v, (1 ≤ v)%nat) (foldl McpMain.count_day daily_count alerts_data).
Proof.
  revert daily_count. induction alerts_data as [|a rest IH]; intros daily_count Hm; [done|].
  cbn. apply IH. rewrite main_count_day_bump.
  destruct (alert_created_at a); [by apply bump_positive|done].
Qed.

(** The loop of advanced_mcp.py counts like the one of main.py, and
    raises as soon as one stamp does not parse ([ValueError] stands for
    the exception of that stamp). *)
Lemma advanced_count_days_fold alerts_data daily_count :
  AdvancedMcp.count_days daily_count alerts_data
  = if decide (Forall (λ a, is_Some (alert_created_at a)) alerts_data)
    then Ok (foldl McpMain.count_day daily_count alerts_data)
    else Raise ValueError.
Proof.
  revert daily_count. induction alerts_data as [|a rest IH]; intros daily_count; cbn.
  - by rewrite decide_True by constructor.
  - rewrite main_count_day_bump. destruct (alert_created_at a) as [stamp|] eqn:Ha.
    + rewrite IH. destruct (decide (Forall _ rest)) as [Hr|Hr].
      * rewrite decide_True; [done|]. constructor; [by rewrite Ha|done].
      * rewrite decide_False; [done|]. by intros [_ ?]%Forall_cons.
    + rewrite decide_False; [done|]. intros [[? Hs] _]%Forall_cons. congruence.
Qed.

(** The counts read for the dates selected. *)
Lemma selected_counts (n : nat) (daily_count : gmap Z nat) :
  map_Forall (λ _ v, (1 ≤ v)%nat) daily_count →
  let recent_dates := last_n n (merge_sort Z.le (map_to_list daily_count).*1) in
  let recent_counts := (λ date, daily_count !!! date) <$> recent_dates in
  length recent_counts = (size daily_count `min` n)%nat
  ∧ Forall (λ c, (1 ≤ c)%nat) recent_counts
  ∧ (sum_list recent_counts ≤ tally_total daily_count)%nat.
Proof.
  intros Hpos. cbn zeta. split; [|split].
  - by rewrite length_fmap, length_last_n, merge_sort_Permutation, length_fmap,
      length_map_to_list.
  - apply Forall_fmap, Forall_forall. intros date Hd. cbn.
    apply (elem_of_sublist _ (merge_sort Z.le (map_to_list daily_count).*1)) in Hd;
      [|apply sublist_drop].
    rewrite merge_sort_Permutation in Hd.
    apply list_elem_of_fmap in Hd as ([k v] & -> & Hkv). cbn.
    apply elem_of_map_to_list in Hkv. rewrite lookup_total_alt, Hkv. cbn.
    by apply (Hpos k v).
  - unfold tally_total. rewrite <- lookups_of_keys.
    rewrite <- (sum_list_perm _ _
      (fmap_Permutation (λ date, daily_count !!! date) _ _
         (merge_sort_Permutation Z.le (map_to_list daily_count).*1))).
    apply sum_list_sublist, fmap_sublist, sublist_drop.
Qed.

Lemma last_n_all {A} (n : nat) (l : list A) : (length l ≤ n)%nat → last_n n l = l.
Proof. intros Hl. unfold last_n. by replace (length l - n)%nat with 0%nat by lia. Qed.

(** X6. The trend does not depend on the order of the snapshot (unlike the
    clusters): the dates are counted in a dict and then sorted.  The copy
    of main.py gives the same answer on a reordered snapshot; the copy of
    advanced_mcp.py gives the same answer when it returns, and it raises
    on the one exactly when it raises on the other (the exception is
    that of the first stamp that does not parse, and may differ). *)
Theorem trends_ignore_order (l1 l2 : list alert) :
  l1 ≡ₚ l2 →
  McpMain.analyze_trends l1 = McpMain.analyze_trends l2
  ∧ match AdvancedMcp.analyze_trends l1, AdvancedMcp.analyze_trends l2 with
    | Ok t1, Ok t2 => t1 = t2
    | Raise _, Raise _ => True
    | _, _ => False
    end.
Proof.
  intros Hp. split.
  - unfold McpMain.analyze_trends.
    rewrite (main_daily_count_perm l1 l2 Hp ∅).
    destruct l1 as [|a1 l1], l2 as [|a2 l2]; try done.
    + by apply Permutation_nil_cons in Hp.
    + symmetry in Hp. by apply Permutation_nil_cons in Hp.
  - unfold AdvancedMcp.analyze_trends.
    rewrite !advanced_count_days_fold, (main_daily_count_perm l1 l2 Hp ∅).
    assert (Hall : Forall (λ a, is_Some (alert_created_at a)) l1
                   ↔ Forall (λ a, is_Some (alert_created_at a)) l2)
      by (by rewrite Hp).
    destruct l1 as [|a1 l1], l2 as [|a2 l2]; try done.
    + by apply Permutation_nil_cons in Hp.
    + symmetry in Hp. by apply Permutation_nil_cons in Hp.
    + destruct (decide (Forall _ (a1 :: l1))) as [H1|H1].
      * rewrite decide_True by (by apply Hall). cbn [mbind result_bind].
        by case_decide.
      * by rewrite decide_False by (by rewrite <- Hall).
Qed.

Lemma trends_ignore_order_witness :
  McpMain.analyze_trends [flood_a; flood_b; flood_c]
  = McpMain.analyze_trends [flood_c; flood_a; flood_b]
  ∧ match AdvancedMcp.analyze_trends [flood_a; flood_b; flood_c],
          AdvancedMcp.analyze_trends [flood_c; flood_a; flood_b] with
    | Ok t1, Ok t2 => t1 = t2
    | Raise _, Raise _ => True
    | _, _ => False
    end.
Proof.
  apply (trends_ignore_order [flood_a; flood_b; flood_c] [flood_c; flood_a; flood_b]).
  change ([flood_a; flood_b] ++ [flood_c] ≡ₚ [flood_c] ++ [flood_a; flood_b]).
  apply Permutation_app_comm.
Defined.

(** X7. When main.py reports counts, there are two or three of them (the
    last three active days), each at least 1, and together they count
    no more alerts than the snapshot has with a stamp that parses. *)
Theorem recent_counts_bounds (alerts_data : list alert) (counts : list nat) :
  McpMain.recent_counts (McpMain.analyze_trends alerts_data) = Some counts →
  (2 ≤ length counts ≤ 3)%nat
  ∧ Forall (λ c, (1 ≤ c)%nat) counts
  ∧ (sum_list counts ≤ length (parsed alerts_data))%nat
  ∧ (McpMain.trend (McpMain.analyze_trends alerts_data) = "increasing"
     ∨ McpMain.trend (McpMain.analyze_trends alerts_data) = "decreasing").
Proof.
  unfold McpMain.analyze_trends. destruct alerts_data as [|a rest]; [done|].
  set (daily_count := foldl McpMain.count_day ∅ (a :: rest)).
  assert (Hpos : map_Forall (λ _ v, (1 ≤ v)%nat) daily_count)
    by (apply main_daily_count_positive, map_Forall_empty).
  destruct (selected_counts 3 daily_count Hpos) as (Hlen & Hall & Hsum).
  case_decide as Hshort; [done|].
  cbn [McpMain.recent_counts McpMain.trend]. intros [= <-].
  rewrite length_fmap in Hlen |- *. split; [lia|]. split; [done|]. split.
  - etransitivity; [exact Hsum|]. unfold daily_count.
    rewrite main_daily_count_total, tally_total_empty. done.
  - case_decide; auto.
Qed.

Lemma recent_counts_bounds_witness :
  (2 ≤ length [2; 1]%nat ≤ 3)%nat
  ∧ Forall (λ c, (1 ≤ c)%nat) [2; 1]%nat
  ∧ (sum_list [2; 1]%nat ≤ length (parsed [flood_a; flood_b; flood_c]))%nat
  ∧ (McpMain.trend (McpMain.analyze_trends [flood_a; flood_b; flood_c]) = "increasing"
     ∨ McpMain.trend (McpMain.analyze_trends [flood_a; flood_b; flood_c]) = "decreasing").
Proof.
  apply (recent_counts_bounds [flood_a; flood_b; flood_c] [2; 1]%nat).
  vm_compute. reflexivity.
Defined.

(** X8. On a snapshot whose stamps all parse and that has at most three
    active days, advanced_mcp.py (window of seven days) and main.py
    (window of three) give the same trend and the same counts. *)
Theorem trend_copies_agree (alerts_data : list alert) :
  Forall (λ a, is_Some (alert_created_at a)) alerts_data →
  (size (active_days alerts_data) ≤ 3)%nat →
  AdvancedMcp.analyze_trends alerts_data
  = Ok {| AdvancedMcp.trend := McpMain.trend (McpMain.analyze_trends alerts_data);
          AdvancedMcp.increasing := McpMain.increasing (McpMain.analyze_trends alerts_data);
          AdvancedMcp.last_7_days :=
            McpMain.recent_counts (McpMain.analyze_trends alerts_data) |}.
Proof.
  intros Hparse Hdays. unfold AdvancedMcp.analyze_trends, McpMain.analyze_trends.
  rewrite advanced_count_days_fold, decide_True by done.
  destruct alerts_data as [|a rest]; [done|]. cbn [mbind result_bind].
  set (daily_count := foldl McpMain.count_day ∅ (a :: rest)).
  assert (Hkeys : (length (merge_sort Z.le (map_to_list daily_count).*1) ≤ 3)%nat).
  { rewrite merge_sort_Permutation, length_fmap, length_map_to_list, <- size_dom.
    unfold daily_count.
    by rewrite main_daily_count_dom, dom_empty_L, (left_id_L ∅ (∪)). }
  rewrite !last_n_all by lia. by case_decide.
Qed.

Lemma trend_copies_agree_witness :
  AdvancedMcp.analyze_trends [flood_a; flood_b; flood_c]
  = Ok {| AdvancedMcp.trend :=
            McpMain.trend (McpMain.analyze_trends [flood_a; flood_b; flood_c]);
          AdvancedMcp.increasing :=
            McpMain.increasing (McpMain.analyze_trends [flood_a; flood_b; flood_c]);
          AdvancedMcp.last_7_days :=
            McpMain.recent_counts (McpMain.analyze_trends [flood_a; flood_b; flood_c]) |}.
Proof.
  apply (trend_copies_agree [flood_a; flood_b; flood_c]).
  - repeat constructor; by eexists.
  - vm_compute. lia.
Defined.

(** ** More on the risk assessment *)

Lemma py_min_unit (x : Q) : 0 <= x → 0 <= py_min x 1.0 ∧ py_min x 1.0 <= 1.
Proof.
  intros Hx. unfold py_min. destruct (Qltb 1.0 x) eqn:E.
  - split; lra.
  - apply not_true_iff_false in E. rewrite Qltb_lt in E. apply Qnot_lt_le in E.
    split; lra.
Qed.

Lemma Qnat_nonneg (n : nat) : 0 <= Qnat n.
Proof. apply (Qnat_le 0 n). lia. Qed.

(** The fields of the assessment of main.py, by the number of factors. *)
Lemma main_assess_fields alerts_data :
  let high := high_severity_of alerts_data in
  let k := (nonempty high + nonempty (McpMain.analyze_location_clusters alerts_data)
            + (if McpMain.increasing (McpMain.analyze_trends alerts_data) then 1 else 0))%nat in
  let s := Qnat k * 0.5 + Qlen high * 0.3 in
  let r := McpMain.assess alerts_data in
  risk_level r = (if Qleb 2 s then "HIGH" else if Qleb 1 s then "MEDIUM" else "LOW")
  ∧ confidence r = py_min (s / 3.0) 1.0
  ∧ length (factors r) = k ∧ length (recommendations r) = k.
Proof.
  cbn zeta. unfold McpMain.assess.
  destruct (high_severity_of alerts_data),
           (McpMain.analyze_location_clusters alerts_data),
           (McpMain.increasing (McpMain.analyze_trends alerts_data));
    repeat split; reflexivity.
Qed.


Lemma score_facts (k : nat) {A} (high : list A) :
  let s := Qnat k * 0.5 + Qlen high * 0.3 in
  0 <= s / 3.0
  ∧ ((5 ≤ length high)%nat → (1 ≤ k)%nat → Qleb 2 s = true)
  ∧ (Qleb 1 s = false → (length high ≤ 3)%nat ∧ (k ≤ 1)%nat
                        ∧ ((1 ≤ k)%nat → (length high ≤ 1)%nat)).
Proof.
  cbn zeta. pose proof (Qnat_nonneg k) as Hk. pose proof (Qlen_nonneg high) as Hh.
  split; [|split].
  - apply Qle_shift_div_l; lra.
  - intros Hh5 Hk1. apply Qleb_le.
    assert (Qnat 5 <= Qlen high) by (by apply Qnat_le).
    assert (Qnat 1 <= Qnat k) by (by apply Qnat_le).
    change (Qnat 5) with 5 in *. change (Qnat 1) with 1 in *. lra.
  - intros E. apply not_true_iff_false in E. rewrite Qleb_le in E.
    apply Qnot_le_lt in E.
    assert (H3 : ¬ (4 ≤ length high)%nat).
    { intros H4. assert (Qnat 4 <= Qlen high) by (by apply Qnat_le).
      change (Qnat 4) with 4 in *. lra. }
    assert (H2 : ¬ (2 ≤ k)%nat).
    { intros H4. assert (Qnat 2 <= Qnat k) by (by apply Qnat_le).
      change (Qnat 2) with 2 in *. lra. }
    split; [lia|]. split; [lia|]. intros Hk1.
    destruct (decide (2 ≤ length high)%nat) as [Hh2|]; [|lia]. exfalso.
    assert (Qnat 2 <= Qlen high) by (by apply Qnat_le).
    assert (Qnat 1 <= Qnat k) by (by apply Qnat_le).
    change (Qnat 2) with 2 in *. change (Qnat 1) with 1 in *. lra.
Qed.

(** X9. The assessment of main.py is well formed whatever the snapshot: the
    confidence is between 0 and 1, there is one recommendation for each
    factor and at most three of them, and the level is LOW, MEDIUM or
    HIGH (never CRITICAL).  Five alerts of severity 3 or more are enough
    for HIGH; the level LOW leaves room for one such alert at most. *)
Theorem main_assessment_well_formed (alerts_data : list alert) :
  let r := McpMain.assess alerts_data in
  (0 <= confidence r ∧ confidence r <= 1)
  ∧ length (factors r) = length (recommendations r)
  ∧ (length (factors r) ≤ 3)%nat
  ∧ (risk_level r = "LOW" ∨ risk_level r = "MEDIUM" ∨ risk_level r = "HIGH")
  ∧ ((5 ≤ length (high_severity_of alerts_data))%nat → risk_level r = "HIGH")
  ∧ (risk_level r = "LOW" → (length (high_severity_of alerts_data) ≤ 1)%nat).
Proof.
  cbn zeta. destruct (main_assess_fields alerts_data) as (Hl & Hc & Hf & Hr).
  set (k := (_ + _ + _)%nat) in *.
  destruct (score_facts k (high_severity_of alerts_data)) as (H0 & H5 & Hlow).
  rewrite Hl, Hc, Hf, Hr. split; [by apply py_min_unit|]. split; [done|]. split.
  { unfold k.
    destruct (high_severity_of alerts_data), (McpMain.analyze_location_clusters _),
      (McpMain.increasing _); cbn; lia. }
  split; [repeat case_match; auto|]. split.
  - intros Hhigh. rewrite H5; [done|done|]. unfold k.
    destruct (high_severity_of alerts_data); cbn in *; lia.
  - repeat case_match; try done. intros _.
    destruct Hlow as (_ & _ & Hone); [done|].
    destruct (decide (1 ≤ length (high_severity_of alerts_data))%nat) as [Hsome|]; [|lia].
    apply Hone. unfold k. destruct (high_severity_of alerts_data); cbn in *; lia.
Qed.




(** ** More on recommendations *)

Lemma filter_sublist_impl {A} (P R : A → Prop) `{!∀ x, Decision (P x)}
    `{!∀ x, Decision (R x)} (l : list A) :
  (∀ x, P x → R x) → filter P l `sublist_of` filter R l.
Proof.
  intros HPR. induction l as [|x l IH]; [done|]. rewrite !filter_cons.
  destruct (decide (P x)) as [HP|HP].
  - rewrite decide_True by auto. by constructor.
  - case_decide; [by constructor|done].
Qed.

Lemma sq_le (r1 r2 : Q) : 0 <= r1 → r1 <= r2 → sq r1 <= sq r2.
Proof. intros H0 H. unfold sq. nra. Qed.

(** X12. A larger radius keeps every alert (and shelter) that a smaller one
    keeps; what is kept is always part of the list given, in its order;
    and without a location no alert and no shelter is kept. *)
Theorem nearby_grows_with_radius (alerts : list alert) (shelters : list shelter)
    (location : option (gmap string Q)) (r1 r2 : Q) :
  0 <= r1 → r1 <= r2 →
  (RecommendationEngine.get_nearby_alerts alerts location r1
     `sublist_of` RecommendationEngine.get_nearby_alerts alerts location r2
   ∧ RecommendationEngine.get_nearby_alerts alerts location r2 `sublist_of` alerts)
  ∧ (RecommendationEngine.get_nearby_shelters shelters location r1
       `sublist_of` RecommendationEngine.get_nearby_shelters shelters location r2
     ∧ RecommendationEngine.get_nearby_shelters shelters location r2 `sublist_of` shelters)
  ∧ (McpMain.get_nearby_alerts alerts location r1
       `sublist_of` McpMain.get_nearby_alerts alerts location r2
     ∧ McpMain.get_nearby_alerts alerts location r2 `sublist_of` alerts)
  ∧ (McpMain.get_nearby_shelters shelters location r1
       `sublist_of` McpMain.get_nearby_shelters shelters location r2
     ∧ McpMain.get_nearby_shelters shelters location r2 `sublist_of` shelters)
  ∧ (truthy location = false →
     RecommendationEngine.get_nearby_alerts alerts location r2 = []
     ∧ RecommendationEngine.get_nearby_shelters shelters location r2 = []
     ∧ McpMain.get_nearby_alerts alerts location r2 = []
     ∧ McpMain.get_nearby_shelters shelters location r2 = []).
Proof.
  intros H0 H12. pose proof (sq_le r1 r2 H0 H12) as Hsq.
  unfold RecommendationEngine.get_nearby_alerts, RecommendationEngine.get_nearby_shelters,
    McpMain.get_nearby_alerts, McpMain.get_nearby_shelters,
    McpMain.calculate_distance_le, dist_le.
  destruct (truthy location); cbn [negb].
  - repeat split; try apply sublist_filter; try done;
      apply filter_sublist_impl; intros x; rewrite !Is_true_true, !Qleb_le; lra.
  - repeat split; apply sublist_nil_l.
Qed.

Lemma nearby_grows_with_radius_witness :
  RecommendationEngine.get_nearby_alerts [flood_a; flood_b; flood_c]
    responder_location 0.01
  `sublist_of` RecommendationEngine.get_nearby_alerts [flood_a; flood_b; flood_c]
    responder_location 0.02.
Proof.
  apply (nearby_grows_with_radius [flood_a; flood_b; flood_c] [] responder_location
           0.01 0.02); vm_compute; discriminate.
Defined.

Lemma existsb_high_severity (alerts : list alert) :
  existsb (λ a, bool_decide (3 ≤ get_severity a)%Z) alerts = true
  ↔ some_high_severity alerts.
Proof.
  rewrite existsb_exists. unfold some_high_severity. split.
  - intros (a & Ha%list_elem_of_In & Hs%bool_decide_eq_true). eauto.
  - intros (a & Ha & Hs). exists a. split; [by apply list_elem_of_In|].
    by apply bool_decide_eq_true.
Qed.

(** X13. The citizen variant.  Its priority is always LOW.  In
    recommendation_engine.py the list is the single situation-normal
    item exactly when there is neither an alert within 0.01 degrees nor a
    shelter within 0.02 degrees; in main.py exactly when there is no
    alert within 0.01 degrees, and the shelters are not looked at.  Both
    copies add the safety item exactly when an alert nearby has
    severity 3 or more. *)
Theorem citizen_recommendations_shape (alerts : list alert) (shelters : list shelter)
    (location : option (gmap string Q)) :
  (let nearby := RecommendationEngine.get_nearby_alerts alerts location 0.01 in
   let refuges := RecommendationEngine.get_nearby_shelters shelters location 0.02 in
   let r := RecommendationEngine.generate_citizen_recommendations alerts shelters
              location in
   RecommendationEngine.priority r = "LOW"
   ∧ (rec_type <$> RecommendationEngine.recommendations_of r = ["general"]
      ↔ nearby = [] ∧ refuges = [])
   ∧ ("safety" ∈ rec_type <$> RecommendationEngine.recommendations_of r
      ↔ some_high_severity nearby))
  ∧ (let nearby := McpMain.get_nearby_alerts alerts location 0.01 in
     let r := McpMain.generate_citizen_recommendations alerts shelters location in
     McpMain.priority r = "LOW"
     ∧ (rec_type <$> McpMain.recommendations_of r = ["general"] ↔ nearby = [])
     ∧ ("safety" ∈ rec_type <$> McpMain.recommendations_of r ↔ some_high_severity nearby)
     ∧ r = McpMain.generate_citizen_recommendations alerts [] location).
Proof.
  split; cbn zeta.
  - unfold RecommendationEngine.generate_citizen_recommendations.
    rewrite <- existsb_high_severity.
    destruct (RecommendationEngine.get_nearby_alerts alerts location 0.01) as [|a l];
      destruct (RecommendationEngine.get_nearby_shelters shelters location 0.02)
        as [|s k]; [| |destruct (existsb _ (a :: l))..]; cbn;
      (split; [done|]); (split; [split; [done|by intros [? ?]]|]);
      rewrite ?elem_of_cons, ?elem_of_nil;
      (split; [intros H; decompose [or] H; done|try done; intros _; by left]).
  - unfold McpMain.generate_citizen_recommendations.
    assert (E : (if truthy location then McpMain.get_nearby_alerts alerts location 0.01
                 else []) = McpMain.get_nearby_alerts alerts location 0.01).
    { unfold McpMain.get_nearby_alerts. by destruct (truthy location). }
    rewrite E, <- existsb_high_severity.
    destruct (McpMain.get_nearby_alerts alerts location 0.01) as [|a l];
      [|destruct (existsb _ (a :: l))]; cbn;
      (split; [done|]); (split; [split; done|]); (split; [|done]);
      rewrite ?elem_of_cons, ?elem_of_nil;
      (split; [intros H; decompose [or] H; done|try done; intros _; by left]).
Qed.

(** ** More on ingestion *)

Lemma first_with_title_Some t db :
  t ∈ Backend.title <$> db → is_Some (Backend.first_with_title (Some t) db).
Proof.
  intros (row & Ht & Hrow)%list_elem_of_fmap. unfold Backend.first_with_title.
  destruct (list_find (λ r, Backend.title r = t) db) as [[i r]|] eqn:E; [by eexists|].
  apply list_find_None in E. exfalso.
  by apply (proj1 (Forall_forall _ _) E row Hrow).
Qed.

(** The loop only appends rows. *)
Lemma ingest_appends now alerts db :
  ∃ added, (Backend.ingest now alerts db).2 = db ++ added
    ∧ Forall (λ row, Backend.kind row = "GOOGLE" ∧ Backend.created_at row = now
                     ∧ ∃ c, c ∈ alerts ∧ Backend.c_title c = Some (Backend.title row))
        added.
Proof.
  revert db. induction alerts as [|a rest IH]; intros db; cbn.
  - exists []. by rewrite app_nil_r.
  - destruct (Backend.first_with_title (Backend.c_title a) db) eqn:Hfind.
    + destruct (IH db) as (added & -> & Hall). exists added. split; [done|].
      eapply Forall_impl; [exact Hall|]. intros row (? & ? & c & ? & ?).
      repeat split; try done. exists c. split; [by right|done].
    + destruct (Backend.c_title a) as [t|] eqn:Ht;
        [|exists []; by rewrite app_nil_r].
      destruct (Backend.c_description a) as [d|];
        [|exists []; by rewrite app_nil_r].
      destruct (IH (db ++ [ {| Backend.id := Backend.next_id db; Backend.title := t;
                               Backend.description := Some d;
                               Backend.lat := default 0 (default (None, None)
                                                (Backend.c_coordinates a)).1;
                               Backend.lon := default 0 (default (None, None)
                                                (Backend.c_coordinates a)).2;
                               Backend.severity := default 2%Z (Backend.c_severity a);
                               Backend.kind := "GOOGLE";
                               Backend.created_at := now |} ]))
        as (added & -> & Hall).
      eexists (_ :: added). split; [by rewrite <- (assoc_L (++))|].
      constructor.
      * repeat split. exists a. split; [by left|done].
      * eapply Forall_impl; [exact Hall|]. intros row (? & ? & c & ? & ?).
        repeat split; try done. exists c. split; [by right|done].
Qed.

Lemma ingest_titles_kept now alerts db t :
  t ∈ Backend.title <$> db → t ∈ Backend.title <$> (Backend.ingest now alerts db).2.
Proof.
  intros Ht. destruct (ingest_appends now alerts db) as (added & -> & _).
  rewrite fmap_app. apply elem_of_app. by left.
Qed.

(** A batch that has been ingested adds nothing when it comes again,
    also when the first pass stopped on an exception. *)
Lemma ingest_idempotent now now' alerts db :
  (Backend.ingest now' alerts (Backend.ingest now alerts db).2).2
  = (Backend.ingest now alerts db).2.
Proof.
  revert db. induction alerts as [|a rest IH]; intros db; [done|].
  cbn [Backend.ingest].
  destruct (Backend.first_with_title (Backend.c_title a) db) as [row|] eqn:Hfind.
  - destruct (Backend.c_title a) as [t|] eqn:Ht; [|done].
    assert (Hin : t ∈ Backend.title <$> (Backend.ingest now rest db).2).
    { apply ingest_titles_kept. unfold Backend.first_with_title in Hfind.
      apply fmap_Some in Hfind as ([i r] & Hr & _).
      apply list_find_Some in Hr as (Hr & Hrt & _). cbn in Hrt.
      apply list_elem_of_fmap. exists r. split; [done|].
      by eapply list_elem_of_lookup_2. }
    apply first_with_title_Some in Hin as [row' ->]. apply IH.
  - destruct (Backend.c_title a) as [t|] eqn:Ht.
    + destruct (Backend.c_description a) as [d|] eqn:Hd.
      * match goal with |- context [Backend.ingest now rest ?db'] =>
          assert (Hin : t ∈ Backend.title <$> (Backend.ingest now rest db').2)
        end.
        { apply ingest_titles_kept. rewrite fmap_app. apply elem_of_app. right.
          cbn. constructor. }
        apply first_with_title_Some in Hin as [row' ->]. apply IH.
      * cbn [snd]. by rewrite Hfind.
    + cbn [snd]. by rewrite Hfind.
Qed.

(** X14. [fetch_google_alerts] is idempotent on the table: the same reply
    ingested a second time leaves the table as the first pass left it. *)
Theorem google_batch_idempotent (now now' : Z)
    (reply : result (response (option (list Backend.candidate))))
    (db : list Backend.Alert) :
  (Backend.fetch_google_alerts now' reply (Backend.fetch_google_alerts now reply db).2).2
  = (Backend.fetch_google_alerts now reply db).2.
Proof.
  unfold Backend.fetch_google_alerts.
  destruct (_ ≫= _) as [data|e]; [apply ingest_idempotent|done].
Qed.

(** X15. What a batch does to the table: the rows that were there stay, in
    their order; each row added is tagged GOOGLE and has the title of a
    candidate of the batch; and when the batch ends without an
    exception, the title of every candidate is in the table. *)
Theorem google_batch_outcome (now : Z) (alerts : list Backend.candidate)
    (db : list Backend.Alert) :
  (∃ added, (Backend.ingest now alerts db).2 = db ++ added
     ∧ Forall (λ row, Backend.kind row = "GOOGLE" ∧ Backend.created_at row = now
                      ∧ ∃ c, c ∈ alerts ∧ Backend.c_title c = Some (Backend.title row))
         added)
  ∧ ((Backend.ingest now alerts db).1 = Ok () →
     ∀ c, c ∈ alerts →
       ∃ t, Backend.c_title c = Some t
            ∧ t ∈ Backend.title <$> (Backend.ingest now alerts db).2).
Proof.
  split; [apply ingest_appends|].
  revert db. induction alerts as [|a rest IH]; intros db; cbn.
  - by intros _ c ?%elem_of_nil.
  - destruct (Backend.first_with_title (Backend.c_title a) db) as [row|] eqn:Hfind.
    + intros Hok c [->|Hc]%elem_of_cons; [|by apply IH].
      destruct (Backend.c_title a) as [t|] eqn:Ht; [|done]. exists t. split; [done|].
      apply ingest_titles_kept. unfold Backend.first_with_title in Hfind.
      apply fmap_Some in Hfind as ([i r] & Hr & _).
      apply list_find_Some in Hr as (Hr & Hrt & _). cbn in Hrt.
      apply list_elem_of_fmap. exists r. split; [done|].
      by eapply list_elem_of_lookup_2.
    + destruct (Backend.c_title a) as [t|] eqn:Ht; [|done].
      destruct (Backend.c_description a) as [d|]; [|done].
      intros Hok c [->|Hc]%elem_of_cons; [|by apply IH].
      exists t. split; [done|]. apply ingest_titles_kept.
      rewrite fmap_app. apply elem_of_app. right. cbn. constructor.
Qed.

Lemma google_batch_outcome_witness :
  ∃ t, Some "Sismo" = Some t
       ∧ t ∈ Backend.title <$>
           (Backend.ingest 0
              [ {| Backend.c_title := Some "Sismo";
                   Backend.c_description := Some "M 5.1";
                   Backend.c_severity := None; Backend.c_coordinates := None |} ] []).2.
Proof.
  apply (proj2 (google_batch_outcome 0
           [ {| Backend.c_title := Some "Sismo"; Backend.c_description := Some "M 5.1";
                Backend.c_severity := None; Backend.c_coordinates := None |} ] [])
           eq_refl
           {| Backend.c_title := Some "Sismo"; Backend.c_description := Some "M 5.1";
              Backend.c_severity := None; Backend.c_coordinates := None |}).
  left.
Defined.

(** X16. No ingestion call deletes or changes a stored row: the table before
    a sequence of calls is a prefix of the table after it. *)
Theorem ingestion_only_appends (now : Z) (calls : list Backend.call)
    (db : list Backend.Alert) :
  db `prefix_of` Backend.run now calls db.
Proof.
  revert db. induction calls as [|c calls IH]; intros db; [done|]. cbn.
  etransitivity; [|apply IH]. destruct c as [reply|alert_data]; cbn.
  - unfold Backend.fetch_google_alerts. destruct (_ ≫= _) as [data|e]; [|done].
    destruct (ingest_appends now (default [] data) db) as (added & -> & _).
    by apply prefix_app_r.
  - unfold Backend.create_alert.
    destruct (_ || _); [done|]. case_decide; [|done]. cbn. by apply prefix_app_r.
Qed.

(** ** More on the source adapters *)

Lemma tag_OPEN_METEO : "OPEN_METEO" ∈ source_tags.
Proof. unfold source_tags. rewrite !elem_of_cons. tauto. Qed.

Lemma tag_OPENWEATHER : "OPENWEATHER" ∈ source_tags.
Proof. unfold source_tags. rewrite !elem_of_cons. tauto. Qed.

Lemma tag_GDACS : "GDACS" ∈ source_tags.
Proof. unfold source_tags. rewrite !elem_of_cons. tauto. Qed.

Lemma tag_NASA_POWER : "NASA_POWER" ∈ source_tags.
Proof. unfold source_tags. rewrite !elem_of_cons. tauto. Qed.

Lemma gdacs_alert_well_formed event x :
  Backend.gdacs_alert_of event = Ok x →
  well_formed_external x ∧ ¬ malformed_feature event
  ∧ Backend.ext_title x = "GDACS: " +:+ default "" (Backend.f_title event).
Proof.
  unfold Backend.gdacs_alert_of, malformed_feature.
  destruct (Backend.f_coordinates event) as [[|? [|? [|? ?]]]| |]; try done; cbn;
    intros [= <-]; cbn;
    (split; [split; [cbn; repeat case_decide; lia|apply tag_GDACS]|]);
    (split; [|done]); cbn; tauto || lia.
Qed.

Lemma gdacs_alert_raises event e :
  Backend.gdacs_alert_of event = Raise e → malformed_feature event.
Proof.
  unfold Backend.gdacs_alert_of, malformed_feature.
  destruct (Backend.f_coordinates event) as [[|? [|? [|? ?]]]| |]; try done; cbn; lia.
Qed.

Lemma gdacs_alerts_Ok features alerts :
  Backend.gdacs_alerts_of features = Ok alerts →
  Forall well_formed_external alerts ∧ length alerts = length features
  ∧ Forall (λ event, ¬ malformed_feature event) features.
Proof.
  revert alerts. induction features as [|event rest IH]; intros alerts; cbn.
  - intros [= <-]. repeat split; constructor.
  - destruct (Backend.gdacs_alert_of event) as [x|e] eqn:Hx; [|done]. cbn.
    destruct (Backend.gdacs_alerts_of rest) as [xs|e]; [|done]. cbn. intros [= <-].
    destruct (IH xs eq_refl) as (Hall & Hlen & Hok).
    destruct (gdacs_alert_well_formed event x Hx) as (Hwf & Hnot & _).
    repeat split; [by constructor|cbn; by rewrite Hlen|by constructor].
Qed.

Lemma gdacs_alerts_Raise features e :
  Backend.gdacs_alerts_of features = Raise e →
  Exists malformed_feature features.
Proof.
  revert e. induction features as [|event rest IH]; intros e; cbn; [done|].
  destruct (Backend.gdacs_alert_of event) as [x|e'] eqn:Hx; cbn.
  - destruct (Backend.gdacs_alerts_of rest) as [xs|e'']; [done|]. cbn.
    intros _. right. by apply (IH e'').
  - intros _. left. by eapply gdacs_alert_raises.
Qed.

Lemma contribution_well_formed_gdacs reply :
  Forall well_formed_external (contribution (Backend.fetch_gdacs_alerts reply)).
Proof.
  unfold Backend.fetch_gdacs_alerts.
  destruct (Backend.get_json reply) as [data|e]; cbn; [|constructor].
  destruct (Backend.gdacs_alerts_of (default [] data)) as [alerts|e] eqn:E; cbn;
    [|constructor].
  by apply gdacs_alerts_Ok in E as (? & _).
Qed.

(** X17. The GDACS adapter is all or nothing: it gives one alert for each
    feature, titled ["GDACS: " + title], when no feature is malformed,
    and it gives nothing at all as soon as one feature is. *)
Theorem gdacs_all_or_nothing (status : Z) (features : list Backend.gdacs_feature) :
  ¬ (400 ≤ status < 600)%Z →
  let result := Backend.fetch_gdacs_alerts (Ok (Response status (Ok (Some features)))) in
  (Exists malformed_feature features → result = None)
  ∧ (Forall (λ event, ¬ malformed_feature event) features →
     ∃ alerts, result = Some alerts
       ∧ Backend.ext_title <$> alerts
         = (λ event, "GDACS: " +:+ default "" (Backend.f_title event)) <$> features).
Proof.
  intros Hstatus. cbn zeta. unfold Backend.fetch_gdacs_alerts, Backend.get_json. cbn.
  rewrite decide_False by done. cbn. split.
  - intros Hbad.
    destruct (Backend.gdacs_alerts_of features) as [alerts|e] eqn:E; [|done].
    apply gdacs_alerts_Ok in E as (_ & _ & Hok). exfalso.
    apply Exists_exists in Hbad as (event & Hin & Hbad).
    by apply (proj1 (Forall_forall _ _) Hok event Hin).
  - intros Hgood.
    destruct (Backend.gdacs_alerts_of features) as [alerts|e] eqn:E; cbn.
    + exists alerts. split; [done|].
      clear Hgood. revert alerts E. induction features as [|event rest IH];
        intros alerts; cbn; [by intros [= <-]|].
      destruct (Backend.gdacs_alert_of event) as [x|e] eqn:Hx; [|done]. cbn.
      destruct (Backend.gdacs_alerts_of rest) as [xs|e]; [|done]. cbn. intros [= <-].
      cbn. rewrite (IH xs eq_refl).
      by destruct (gdacs_alert_well_formed event x Hx) as (_ & _ & ->).
    + exfalso. apply gdacs_alerts_Raise in E.
      apply Exists_exists in E as (event & Hin & Hbad).
      by apply (proj1 (Forall_forall _ _) Hgood event Hin).
Qed.

Lemma gdacs_all_or_nothing_witness :
  Backend.fetch_gdacs_alerts
    (Ok (Response 200 (Ok (Some
       [ {| Backend.f_alertlevel := Some "Red"; Backend.f_title := Some "Flood";
            Backend.f_description := None;
            Backend.f_coordinates := Backend.EmptyRing |} ])))) = None.
Proof.
  apply (gdacs_all_or_nothing 200
           [ {| Backend.f_alertlevel := Some "Red"; Backend.f_title := Some "Flood";
                Backend.f_description := None;
                Backend.f_coordinates := Backend.EmptyRing |} ]).
  - lia.
  - left. exact I.
Defined.

Section AdapterInvariants.
Variable fmt : Q → string.
Variable OPENWEATHER_API_KEY : string.

Lemma open_meteo_well_formed lat lon data :
  Forall well_formed_external (Backend.open_meteo_alerts_of fmt lat lon data).
Proof.
  unfold Backend.open_meteo_alerts_of.
  repeat case_match; cbn; repeat constructor; cbn; try lia; apply tag_OPEN_METEO.
Qed.

Lemma weather_well_formed lat lon data alerts :
  Backend.weather_alerts_of fmt lat lon data = Ok alerts → Forall well_formed_external alerts.
Proof.
  unfold Backend.weather_alerts_of.
  destruct (Backend.weather_main data), (Backend.main_temp data),
    (Backend.wind_speed data), (Backend.main_humidity data); try done. cbn.
  intros [= <-]. repeat case_match; cbn; repeat constructor; cbn; try lia;
    apply tag_OPENWEATHER.
Qed.

Lemma nasa_well_formed lat lon temperatures :
  Forall well_formed_external (Backend.nasa_alerts_of fmt lat lon temperatures).
Proof.
  unfold Backend.nasa_alerts_of. destruct temperatures; [constructor|].
  case_match; repeat constructor; cbn; try lia; apply tag_NASA_POWER.
Qed.

Lemma contribution_well_formed_meteo lat lon reply :
  Forall well_formed_external (contribution (Backend.fetch_open_meteo_data fmt lat lon reply)).
Proof.
  unfold Backend.fetch_open_meteo_data.
  destruct (Backend.get_json reply) as [data|e]; cbn; [|constructor].
  apply open_meteo_well_formed.
Qed.

Lemma contribution_well_formed_weather lat lon reply :
  Forall well_formed_external
    (contribution (Backend.fetch_weather_alerts fmt OPENWEATHER_API_KEY lat lon reply)).
Proof.
  unfold Backend.fetch_weather_alerts. case_bool_decide; cbn; [constructor|].
  destruct (Backend.get_json reply) as [data|e]; cbn; [|constructor].
  destruct (Backend.weather_alerts_of fmt lat lon data) as [alerts|e] eqn:E; cbn;
    [|constructor].
  by eapply weather_well_formed.
Qed.

Lemma contribution_well_formed_nasa lat lon reply :
  Forall well_formed_external (contribution (Backend.fetch_nasa_power_data fmt lat lon reply)).
Proof.
  unfold Backend.fetch_nasa_power_data.
  destruct (Backend.get_json reply) as [data|e]; cbn; [|constructor].
  apply nasa_well_formed.
Qed.

End AdapterInvariants.

(** X18. Every alert that [check_all_sources] returns has a severity between
    2 and 4 and one of the four source tags, whatever the providers
    answer. *)
Theorem external_alerts_well_formed (fmt : Q → string) (OPENWEATHER_API_KEY : string)
    (world : Backend.providers) :
  Forall well_formed_external
    (Backend.check_all_sources fmt OPENWEATHER_API_KEY world).
Proof.
  rewrite check_all_sources_contributions. repeat apply Forall_app_2.
  - apply contribution_well_formed_meteo.
  - apply contribution_well_formed_weather.
  - apply contribution_well_formed_gdacs.
  - apply contribution_well_formed_nasa.
Qed.

(** ** Peak hours *)

Lemma alter_S_lookup (l : list nat) (i h : nat) :
  (i < length l)%nat →
  alter S i l !!! h = (l !!! h + (if decide (i = h) then 1 else 0))%nat.
Proof.
  intros Hi. destruct (decide (i = h)) as [->|Hne].
  - destruct (lookup_lt_is_Some_2 l h Hi) as [x Hx].
    rewrite (list_lookup_total_correct _ _ _ Hx).
    erewrite list_lookup_total_correct; [|by rewrite list_lookup_alter_eq, Hx]. lia.
  - rewrite !list_lookup_total_alt, list_lookup_alter_ne by done. lia.
Qed.

Lemma hour_of_unfold a :
  hour_of a
  = match alert_created_at a with
    | Some stamp =>
        if decide (0 ≤ dt_hour stamp < 24)%Z then Some (Z.to_nat (dt_hour stamp)) else None
    | None => None
    end.
Proof. unfold hour_of. by destruct (alert_created_at a). Qed.

Lemma alerts_at_hour_nil h : alerts_at_hour h [] = 0%nat.
Proof. reflexivity. Qed.

Lemma alerts_at_hour_cons h a alerts_data :
  alerts_at_hour h (a :: alerts_data)
  = ((if decide (hour_of a = Some h) then 1 else 0) + alerts_at_hour h alerts_data)%nat.
Proof.
  unfold alerts_at_hour. rewrite filter_cons. by case_decide.
Qed.

(** What the loop of main.py leaves in the dict. *)
Lemma main_hourly_count alerts_data counts :
  length counts = 24%nat →
  length (foldl McpMain.count_hour counts alerts_data) = 24%nat
  ∧ ∀ h, (h < 24)%nat →
      foldl McpMain.count_hour counts alerts_data !!! h
      = (counts !!! h + alerts_at_hour h alerts_data)%nat.
Proof.
  revert counts. induction alerts_data as [|a rest IH]; intros counts Hlen.
  - split; [done|]. intros h _. cbn [foldl].
    change (alerts_at_hour h []) with 0%nat. lia.
  - cbn [foldl].
    assert (length (McpMain.count_hour counts a) = 24%nat) as Hlen'.
    { unfold McpMain.count_hour. repeat case_match; by rewrite ?length_alter. }
    destruct (IH _ Hlen') as [Hl Hh]. split; [done|].
    intros h Hlt. rewrite (Hh h Hlt), alerts_at_hour_cons.
    unfold McpMain.count_hour. rewrite hour_of_unfold.
    destruct (alert_created_at a) as [stamp|].
    2: { rewrite decide_False by done. lia. }
    destruct (decide (0 ≤ dt_hour stamp < 24)%Z) as [Hr|Hr].
    2: { rewrite decide_False by done. lia. }
    rewrite alter_S_lookup by lia.
    destruct (decide (Z.to_nat (dt_hour stamp) = h)) as [<-|Hne].
    + rewrite decide_True by done. lia.
    + rewrite decide_False by congruence. lia.
Qed.

(** The loop of advanced_mcp.py: the same counts when every stamp
    parses, and an exception otherwise. *)
Lemma advanced_hourly_count alerts_data counts :
  Forall (λ a, is_Some (hour_of a)) alerts_data →
  AdvancedMcp.count_hours counts alerts_data
  = Ok (foldl McpMain.count_hour counts alerts_data).
Proof.
  intros Hall. revert counts. induction Hall as [|a rest [h Hh] _ IH]; intros counts; [done|].
  cbn [AdvancedMcp.count_hours foldl]. unfold McpMain.count_hour.
  unfold hour_of in Hh. destruct (alert_created_at a) as [stamp|]; [|done].
  cbn in Hh. case_decide; [|done]. apply IH.
Qed.

Lemma advanced_hourly_raise alerts_data counts :
  Exists (λ a, hour_of a = None) alerts_data →
  ∃ e, AdvancedMcp.count_hours counts alerts_data = Raise e.
Proof.
  intros Hex. revert counts. induction alerts_data as [|a rest IH]; intros counts.
  - by apply Exists_nil in Hex.
  - cbn [AdvancedMcp.count_hours]. unfold hour_of in Hex.
    destruct (alert_created_at a) as [stamp|] eqn:Hs; [|by eexists].
    case_decide as Hr; [|by eexists]. apply IH.
    apply Exists_cons in Hex as [Ha|Hrest]; [|done].
    rewrite Hs in Ha. cbn in Ha. by rewrite decide_True in Ha.
Qed.

(** [max] with a key returns the first index with the largest value. *)
Lemma max_key_from_spec (before counts : list nat) (best : nat) :
  (best < length before)%nat →
  (∀ i, (i < length before)%nat → (before !!! i ≤ before !!! best)%nat) →
  (∀ i, (i < best)%nat → (before !!! i < before !!! best)%nat) →
  let r := max_key_from best (before !!! best) (length before) counts in
  let all := before ++ counts in
  (r < length all)%nat
  ∧ (∀ i, (i < length all)%nat → (all !!! i ≤ all !!! r)%nat)
  ∧ (∀ i, (i < r)%nat → (all !!! i < all !!! r)%nat).
Proof.
  revert before best. induction counts as [|c rest IH]; intros before best Hb Hle Hlt.
  - cbn. rewrite app_nil_r. done.
  - cbn [max_key_from]. cbn zeta.
    replace (before ++ c :: rest) with ((before ++ [c]) ++ rest) by (rewrite <- app_assoc; reflexivity).
    assert (∀ i, (i < length before)%nat → (before ++ [c]) !!! i = before !!! i) as Hpre.
    { intros i Hi. by rewrite lookup_total_app_l. }
    assert ((before ++ [c]) !!! length before = c) as Hc.
    { rewrite lookup_total_app_r by lia. by rewrite Nat.sub_diag. }
    assert (length (before ++ [c]) = S (length before)) as Hlen.
    { rewrite length_app. cbn. lia. }
    case_decide as Hbetter.
    + specialize (IH (before ++ [c]) (length before)).
      rewrite Hlen, Hc in IH. apply IH; [lia| |].
      * intros i Hi. destruct (decide (i = length before)) as [->|Hne]; [by rewrite Hc|].
        rewrite Hpre by lia. specialize (Hle i). lia.
      * intros i Hi. rewrite Hpre by lia. specialize (Hle i). lia.
    + specialize (IH (before ++ [c]) best).
      rewrite Hlen, (Hpre best Hb) in IH. apply IH; [lia| |].
      * intros i Hi. destruct (decide (i = length before)) as [->|Hne]; [rewrite Hc; lia|].
        rewrite Hpre by lia. apply Hle. lia.
      * intros i Hi. rewrite Hpre by lia. by apply Hlt.
Qed.

Lemma max_key_spec (counts : list nat) :
  counts ≠ [] →
  (max_key counts < length counts)%nat
  ∧ (∀ i, (i < length counts)%nat → (counts !!! i ≤ counts !!! max_key counts)%nat)
  ∧ (∀ i, (i < max_key counts)%nat → (counts !!! i < counts !!! max_key counts)%nat).
Proof.
  destruct counts as [|c rest]; [done|]. intros _.
  apply (max_key_from_spec [c] rest 0%nat); cbn.
  - lia.
  - intros i Hi. by replace i with 0%nat by lia.
  - intros i Hi. lia.
Qed.

(** [n * 0.2 < m], on counts. *)
Lemma fifth_threshold (n m : nat) :
  Qltb (Qnat n * 0.2) (Qnat m) = true ↔ (n < 5 * m)%nat.
Proof.
  rewrite Qltb_lt. unfold Qnat, Qlt. cbn. lia.
Qed.

(** The hour with the most alerts that the loop of main.py finds. *)
Lemma main_peak_hour alerts_data :
  let hourly_count := foldl McpMain.count_hour no_hours alerts_data in
  peak_hour alerts_data (max_key hourly_count)
  ∧ hourly_count !!! max_key hourly_count
    = alerts_at_hour (max_key hourly_count) alerts_data.
Proof.
  cbn zeta. destruct (main_hourly_count alerts_data no_hours eq_refl) as [Hlen Hcount].
  set (hourly_count := foldl McpMain.count_hour no_hours alerts_data) in *.
  assert (∀ h, (h < 24)%nat → hourly_count !!! h = alerts_at_hour h alerts_data) as Hc.
  { intros h Hh. rewrite (Hcount h Hh). unfold no_hours.
    rewrite lookup_total_replicate_2 by done. lia. }
  destruct (max_key_spec hourly_count) as (Hr & Hmax & Hfirst).
  { intros E. by rewrite E in Hlen. }
  rewrite Hlen in Hr, Hmax. split; [|by apply Hc].
  split; [done|]. split.
  - intros h Hh. rewrite <- !Hc by done. by apply Hmax.
  - intros h Hh. rewrite <- !Hc by lia. by apply Hfirst.
Qed.

(** X19. In main.py a peak is reported exactly when the first of the
    busiest hours holds more than a fifth of all the alerts of the list
    (the alerts whose stamp does not parse count in the total), and the
    hour named is that hour. *)
Theorem temporal_peak_characterised (alerts_data : list alert) :
  ∃ h, peak_hour alerts_data h
    ∧ McpMain.analyze_temporal_patterns alerts_data
      = if decide (length alerts_data < 5 * alerts_at_hour h alerts_data)%nat
        then "Pico de actividad alrededor de las " +:+ pretty h +:+ ":00"
        else "".
Proof.
  destruct (main_peak_hour alerts_data) as [Hpeak Hcount]. cbn zeta in *.
  exists (max_key (foldl McpMain.count_hour no_hours alerts_data)). split; [done|].
  destruct alerts_data as [|a rest].
  - rewrite decide_False; [done|]. rewrite alerts_at_hour_nil. cbn [length]. lia.
  - unfold McpMain.analyze_temporal_patterns. cbn zeta. rewrite Hcount.
    set (m := alerts_at_hour _ _). set (n := length (a :: rest)).
    destruct (Qltb (Qnat n * 0.2) (Qnat m)) eqn:E.
    + apply fifth_threshold in E. by destruct (decide (n < 5 * m)%nat).
    + destruct (decide (n < 5 * m)%nat) as [Hlt%fifth_threshold|]; [congruence|done].
Qed.

(** X20. A list of one to four alerts of which one has a stamp that parses
    always shows a peak. *)
Theorem small_snapshot_always_peaks (alerts_data : list alert) :
  (length alerts_data < 5)%nat →
  Exists (λ a, is_Some (hour_of a)) alerts_data →
  McpMain.analyze_temporal_patterns alerts_data ≠ "".
Proof.
  intros Hsmall Hex.
  destruct (main_peak_hour alerts_data) as [(Hh & Hmax & _) Hcount]. cbn zeta in *.
  destruct alerts_data as [|a rest]; [by apply Exists_nil in Hex|].
  unfold McpMain.analyze_temporal_patterns. cbn zeta. rewrite Hcount.
  set (h := max_key _) in *.
  assert (1 ≤ alerts_at_hour h (a :: rest))%nat as Hone.
  { apply Exists_exists in Hex as (b & Hin & [k Hk]).
    assert (k < 24)%nat as Hk24.
    { unfold hour_of in Hk. destruct (alert_created_at b); [|done]. cbn in Hk.
      case_decide; [|done]. injection Hk as <-. lia. }
    etrans; [|apply (Hmax k Hk24)].
    unfold alerts_at_hour.
    assert (b ∈ filter (λ a0, hour_of a0 = Some k) (a :: rest)) as Hb
      by by apply list_elem_of_filter.
    destruct (filter _ _); [by apply elem_of_nil in Hb|cbn; lia]. }
  destruct (Qltb _ _) eqn:E; [done|].
  exfalso. assert (length (a :: rest) < 5 * alerts_at_hour h (a :: rest))%nat as Hlt by lia.
  apply fifth_threshold in Hlt. congruence.
Qed.

(** X21. The copy of advanced_mcp.py finds the same peak as main.py when
    every stamp parses, and raises as soon as the list holds an alert
    whose stamp does not. *)
Theorem temporal_copies_agree (alerts_data : list alert) :
  (Forall (λ a, is_Some (hour_of a)) alerts_data →
   ∃ h, peak_hour alerts_data h
     ∧ McpMain.analyze_temporal_patterns alerts_data
       = (if decide (length alerts_data < 5 * alerts_at_hour h alerts_data)%nat
          then "Pico de actividad alrededor de las " +:+ pretty h +:+ ":00" else "")
     ∧ AdvancedMcp.analyze_temporal_patterns alerts_data
       = Ok (if decide (length alerts_data < 5 * alerts_at_hour h alerts_data)%nat
             then "Pico de alertas alrededor de las " +:+ pretty h +:+ ":00" else ""))
  ∧ (Exists (λ a, hour_of a = None) alerts_data →
     ∃ e, AdvancedMcp.analyze_temporal_patterns alerts_data = Raise e).
Proof.
  split.
  - intros Hall. destruct (main_peak_hour alerts_data) as [Hpeak Hcount]. cbn zeta in *.
    exists (max_key (foldl McpMain.count_hour no_hours alerts_data)). split; [done|].
    destruct alerts_data as [|a rest].
    { rewrite decide_False; [done|]. rewrite alerts_at_hour_nil. cbn [length]. lia. }
    unfold McpMain.analyze_temporal_patterns, AdvancedMcp.analyze_temporal_patterns.
    rewrite (advanced_hourly_count _ _ Hall). cbn zeta. cbn [mbind result_bind].
    rewrite Hcount. change (Qlen (a :: rest)) with (Qnat (length (a :: rest))).
    set (m := alerts_at_hour _ _). set (n := length (a :: rest)).
    destruct (Qltb (Qnat n * 0.2) (Qnat m)) eqn:E.
    + apply fifth_threshold in E. by destruct (decide (n < 5 * m)%nat).
    + destruct (decide (n < 5 * m)%nat) as [Hlt%fifth_threshold|]; [congruence|done].
  - intros Hex. destruct alerts_data as [|a rest]; [by apply Exists_nil in Hex|].
    unfold AdvancedMcp.analyze_temporal_patterns.
    destruct (advanced_hourly_raise (a :: rest) no_hours Hex) as [e ->]. by exists e.
Qed.

Lemma small_snapshot_always_peaks_witness :
  McpMain.analyze_temporal_patterns [south] ≠ "".
Proof.
  apply small_snapshot_always_peaks.
  - cbn. lia.
  - left. exists 8%nat. reflexivity.
Defined.

Lemma temporal_copies_agree_witness :
  ∃ e, AdvancedMcp.analyze_temporal_patterns
         [south; {| alert_id := 14; alert_title := "Sin fecha"; alert_lat := None;
                    alert_lon := None; alert_severity := None;
                    alert_created_at := None |}] = Raise e.
Proof.
  apply (proj2 (temporal_copies_agree _)). right. left. reflexivity.
Defined.

(** Three alerts in three different hours: each hour holds a third of
    the alerts, and the first of them is reported. *)
Example three_hours_peak :
  McpMain.analyze_temporal_patterns [south; middle; north]
  = "Pico de actividad alrededor de las 8:00".
Proof. vm_compute. reflexivity. Qed.

(** ** The alert list of the MCP service *)

(** What the loop of [mcp_alerts] computes. *)
Lemma count_severity_fold alerts counts high :
  foldl McpMain.count_severity (counts, high) alerts
  = (foldl bump counts ((λ a, pretty (get_severity a)) <$> alerts),
     (high + length (high_severity_of alerts))%nat).
Proof.
  revert counts high. induction alerts as [|a rest IH]; intros counts high.
  - cbn. f_equal. unfold high_severity_of. cbn. lia.
  - cbn [foldl fmap list_fmap]. unfold McpMain.count_severity at 2. rewrite IH.
    unfold high_severity_of. rewrite filter_cons. unfold bump at 2.
    f_equal. case_decide; cbn; lia.
Qed.

Lemma tally_total_fold `{Countable K} (keys : list K) (m : gmap K nat) :
  tally_total (foldl bump m keys) = (tally_total m + length keys)%nat.
Proof.
  revert m. induction keys as [|k rest IH]; intros m; cbn; [lia|].
  rewrite IH, tally_total_bump. lia.
Qed.

Lemma bump_fold_lookup `{Countable K} (keys : list K) (m : gmap K nat) (k : K) :
  default 0%nat (foldl bump m keys !! k)
  = (default 0%nat (m !! k) + length (filter (λ j, j = k) keys))%nat.
Proof.
  revert m. induction keys as [|j rest IH]; intros m; cbn [foldl].
  - cbn. lia.
  - rewrite IH, filter_cons. unfold bump. destruct (decide (j = k)) as [->|Hne].
    + rewrite lookup_insert_eq. cbn. lia.
    + rewrite lookup_insert_ne by done. lia.
Qed.

Lemma length_filter_fmap {A B} (f : A → B) (P : B → Prop) `{∀ y, Decision (P y)}
    (l : list A) :
  length (filter P (f <$> l)) = length (filter (λ x, P (f x)) l).
Proof.
  induction l as [|x l IH]; [done|].
  cbn [fmap list_fmap]. rewrite !filter_cons. case_decide; cbn; by rewrite IH.
Qed.

(** X22. The analytics of [mcp_alerts] describe the alerts it returns:
    the total is their number, the breakdown gives for every severity
    the number of alerts that have it and sums to the total, the high
    severity figure counts the alerts of severity 3 or more, and the
    level is HIGH above three of them, LOW with none, MEDIUM between.
    When the analytics are an error, no alert is returned. *)
Theorem mcp_alerts_analytics (reply : result (response (list alert))) :
  let alerts := McpMain.reply_alerts (McpMain.mcp_alerts reply) in
  match McpMain.reply_analytics (McpMain.mcp_alerts reply) with
  | McpMain.AnalyticsError _ => alerts = []
  | McpMain.Analytics total_alerts high_severity_alerts severity_breakdown level =>
      total_alerts = length alerts
      ∧ high_severity_alerts = length (high_severity_of alerts)
      ∧ tally_total severity_breakdown = total_alerts
      ∧ (∀ s : Z, default 0%nat (severity_breakdown !! pretty s)
                  = length (with_severity s alerts))
      ∧ (level = "HIGH" ↔ (3 < high_severity_alerts)%nat)
      ∧ (level = "MEDIUM" ↔ (0 < high_severity_alerts ≤ 3)%nat)
      ∧ (level = "LOW" ↔ high_severity_alerts = 0%nat)
  end.
Proof.
  cbn zeta. unfold McpMain.mcp_alerts.
  destruct reply as [r|e]; [|done]. cbn [mbind result_bind].
  case_decide; [|done]. cbn [mbind result_bind].
  destruct (json r) as [alerts|e]; [|done]. cbn [mbind result_bind].
  rewrite count_severity_fold. cbn.
  split; [done|]. split; [done|]. split; [|split].
  - rewrite tally_total_fold, tally_total_empty, length_fmap. lia.
  - intros s. rewrite bump_fold_lookup, lookup_empty. cbn.
    rewrite length_filter_fmap. unfold with_severity. f_equal.
    apply list_filter_iff. intros a. split; [apply (inj pretty)|by intros ->].
  - repeat case_decide; repeat split; try done; try lia.
Qed.

(** X23. With a successful reply whose body decodes, [mcp_alerts] returns
    the alerts of the body as they are; with any other reply it returns
    no alert and the text of the error. *)
Theorem mcp_alerts_passes_alerts (reply : result (response (list alert))) :
  (∀ status alerts, (200 ≤ status < 300)%Z →
     reply = Ok (Response status (Ok alerts)) →
     McpMain.reply_alerts (McpMain.mcp_alerts reply) = alerts
     ∧ ∃ high counts level,
         McpMain.reply_analytics (McpMain.mcp_alerts reply)
         = McpMain.Analytics (length alerts) high counts level)
  ∧ ((∀ status alerts, reply = Ok (Response status (Ok alerts)) → ¬ (200 ≤ status < 300)%Z) →
     ∃ e, McpMain.mcp_alerts reply
          = {| McpMain.reply_alerts := [];
               McpMain.reply_analytics := McpMain.AnalyticsError (exn_text e) |}).
Proof.
  split.
  - intros status alerts Hs ->. unfold McpMain.mcp_alerts. cbn.
    rewrite decide_True by done. cbn. rewrite count_severity_fold. cbn.
    split; [done|]. by eexists _, _, _.
  - intros Hbad. unfold McpMain.mcp_alerts.
    destruct reply as [[status [alerts|e]]|e]; cbn.
    + rewrite decide_False by by apply (Hbad status alerts). by exists HTTPError.
    + case_decide; [by exists e|by exists HTTPError].
    + by exists e.
Qed.

Lemma mcp_alerts_passes_alerts_witness :
  McpMain.reply_alerts
    (McpMain.mcp_alerts (Ok (Response 200 (Ok [flood_a; flood_b])))) = [flood_a; flood_b].
Proof.
  apply (proj1 (mcp_alerts_passes_alerts _) 200%Z [flood_a; flood_b]); [lia|reflexivity].
Defined.

(** ** Resources of a zone *)

Lemma high_severity_sublist (alerts alerts' : list alert) :
  alerts `sublist_of` alerts' →
  (length (high_severity_of alerts) ≤ length (high_severity_of alerts'))%nat.
Proof.
  intros Hsub. apply sublist_length. unfold high_severity_of.
  induction Hsub as [|a l k _ IH|a l k _ IH]; [done| |].
  - rewrite !filter_cons. case_decide; [by constructor|done].
  - rewrite filter_cons. case_decide; [by constructor|done].
Qed.

(** X24. The resources asked for a zone stay within fixed bounds (at most
    3 medical teams, 1 to 5 rescue teams, at most 1 communication unit,
    1 or 2 logistics supports: one rescue team and one logistics support
    are asked even for no alert), never more medical teams than alerts
    of severity 3 or more, and no figure goes down when alerts are added
    to the zone. *)
Theorem required_resources_bounded_monotone (alerts alerts' : list alert) :
  alerts `sublist_of` alerts' →
  let need := DecisionSupport.calculate_required_resources alerts in
  let need' := DecisionSupport.calculate_required_resources alerts' in
  (DecisionSupport.medical_teams need ≤ 3
   ∧ DecisionSupport.medical_teams need ≤ length (high_severity_of alerts)
   ∧ 1 ≤ DecisionSupport.rescue_teams need ≤ 5
   ∧ DecisionSupport.communication_units need ≤ 1
   ∧ 1 ≤ DecisionSupport.logistics_support need ≤ 2)%nat
  ∧ (DecisionSupport.medical_teams need ≤ DecisionSupport.medical_teams need'
     ∧ DecisionSupport.rescue_teams need ≤ DecisionSupport.rescue_teams need'
     ∧ DecisionSupport.communication_units need ≤ DecisionSupport.communication_units need'
     ∧ DecisionSupport.logistics_support need ≤ DecisionSupport.logistics_support need')%nat.
Proof.
  intros Hsub. pose proof (sublist_length _ _ Hsub) as Hlen.
  pose proof (high_severity_sublist _ _ Hsub) as Hhigh.
  cbn zeta. unfold DecisionSupport.calculate_required_resources.
  cbn [DecisionSupport.medical_teams DecisionSupport.rescue_teams
       DecisionSupport.communication_units DecisionSupport.logistics_support].
  set (n := length alerts) in *. set (n' := length alerts') in *.
  pose proof (Nat.Div0.div_le_mono n n' 5 Hlen).
  pose proof (Nat.Div0.div_le_mono n n' 10 Hlen).
  repeat case_decide; lia.
Qed.

Lemma required_resources_bounded_monotone_witness :
  (DecisionSupport.rescue_teams (DecisionSupport.calculate_required_resources [flood_a])
   ≤ DecisionSupport.rescue_teams
       (DecisionSupport.calculate_required_resources [flood_a; flood_b]))%nat.
Proof.
  apply (required_resources_bounded_monotone [flood_a] [flood_a; flood_b]).
  apply sublist_skip, sublist_nil_l.
Defined.

(** ** Push subscriptions *)

Lemma list_find_endpoint_None e (table : list Backend.PushSubscription) :
  list_find (λ row, Backend.endpoint row = e) table = None →
  e ∉ Backend.endpoint <$> table.
Proof.
  intros Hnone Hin. apply list_elem_of_fmap in Hin as (row & -> & Hrow).
  apply list_find_None in Hnone.
  by apply (proj1 (Forall_forall _ _) Hnone row Hrow).
Qed.

Lemma subscribe_unique subscription table :
  unique_endpoints table →
  unique_endpoints (snd (Backend.subscribe subscription table)).
Proof.
  unfold unique_endpoints, Backend.subscribe. intros Hnd.
  destruct (list_find _ table) as [[i existing]|] eqn:Hfind; [done|].
  destruct (Backend.sc_keys subscription !! "p256dh"); [|done].
  destruct (Backend.sc_keys subscription !! "auth"); [|done].
  cbn [snd]. rewrite fmap_app. apply NoDup_app. split; [done|]. split.
  - intros e He [->|[]%elem_of_nil]%elem_of_cons.
    by apply (list_find_endpoint_None _ _ Hfind).
  - cbn. apply NoDup_singleton.
Qed.

(** X25. Whatever requests are made, no two rows of the subscription
    table get the same endpoint, and the rows that were there stay as
    they are, in their place. *)
Theorem subscriptions_keep_endpoints_unique
    (subscriptions : list Backend.SubscriptionCreate)
    (table : list Backend.PushSubscription) :
  unique_endpoints table →
  unique_endpoints (Backend.subscribe_all subscriptions table)
  ∧ table `prefix_of` Backend.subscribe_all subscriptions table.
Proof.
  revert table. induction subscriptions as [|s rest IH]; intros table Hnd.
  - by split.
  - unfold Backend.subscribe_all. cbn [foldl].
    destruct (IH (snd (Backend.subscribe s table)) (subscribe_unique s table Hnd))
      as [Hu Hp].
    split; [done|]. etrans; [|exact Hp].
    unfold Backend.subscribe. repeat case_match; cbn; try done.
    by apply prefix_app_r.
Qed.

Lemma subscriptions_keep_endpoints_unique_witness :
  unique_endpoints
    (Backend.subscribe_all
       [ {| Backend.sc_endpoint := "https://push.example/1";
            Backend.sc_keys := {[ "p256dh" := "key"; "auth" := "secret" ]} |};
         {| Backend.sc_endpoint := "https://push.example/1";
            Backend.sc_keys := {[ "p256dh" := "other"; "auth" := "secret" ]} |} ] []).
Proof.
  apply subscriptions_keep_endpoints_unique. apply NoDup_nil_2.
Defined.

(** X26. A request that was answered is answered with the same id when it
    is made again, whatever keys it carries then, and the second request
    leaves the table as it is. *)
Theorem resubscribe_same_id (first again : Backend.SubscriptionCreate)
    (table table' : list Backend.PushSubscription) (reply : Backend.subscribe_reply) :
  Backend.sc_endpoint again = Backend.sc_endpoint first →
  Backend.subscribe first table = (Backend.Returned reply, table') →
  Backend.subscribe again table'
  = (Backend.Returned {| Backend.message := "Suscripción ya existe";
                         Backend.reply_id := Backend.reply_id reply |}, table').
Proof.
  intros Hsame. unfold Backend.subscribe. rewrite Hsame.
  destruct (list_find _ table) as [[i existing]|] eqn:Hfind.
  - intros [= <- <-]. by rewrite Hfind.
  - destruct (Backend.sc_keys first !! "p256dh") as [key|]; [|done].
    destruct (Backend.sc_keys first !! "auth") as [secret|]; [|done].
    intros [= <- <-].
    set (sub := {| Backend.ps_id := _ |}).
    assert (list_find (λ row, Backend.endpoint row = Backend.sc_endpoint first)
              (table ++ [sub]) = Some (length table, sub)) as ->; [|done].
    apply list_find_Some. split; [|split].
    + by rewrite lookup_app_r, Nat.sub_diag by lia.
    + done.
    + intros j row Hj Hlt. rewrite lookup_app_l in Hj by done.
      apply list_find_None in Hfind.
      apply (proj1 (Forall_forall _ _) Hfind row). by eapply list_elem_of_lookup_2.
Qed.

Lemma resubscribe_same_id_witness :
  Backend.subscribe
    {| Backend.sc_endpoint := "https://push.example/1"; Backend.sc_keys := ∅ |}
    [ {| Backend.ps_id := 1; Backend.endpoint := "https://push.example/1";
         Backend.p256dh := "key"; Backend.auth := "secret" |} ]
  = (Backend.Returned {| Backend.message := "Suscripción ya existe";
                         Backend.reply_id := 1 |},
     [ {| Backend.ps_id := 1; Backend.endpoint := "https://push.example/1";
          Backend.p256dh := "key"; Backend.auth := "secret" |} ]).
Proof.
  apply (resubscribe_same_id
           {| Backend.sc_endpoint := "https://push.example/1";
              Backend.sc_keys := {[ "p256dh" := "key"; "auth" := "secret" ]} |}
           {| Backend.sc_endpoint := "https://push.example/1"; Backend.sc_keys := ∅ |}
           []
           [ {| Backend.ps_id := 1; Backend.endpoint := "https://push.example/1";
                Backend.p256dh := "key"; Backend.auth := "secret" |} ]
           {| Backend.message := "Suscripción guardada"; Backend.reply_id := 1 |}).
  - reflexivity.
  - vm_compute. reflexivity.
Defined.

(** ** SMS *)

Section SmsFacts.
Context {alert_data : Type}.
Variable format_alert_message : alert_data → result string.
Variable messages_create : string → string → string → result unit.

Lemma send_to_cases self data count reached to :
  (sms_accepted format_alert_message messages_create self data to
   ∧ Backend.send_to format_alert_message messages_create self data (count, reached) to
     = (S count, reached ++ [to]))
  ∨ (¬ sms_accepted format_alert_message messages_create self data to
     ∧ Backend.send_to format_alert_message messages_create self data (count, reached) to
       = (count, reached)).
Proof.
  unfold Backend.send_to, sms_accepted.
  destruct (format_alert_message data) as [body|e] eqn:Hf; cbn.
  - destruct (messages_create body (Backend.phone_number self) to) as [[]|e] eqn:Hc; cbn.
    + left. split; [by exists body|done].
    + right. split; [|done]. intros (b & [= <-] & Hb). congruence.
  - right. split; [|done]. by intros (b & [=] & _).
Qed.

(** The loop: the count is the number of numbers reached, and they are
    the accepted ones, in the order of the list. *)
Lemma send_loop self data numbers count reached :
  ∃ more,
    foldl (Backend.send_to format_alert_message messages_create self data)
      (count, reached) numbers
    = ((count + length more)%nat, reached ++ more)
    ∧ more `sublist_of` numbers
    ∧ ∀ to, to ∈ more
        ↔ to ∈ numbers ∧ sms_accepted format_alert_message messages_create self data to.
Proof.
  revert count reached. induction numbers as [|to rest IH]; intros count reached.
  - exists []. cbn. rewrite app_nil_r, Nat.add_0_r. split; [done|]. split; [done|].
    intros to. rewrite !elem_of_nil. tauto.
  - cbn [foldl].
    destruct (send_to_cases self data count reached to) as [[Hacc ->]|[Hno ->]].
    + destruct (IH (S count) (reached ++ [to])) as (more & -> & Hsub & Hin).
      exists (to :: more). split; [|split].
      * f_equal; [cbn; lia|]. by rewrite <- app_assoc.
      * by constructor.
      * intros x. rewrite !elem_of_cons, Hin. split; [|tauto].
        intros [->|[? ?]]; tauto.
    + destruct (IH count reached) as (more & -> & Hsub & Hin).
      exists more. split; [done|]. split; [by constructor|].
      intros x. rewrite elem_of_cons, Hin. split; [tauto|].
      intros [[->|?] ?]; tauto.
Qed.

End SmsFacts.

(** X27. A number whose message fails does not stop the others: when the
    service is configured the numbers reached are the numbers of the
    list that the gateway accepts, in the order of the list; otherwise
    none is reached.  The value returned tells whether some number was
    reached. *)
Theorem sms_failures_are_isolated {alert_data : Type}
    (format_alert_message : alert_data → result string)
    (messages_create : string → string → string → result unit)
    (self : Backend.TwilioService) (data : alert_data) :
  let outcome := Backend.send_alert_sms format_alert_message messages_create self data in
  outcome.2 `sublist_of` Backend.alert_numbers self
  ∧ (∀ to, to ∈ outcome.2
       ↔ Backend.is_configured self = true ∧ to ∈ Backend.alert_numbers self
         ∧ sms_accepted format_alert_message messages_create self data to)
  ∧ (outcome.1 = true ↔ outcome.2 ≠ []).
Proof.
  cbn zeta. unfold Backend.send_alert_sms.
  destruct (Backend.is_configured self); cbn [negb].
  2: { cbn. split; [apply sublist_nil_l|]. split; [|done].
       intros to. rewrite elem_of_nil. split; [done|]. by intros [? _]. }
  destruct (Backend.alert_numbers self) as [|n rest] eqn:Hn.
  { cbn. split; [done|]. split; [|done].
    intros to. rewrite !elem_of_nil. tauto. }
  destruct (send_loop format_alert_message messages_create self data (n :: rest) 0%nat []) as (more & -> & Hsub & Hin).
  cbn [fst snd app Nat.add]. split; [done|]. split.
  - intros to. rewrite Hin. tauto.
  - rewrite bool_decide_eq_true. destruct more; cbn; [split; [lia|done]|split; [done|lia]].
Qed.

